(** * Baulkham Hills & Castle Hill property tracker: ledger, day-over-day
      change classification, accuracy report and rolling price average.

    A shallow embedding of
    - [PropertyDB.save_listings], [PropertyDB.get_daily_changes],
      [PropertyDB.get_comprehensive_daily_changes] and
      [PropertyDB.get_prediction_accuracy_report]
      (baulkandcastle_scraper.py), and
    - [compute_rolling_avg_price_per_m2]
      (src/baulkandcastle/ml/feature_engineering.py),
    and of the functions around them: [PropertyDB.update_daily_stats],
    [get_daily_history], [get_stats], [update_catchment_flags],
    [get_catchment_property_ids] and [get_listings_for_prediction],
    [BaulkandcastleScraper._extract_price_value] and [_convert_to_iso_date],
    and the property types of src/baulkandcastle/utils/property_types.py.

    SQLite tables are lists of rows in rowid order.  TEXT values are
    [string]s compared bytewise (SQLite's BINARY collation), INTEGER values
    are [Z], REAL values and Python floats are exact rationals [Q], and a
    nullable column is an [option]. *)

From Stdlib Require Import String Ascii List ZArith QArith Qround Qabs Bool Lia.
From Stdlib Require Import OrderedTypeEx Permutation Sorted Lqa.
Import ListNotations.

Open Scope string_scope.
Open Scope list_scope.

(* ===================================================================== *)
(** ** Text helpers: Python's [str.strip], [str.lower], [str.upper] and
       [s[:n]] on ASCII text, SQLite's ordering of TEXT values *)
(* ===================================================================== *)

(** [str.isspace] on one ASCII character: TAB, LF, VT, FF, CR, the four
    separators FS GS RS US, and the blank. *)
Definition isspace (c : ascii) : bool :=
  let n := nat_of_ascii c in
  ((9 <=? n)%nat && (n <=? 13)%nat) || ((28 <=? n)%nat && (n <=? 32)%nat).

Fixpoint lstrip (s : string) : string :=
  match s with
  | EmptyString => EmptyString
  | String c s' => if isspace c then lstrip s' else s
  end.

Fixpoint rstrip (s : string) : string :=
  match s with
  | EmptyString => EmptyString
  | String c s' =>
      match rstrip s' with
      | EmptyString => if isspace c then EmptyString else String c EmptyString
      | t => String c t
      end
  end.

(** [s.strip()] *)
Definition strip (s : string) : string := rstrip (lstrip s).

Definition lower_char (c : ascii) : ascii :=
  let n := nat_of_ascii c in
  if ((65 <=? n)%nat && (n <=? 90)%nat)%bool then ascii_of_nat (n + 32) else c.

Definition upper_char (c : ascii) : ascii :=
  let n := nat_of_ascii c in
  if ((97 <=? n)%nat && (n <=? 122)%nat)%bool then ascii_of_nat (n - 32) else c.

Fixpoint map_string (f : ascii -> ascii) (s : string) : string :=
  match s with
  | EmptyString => EmptyString
  | String c s' => String (f c) (map_string f s')
  end.

(** [s.lower()] and [s.upper()], on ASCII text ([is_ascii] below). *)
Definition lower (s : string) : string := map_string lower_char s.
Definition upper (s : string) : string := map_string upper_char s.

(** [s[:n]] *)
Definition prefix_slice (n : nat) (s : string) : string := substring 0 n s.

(** [a < b] and [a <= b] on TEXT. *)
Definition text_ltb (a b : string) : bool := String.ltb a b.
Definition text_leb (a b : string) : bool := String.leb a b.

(** [MAX(col)] over TEXT values: [None] is SQL NULL (no row). *)
Fixpoint sql_max_text (l : list string) : option string :=
  match l with
  | [] => None
  | x :: l' =>
      match sql_max_text l' with
      | None => Some x
      | Some m => if text_leb x m then Some m else Some x
      end
  end.

(** Python's [x or default] on an optional int and an optional str: [None],
    [0] and the empty string are falsy. *)
Definition py_or_int (o : option Z) (d : Z) : Z :=
  match o with
  | None => d
  | Some v => if (v =? 0)%Z then d else v
  end.

Definition py_or_str (o : option string) (d : string) : string :=
  match o with
  | None => d
  | Some "" => d
  | Some v => v
  end.

(** SQL three-valued logic for the comparisons the queries use. *)
Definition sql_ne_text (a b : option string) : option bool :=
  match a, b with
  | Some x, Some y => Some (negb (String.eqb x y))
  | _, _ => None
  end.

Definition sql_ne_int (a b : option Z) : option bool :=
  match a, b with
  | Some x, Some y => Some (negb (x =? y)%Z)
  | _, _ => None
  end.

Definition sql_or (a b : option bool) : option bool :=
  match a, b with
  | Some true, _ | _, Some true => Some true
  | Some false, Some false => Some false
  | _, _ => None
  end.

(** A WHERE clause keeps a row only when its condition is TRUE. *)
Definition sql_is_true (a : option bool) : bool :=
  match a with
  | Some true => true
  | _ => false
  end.

(* ===================================================================== *)
(** ** The ledger: [PropertyListing], the tables and [save_listings] *)
(* ===================================================================== *)

(** The [PropertyListing] dataclass. *)
Record PropertyListing := mkListing {
  id : string;
  address : string;
  suburb : string;
  price_display : string;
  price_value : Z;
  bedrooms : Z;
  bathrooms : Z;
  parking : Z;
  land_size : option string;
  property_type : option string;
  price_per_m2 : option Q;
  url : string;
  agent : string;
  scraped_at : string;
  status : string;
  sold_date : option string;
  sold_date_iso : option string;
  first_seen : option string
}.

(** A row of table [properties]. *)
Record PropertyRow := mkProperty {
  p_property_id : string;
  p_address : string;
  p_suburb : string;
  p_first_seen : string;
  p_url : string;
  p_in_excelsior_catchment : Z
}.

(** A row of table [listing_history], PRIMARY KEY (property_id, date,
    status).  [save_listings] is the only writer of the table, so a column
    has the type of the [PropertyListing] field it is bound to: the display
    price is always a text ([parse_domain_data] defaults it to "Contact
    Agent" or "Price Withheld"), the numeric price and the room counts are
    integers, and only the columns bound to [Optional] fields are
    nullable. *)
Record HistoryRow := mkHistory {
  h_property_id : string;
  h_date : string;
  h_status : string;
  h_price_display : string;
  h_price_value : Z;
  h_beds : Z;
  h_baths : Z;
  h_cars : Z;
  h_land_size : option string;
  h_property_type : option string;
  h_agent : string;
  h_scraped_at : string;
  h_sold_date : option string;
  h_sold_date_iso : option string;
  h_price_per_m2 : option Q
}.

(** Rows of [xgboost_predictions], [domain_estimates_history] and
    [domain_estimates], with the columns the accuracy report reads. *)
Record PredictionRow := mkPrediction {
  xp_property_id : string;
  xp_predicted_price : option Z;
  xp_predicted_at : option string
}.

Record EstimateRow := mkEstimate {
  de_property_id : string;
  de_estimate_mid : option Z;
  de_scraped_at : option string
}.

Record DB := mkDB {
  properties : list PropertyRow;
  listing_history : list HistoryRow;
  xgboost_predictions : list PredictionRow;
  domain_estimates_history : list EstimateRow;
  domain_estimates : list EstimateRow
}.

Definition empty_db : DB := mkDB [] [] [] [] [].

Definition with_properties (db : DB) (ps : list PropertyRow) : DB :=
  mkDB ps (listing_history db) (xgboost_predictions db)
       (domain_estimates_history db) (domain_estimates db).

Definition with_history (db : DB) (hs : list HistoryRow) : DB :=
  mkDB (properties db) hs (xgboost_predictions db)
       (domain_estimates_history db) (domain_estimates db).

(** The tuple of values both INSERT statements bind. *)
Definition history_row_of (today_str : string) (l : PropertyListing) : HistoryRow :=
  mkHistory (id l) today_str (status l) (price_display l) (price_value l)
            (bedrooms l) (bathrooms l) (parking l) (land_size l)
            (property_type l) (agent l) (scraped_at l) (sold_date l)
            (sold_date_iso l) (price_per_m2 l).

(** Two rows collide on the PRIMARY KEY of [listing_history]. *)
Definition same_key (a b : HistoryRow) : bool :=
  String.eqb (h_property_id a) (h_property_id b)
  && String.eqb (h_date a) (h_date b)
  && String.eqb (h_status a) (h_status b).

(** [SELECT 1 FROM listing_history WHERE property_id = ? AND status = 'sold'
    LIMIT 1] returns a row. *)
Definition has_sold_row (hs : list HistoryRow) (pid : string) : bool :=
  existsb (fun h => String.eqb (h_property_id h) pid
                    && String.eqb (h_status h) "sold") hs.

(** [INSERT INTO listing_history]: the row gets the next rowid. *)
Definition insert_history (hs : list HistoryRow) (r : HistoryRow) : list HistoryRow :=
  hs ++ [r].

(** [INSERT OR REPLACE INTO listing_history]: rows with the same key are
    deleted, then the row is inserted. *)
Definition insert_or_replace_history (hs : list HistoryRow) (r : HistoryRow)
  : list HistoryRow :=
  filter (fun h => negb (same_key h r)) hs ++ [r].

(** Step 1 of the loop body: the [properties] row is inserted when
    [SELECT first_seen FROM properties WHERE property_id = ?] finds none. *)
Definition known_property (today_str : string) (db : DB) (l : PropertyListing) : DB :=
  match find (fun p => String.eqb (p_property_id p) (id l)) (properties db) with
  | None =>
      with_properties db
        (properties db ++ [mkProperty (id l) (address l) (suburb l) today_str (url l) 0])
  | Some _ => db
  end.

(** One iteration of the loop of [save_listings].  The loop also writes the
    stored [first_seen] back into the listing object; no statement binds it.
    The integers of the record are stored as they are: this is the call for a
    record whose integers fit the 64 bits of an INTEGER ([storable] below);
    with another record the call raises OverflowError and the batch is rolled
    back. *)
Definition save_listing (today_str : string) (db : DB) (l : PropertyListing) : DB :=
  (* 1. Update/Insert property core record *)
  let db1 := known_property today_str db l in
  (* 2. SOLD: only insert if not already in the database *)
  if String.eqb (status l) "sold" then
    if has_sold_row (listing_history db1) (id l) then db1
    else with_history db1
           (insert_history (listing_history db1) (history_row_of today_str l))
  else
    (* 3. SALE: daily snapshot *)
    with_history db1
      (insert_or_replace_history (listing_history db1) (history_row_of today_str l)).

(** [save_listings]; [today_str] is [datetime.now().strftime('%Y-%m-%d')]. *)
Definition save_listings (today_str : string) (listings : list PropertyListing)
  (db : DB) : DB :=
  fold_left (save_listing today_str) listings db.

(** The ledger after a sequence of capture batches, from an empty database. *)
Definition run_batches (batches : list (string * list PropertyListing)) : DB :=
  fold_left (fun db b => save_listings (fst b) (snd b) db) batches empty_db.

(* ===================================================================== *)
(** ** The diff classifier: [get_daily_changes] and
       [get_comprehensive_daily_changes] *)
(* ===================================================================== *)

(** [dict(row)] of the change queries: the history row selected with [h.*],
    the joined property columns and the [old_*] aliases of the previous row.
    A key the query does not select is [None], as [d.get] reads it. *)
Record ChangeData := mkChange {
  cd_row : HistoryRow;
  cd_address : string;
  cd_url : string;
  cd_suburb : string;
  cd_old_price : option string;
  cd_old_status : option string;
  cd_old_beds : option Z;
  cd_old_baths : option Z;
  cd_old_cars : option Z;
  cd_old_price_value : option Z;
  cd_price_diff : option Z
}.

Definition cd_property_id (d : ChangeData) : string := h_property_id (cd_row d).

Inductive ChangeType := NEW | ADJUSTMENT.

Record Change := mkTyped {
  c_type : ChangeType;
  c_data : ChangeData
}.

Definition is_adjustment (c : Change) : bool :=
  match c_type c with ADJUSTMENT => true | NEW => false end.

(** [SELECT h.*, p.address, p.url, p.suburb]: one joined row. *)
Definition plain_change (h : HistoryRow) (p : PropertyRow) : ChangeData :=
  mkChange h (p_address p) (p_url p) (p_suburb p)
           None None None None None None None.

(** [JOIN properties p ON h.property_id = p.property_id] *)
Definition join_property (ps : list PropertyRow) (h : HistoryRow) : list PropertyRow :=
  filter (fun p => String.eqb (h_property_id h) (p_property_id p)) ps.

(** [(SELECT MAX(date) FROM listing_history WHERE property_id = ? AND
    date < ?)] *)
Definition property_prev_date (hs : list HistoryRow) (pid target_date : string)
  : option string :=
  sql_max_text
    (map h_date
       (filter (fun r => String.eqb (h_property_id r) pid
                         && text_ltb (h_date r) target_date) hs)).

(** [SELECT MAX(date) FROM listing_history WHERE date < ?] *)
Definition global_prev_date (hs : list HistoryRow) (target_date : string)
  : option string :=
  sql_max_text (map h_date (filter (fun r => text_ltb (h_date r) target_date) hs)).

(** [col = (subquery)] where the subquery may be NULL. *)
Definition sql_eq_scalar (x : string) (sub : option string) : bool :=
  match sub with
  | Some m => String.eqb x m
  | None => false
  end.

(** The OR of the six column comparisons of the ADJUSTMENT query. *)
Definition differs_at_all (h_now h_prev : HistoryRow) : option bool :=
  sql_or (sql_ne_text (Some (h_price_display h_now)) (Some (h_price_display h_prev)))
  (sql_or (sql_ne_text (Some (h_status h_now)) (Some (h_status h_prev)))
  (sql_or (sql_ne_int (Some (h_beds h_now)) (Some (h_beds h_prev)))
  (sql_or (sql_ne_int (Some (h_baths h_now)) (Some (h_baths h_prev)))
  (sql_or (sql_ne_int (Some (h_cars h_now)) (Some (h_cars h_prev)))
          (sql_ne_text (h_land_size h_now) (h_land_size h_prev)))))).

Definition adjustment_change (h_now : HistoryRow) (p : PropertyRow)
  (h_prev : HistoryRow) : ChangeData :=
  mkChange h_now (p_address p) (p_url p) (p_suburb p)
           (Some (h_price_display h_prev)) (Some (h_status h_prev))
           (Some (h_beds h_prev)) (Some (h_baths h_prev)) (Some (h_cars h_prev))
           None None.

(** Query 1 of both classifiers: listings first seen on [target_date]. *)
Definition new_rows (db : DB) (target_date : string) : list ChangeData :=
  flat_map (fun h =>
    if String.eqb (h_date h) target_date then
      map (plain_change h)
          (filter (fun p => String.eqb (p_first_seen p) target_date)
                  (join_property (properties db) h))
    else []) (listing_history db).

(** Query 2 of [get_daily_changes]: value or status changes against the
    property's own latest earlier date, in the table order of the rows of
    the target date; SQL fixes no order of the result. *)
Definition adjustment_rows (db : DB) (target_date : string) : list ChangeData :=
  flat_map (fun h_now =>
    if String.eqb (h_date h_now) target_date then
      flat_map (fun p =>
        flat_map (fun h_prev =>
          if String.eqb (h_property_id h_now) (h_property_id h_prev)
             && sql_eq_scalar (h_date h_prev)
                  (property_prev_date (listing_history db) (h_property_id h_now) target_date)
             && sql_is_true (differs_at_all h_now h_prev)
          then [adjustment_change h_now p h_prev] else [])
          (listing_history db))
        (join_property (properties db) h_now)
    else []) (listing_history db).

Definition get_daily_changes (db : DB) (target_date : string) : list Change :=
  map (mkTyped NEW) (new_rows db target_date)
  ++ map (mkTyped ADJUSTMENT) (adjustment_rows db target_date).

(** The [result] dict of [get_comprehensive_daily_changes]. *)
Record Changes := mkChanges {
  new : list ChangeData;
  sold : list ChangeData;
  disappeared : list ChangeData;
  price_changes : list ChangeData;
  guide_revealed : list ChangeData
}.

Definition old_price_change (h_now : HistoryRow) (p : PropertyRow)
  (h_prev : HistoryRow) : ChangeData :=
  mkChange h_now (p_address p) (p_url p) (p_suburb p)
           (Some (h_price_display h_prev)) None None None None
           (Some (h_price_value h_prev)) None.

(** The join shared by query 2 (SOLD, [now_status = "sold"]) and query 4
    (price rows, [now_status = "sale"]): the row on [target_date] against
    the 'sale' row of the same property on [prev_date]. *)
Definition against_prev_date (db : DB) (target_date prev_date now_status : string)
  : list ChangeData :=
  flat_map (fun h_now =>
    if String.eqb (h_date h_now) target_date
       && String.eqb (h_status h_now) now_status then
      flat_map (fun p =>
        flat_map (fun h_prev =>
          if String.eqb (h_property_id h_now) (h_property_id h_prev)
             && String.eqb (h_date h_prev) prev_date
             && String.eqb (h_status h_prev) "sale"
          then [old_price_change h_now p h_prev] else [])
          (listing_history db))
        (join_property (properties db) h_now)
    else []) (listing_history db).

(** Query 3: for sale on [prev_date], no row of any status on
    [target_date]. *)
Definition disappeared_rows (db : DB) (target_date prev_date : string)
  : list ChangeData :=
  flat_map (fun h_prev =>
    if String.eqb (h_date h_prev) prev_date
       && String.eqb (h_status h_prev) "sale"
       && negb (existsb (fun h_now =>
                  String.eqb (h_property_id h_now) (h_property_id h_prev)
                  && String.eqb (h_date h_now) target_date) (listing_history db))
    then map (plain_change h_prev) (join_property (properties db) h_prev)
    else []) (listing_history db).

(** The first-day query: every 'sale' row of [target_date]. *)
Definition first_day_rows (db : DB) (target_date : string) : list ChangeData :=
  flat_map (fun h =>
    if String.eqb (h_date h) target_date && String.eqb (h_status h) "sale"
    then map (plain_change h) (join_property (properties db) h)
    else []) (listing_history db).

Definition with_price_diff (d : ChangeData) (diff : Z) : ChangeData :=
  mkChange (cd_row d) (cd_address d) (cd_url d) (cd_suburb d)
           (cd_old_price d) (cd_old_status d) (cd_old_beds d) (cd_old_baths d)
           (cd_old_cars d) (cd_old_price_value d) (Some diff).

(** Where the body of the price loop files one row. *)
Inductive PriceVerdict :=
| Skip
| PriceChange (d : ChangeData)
| GuideRevealed (d : ChangeData).

Definition classify_price_row (d : ChangeData) : PriceVerdict :=
  let old_price := strip (py_or_str (cd_old_price d) "") in
  let new_price := strip (py_or_str (Some (h_price_display (cd_row d))) "") in
  let old_val := py_or_int (cd_old_price_value d) 0 in
  let new_val := py_or_int (Some (h_price_value (cd_row d))) 0 in
  (* Skip if both prices are identical (case-insensitive) *)
  if String.eqb (lower old_price) (lower new_price) then Skip
  (* Check for real value change *)
  else if ((old_val >? 0) && (new_val >? 0) && negb (old_val =? new_val))%Z then
    PriceChange (with_price_diff d (new_val - old_val))
  (* Check if auction guide was revealed *)
  else if ((old_val =? 0) && (new_val >? 0))%Z then GuideRevealed d
  (* Price hidden *)
  else if ((new_val =? 0) && (old_val >? 0))%Z then PriceChange d
  else Skip.

Definition verdict_price_change (v : PriceVerdict) : list ChangeData :=
  match v with PriceChange d => [d] | _ => [] end.

Definition verdict_guide_revealed (v : PriceVerdict) : list ChangeData :=
  match v with GuideRevealed d => [d] | _ => [] end.

Definition get_comprehensive_daily_changes (db : DB) (target_date : string)
  : Changes :=
  match global_prev_date (listing_history db) target_date with
  | None | Some "" =>
      (* if not prev_date: first day, all are new *)
      mkChanges (first_day_rows db target_date) [] [] [] []
  | Some prev_date =>
      let verdicts :=
        map classify_price_row (against_prev_date db target_date prev_date "sale") in
      mkChanges (new_rows db target_date)
                (against_prev_date db target_date prev_date "sold")
                (disappeared_rows db target_date prev_date)
                (flat_map verdict_price_change verdicts)
                (flat_map verdict_guide_revealed verdicts)
  end.

(* ===================================================================== *)
(** ** The accuracy evaluator: [get_prediction_accuracy_report] *)
(* ===================================================================== *)

(** The exception the date arithmetic of the report can raise. *)
Inductive exn := OverflowError.

Inductive result (A : Type) :=
| Ok (a : A)
| Raise (e : exn).

Arguments Ok {A} a.
Arguments Raise {A} e.

(** [timedelta(days=d)]: the magnitude of [d] is at most 999999999. *)
Definition timedelta (days : Z) : result Z :=
  if ((-999999999 <=? days) && (days <=? 999999999))%Z then Ok days
  else Raise OverflowError.

(** [dt - delta] on the proleptic Gregorian ordinal of [dt]: the result has
    to fall in years 1 to 9999, ordinals 1 to 3652059. *)
Definition datetime_sub (ordinal delta_days : Z) : result Z :=
  let o := (ordinal - delta_days)%Z in
  if ((1 <=? o) && (o <=? 3652059))%Z then Ok o else Raise OverflowError.

(** A row of [sold_properties]. *)
Record SoldRow := mkSold {
  s_property_id : string;
  s_address : string;
  s_suburb : string;
  s_sold_price : Z;
  s_sold_date : option string;
  s_sold_date_iso : option string;
  s_record_date : string;
  s_beds : Z;
  s_baths : Z;
  s_cars : Z;
  s_property_type : option string
}.

Definition option_text_eqb (a b : option string) : bool :=
  match a, b with
  | Some x, Some y => String.eqb x y
  | None, None => true
  | _, _ => false
  end.

Definition sold_row_eqb (a b : SoldRow) : bool :=
  String.eqb (s_property_id a) (s_property_id b)
  && String.eqb (s_address a) (s_address b)
  && String.eqb (s_suburb a) (s_suburb b)
  && (s_sold_price a =? s_sold_price b)%Z
  && option_text_eqb (s_sold_date a) (s_sold_date b)
  && option_text_eqb (s_sold_date_iso a) (s_sold_date_iso b)
  && String.eqb (s_record_date a) (s_record_date b)
  && (s_beds a =? s_beds b)%Z
  && (s_baths a =? s_baths b)%Z
  && (s_cars a =? s_cars b)%Z
  && option_text_eqb (s_property_type a) (s_property_type b).

(** [SELECT DISTINCT]: a later copy of an earlier row is dropped. *)
Fixpoint distinct_by {A : Type} (eqb : A -> A -> bool) (seen l : list A) : list A :=
  match l with
  | [] => []
  | x :: l' =>
      if existsb (eqb x) seen then distinct_by eqb seen l'
      else x :: distinct_by eqb (x :: seen) l'
  end.

(** Ordering of a nullable TEXT column: NULL sorts below every value. *)
Definition option_text_compare (a b : option string) : comparison :=
  match a, b with
  | None, None => Eq
  | None, Some _ => Lt
  | Some _, None => Gt
  | Some x, Some y => String.compare x y
  end.

(** [a] sorts strictly before [b] under
    [ORDER BY sold_date_iso DESC, date DESC]. *)
Definition sold_order_before (a b : SoldRow) : bool :=
  match option_text_compare (s_sold_date_iso a) (s_sold_date_iso b) with
  | Gt => true
  | Lt => false
  | Eq => text_ltb (s_record_date b) (s_record_date a)
  end.

(** A stable insertion sort: rows that tie keep their order. *)
Fixpoint insert_sorted {A : Type} (before : A -> A -> bool) (x : A) (l : list A)
  : list A :=
  match l with
  | [] => [x]
  | y :: l' => if before y x then y :: insert_sorted before x l' else x :: y :: l'
  end.

Definition order_by {A : Type} (before : A -> A -> bool) (l : list A) : list A :=
  fold_right (insert_sorted before) [] l.

(** The query for all sold properties with valid prices.  Rows equal in both
    sort keys keep their table order here; SQL fixes no order among them. *)
Definition sold_properties (db : DB) : list SoldRow :=
  order_by sold_order_before
    (distinct_by sold_row_eqb []
       (flat_map (fun p =>
          flat_map (fun h_sold =>
            if String.eqb (p_property_id p) (h_property_id h_sold)
               && String.eqb (h_status h_sold) "sold"
               && (h_price_value h_sold >? 0)%Z
            then [mkSold (p_property_id p) (p_address p) (p_suburb p)
                         (h_price_value h_sold) (h_sold_date h_sold)
                         (h_sold_date_iso h_sold) (h_date h_sold)
                         (h_beds h_sold) (h_baths h_sold) (h_cars h_sold)
                         (h_property_type h_sold)]
            else []) (listing_history db)) (properties db))).

(** [ORDER BY key DESC LIMIT 1] then [fetchone()]: the first row whose key
    is the greatest, [None] when there is no row. *)
Fixpoint latest_by {A : Type} (key : A -> option string) (l : list A) : option A :=
  match l with
  | [] => None
  | x :: l' =>
      match latest_by key l' with
      | None => Some x
      | Some y =>
          match option_text_compare (key x) (key y) with
          | Lt => Some y
          | _ => Some x
          end
      end
  end.

(** Decimal rounding of Python's [round(x, 1)], to the nearest tenth with
    ties to the even tenth.  The value is an exact rational here; the program
    rounds the binary double nearest to it, which can lie on either side of a
    tie. *)
Definition round_half_even (q : Q) : Z :=
  let f := Qfloor q in
  match Qcompare (q - inject_Z f) (1 # 2) with
  | Lt => f
  | Gt => (f + 1)%Z
  | Eq => if Z.even f then f else (f + 1)%Z
  end.

Definition round1 (q : Q) : Q := Qred (inject_Z (round_half_even (q * 10)) / 10).

(** [round((estimate - sold_price) / sold_price * 100, 1)] *)
Definition error_pct (estimate sold_price : Z) : Q :=
  round1 (inject_Z (estimate - sold_price) / inject_Z sold_price * 100).

(** The [comparison] dict of one sold property. *)
Record Comparison := mkComparison {
  cmp_property_id : string;
  cmp_address : string;
  cmp_suburb : string;
  cmp_sold_price : Z;
  cmp_sold_date : option string;
  cmp_sold_date_iso : string;
  cmp_beds : Z;
  cmp_baths : Z;
  cmp_cars : Z;
  cmp_property_type : option string;
  listed_price : option Z;
  listed_display : option string;
  xgboost_price : option Z;
  xgboost_date : option string;
  domain_estimate : option Z;
  domain_date : option string;
  listed_error_pct : option Q;
  xgboost_error_pct : option Q;
  domain_error_pct : option Q
}.

(** Python truthiness of an optional int. *)
Definition truthy_int (o : option Z) : bool :=
  match o with
  | Some v => negb (v =? 0)%Z
  | None => false
  end.

(** [ts[:10] if ts else None] *)
Definition date_part (ts : option string) : option string :=
  match ts with
  | None | Some "" => None
  | Some s => Some (prefix_slice 10 s)
  end.

(** The listing price query: the most recent 'sale' row of the property. *)
Definition select_listing (db : DB) (prop_id : string) : option HistoryRow :=
  latest_by (fun h => Some (h_date h))
    (filter (fun h => String.eqb (h_property_id h) prop_id
                      && String.eqb (h_status h) "sale") (listing_history db)).

(** The XGBoost prediction query. *)
Definition select_xgboost (db : DB) (prop_id : string) : option PredictionRow :=
  latest_by xp_predicted_at
    (filter (fun x => String.eqb (xp_property_id x) prop_id) (xgboost_predictions db)).

(** The Domain estimate query: the history table first, the current
    estimates table when the history has no row. *)
Definition select_domain (db : DB) (prop_id : string) : option EstimateRow :=
  match latest_by de_scraped_at
          (filter (fun e => String.eqb (de_property_id e) prop_id)
                  (domain_estimates_history db)) with
  | Some e => Some e
  | None => find (fun e => String.eqb (de_property_id e) prop_id) (domain_estimates db)
  end.

(** The body of the loop over [sold_properties]. *)
Definition compare_sold (db : DB) (sold : SoldRow) : Comparison :=
  let prop_id := s_property_id sold in
  let sold_price := s_sold_price sold in
  let listing := select_listing db prop_id in
  let xgb := select_xgboost db prop_id in
  let domain := select_domain db prop_id in
  let listed_ok :=
    match listing with
    | Some l => truthy_int (Some (h_price_value l)) && (h_price_value l >? 0)%Z
    | None => false
    end in
  let xgb_ok :=
    match xgb with Some x => truthy_int (xp_predicted_price x) | None => false end in
  let domain_ok :=
    match domain with Some e => truthy_int (de_estimate_mid e) | None => false end in
  mkComparison prop_id (s_address sold) (s_suburb sold) sold_price
    (s_sold_date sold)
    (py_or_str (s_sold_date_iso sold) (s_record_date sold))
    (s_beds sold) (s_baths sold) (s_cars sold) (s_property_type sold)
    (* listed_price, listed_display *)
    (match listing with
     | Some l => if listed_ok then Some (h_price_value l) else None
     | None => None
     end)
    (match listing with
     | Some l => Some (h_price_display l)
     | None => None
     end)
    (* xgboost_price, xgboost_date *)
    (match xgb with
     | Some x => if xgb_ok then xp_predicted_price x else None
     | None => None
     end)
    (match xgb with
     | Some x => if xgb_ok then date_part (xp_predicted_at x) else None
     | None => None
     end)
    (* domain_estimate, domain_date *)
    (match domain with
     | Some e => if domain_ok then de_estimate_mid e else None
     | None => None
     end)
    (match domain with
     | Some e => if domain_ok then date_part (de_scraped_at e) else None
     | None => None
     end)
    (* listed_error_pct, xgboost_error_pct, domain_error_pct *)
    (match listing with
     | Some l => if listed_ok then Some (error_pct (h_price_value l) sold_price) else None
     | None => None
     end)
    (match xgb with
     | Some x => if xgb_ok then Some (error_pct (py_or_int (xp_predicted_price x) 0) sold_price)
                 else None
     | None => None
     end)
    (match domain with
     | Some e => if domain_ok then Some (error_pct (py_or_int (de_estimate_mid e) 0) sold_price)
                 else None
     | None => None
     end).

(** Only include if we have at least one prediction to compare. *)
Definition has_prediction (c : Comparison) : bool :=
  truthy_int (listed_price c) || truthy_int (xgboost_price c)
  || truthy_int (domain_estimate c).

Definition comparisons_of (db : DB) : list Comparison :=
  filter has_prediction (map (compare_sold db) (sold_properties db)).

(** The statistics of one comparison source. *)
Record SourceStats := mkSourceStats {
  count : nat;
  total_error : Q;
  errors : list Q;
  mape : option Q;
  median_error : option Q
}.

Record Stats := mkStats {
  total_sold : nat;
  with_comparisons : nat;
  listed : SourceStats;
  xgboost : SourceStats;
  domain : SourceStats
}.

Definition present {A : Type} (l : list (option A)) : list A :=
  flat_map (fun o => match o with Some a => [a] | None => [] end) l.

(** [sorted(l)] on numbers. *)
Definition sorted (l : list Q) : list Q :=
  order_by (fun a b => negb (Qle_bool b a)) l.

(** The statistics of one source from its error column. *)
Definition source_stats (errs : list Q) : SourceStats :=
  let n := length errs in
  let total := fold_left (fun acc e => acc + Qabs e) errs 0 in
  match n with
  | O => mkSourceStats n total errs None None
  | S _ =>
      mkSourceStats n total errs
        (Some (round1 (total / inject_Z (Z.of_nat n))))
        (Some (nth (Nat.div n 2) (sorted (map Qabs errs)) 0))
  end.

Definition stats_of (db : DB) : Stats :=
  let comparisons := comparisons_of db in
  mkStats (length (sold_properties db)) (length comparisons)
          (source_stats (present (map listed_error_pct comparisons)))
          (source_stats (present (map xgboost_error_pct comparisons)))
          (source_stats (present (map domain_error_pct comparisons))).

Record Report := mkReport {
  comparisons : list Comparison;
  stats : Stats
}.

(** [get_prediction_accuracy_report]; [now_ordinal] is the day ordinal of
    [datetime.now()].  [cutoff_date] is computed first and read nowhere. *)
Definition get_prediction_accuracy_report (now_ordinal : Z) (db : DB)
  (days_back : Z) : result Report :=
  match timedelta days_back with
  | Raise e => Raise e
  | Ok delta =>
      match datetime_sub now_ordinal delta with
      | Raise e => Raise e
      | Ok cutoff_date => Ok (mkReport (comparisons_of db) (stats_of db))
      end
  end.

(* ===================================================================== *)
(** ** The rolling aggregate: [compute_rolling_avg_price_per_m2] *)
(* ===================================================================== *)

(** A row of the training data frame, with the columns the function reads.
    [None] is NaN in [price_per_m2] and NaT in [sold_date_parsed]; a parsed
    date is a number of seconds. *)
Record SaleSample := mkSample {
  df_suburb : string;
  df_price_per_m2 : option Q;
  df_sold_date_parsed : option Z
}.

Definition DataFrame := list SaleSample.

(** [df[col]] *)
Definition column {A : Type} (f : SaleSample -> A) (df : DataFrame) : list A :=
  map f df.

(** [a & b] on boolean Series of one index. *)
Fixpoint mask_and (a b : list bool) : list bool :=
  match a, b with
  | x :: a', y :: b' => (x && y) :: mask_and a' b'
  | _, _ => []
  end.

(** [series.loc[mask]] *)
Fixpoint loc {A : Type} (mask : list bool) (series : list A) : list A :=
  match mask, series with
  | m :: mask', x :: series' => if m then x :: loc mask' series' else loc mask' series'
  | _, _ => []
  end.

(** [series.notna()], [series > 0], [series < t], [series >= t]: a
    comparison with NaN or NaT is False. *)
Definition notna {A : Type} (s : list (option A)) : list bool :=
  map (fun o => match o with Some _ => true | None => false end) s.

Definition gt_zero (s : list (option Q)) : list bool :=
  map (fun o => match o with Some q => negb (Qle_bool q 0) | None => false end) s.

Definition lt_time (s : list (option Z)) (t : Z) : list bool :=
  map (fun o => match o with Some d => (d <? t)%Z | None => false end) s.

Definition ge_time (s : list (option Z)) (t : Z) : list bool :=
  map (fun o => match o with Some d => (t <=? d)%Z | None => false end) s.

(** [series.str.upper() == name] *)
Definition upper_eq (s : list string) (name : string) : list bool :=
  map (fun x => String.eqb (upper x) name) s.

(** [pd.Timedelta(days=n)] in seconds, for a number of days that pandas can
    represent ([Timedelta_representable] below). *)
Definition Timedelta_days (n : Z) : Z := (n * 86400)%Z.

(** [series.mean()] skips NaN. *)
Definition mean (s : list (option Q)) : Q :=
  let xs := present s in
  fold_right Qplus 0 xs / inject_Z (Z.of_nat (length xs)).

Definition compute_rolling_avg_price_per_m2 (df : DataFrame) (current_date : Z)
  (suburb : string) (lookback_days : Z) : Q :=
  let cutoff := (current_date - Timedelta_days lookback_days)%Z in
  let mask :=
    mask_and (mask_and (mask_and (mask_and
      (upper_eq (column df_suburb df) (upper suburb))
      (notna (column df_price_per_m2 df)))
      (gt_zero (column df_price_per_m2 df)))
      (lt_time (column df_sold_date_parsed df) current_date))
      (ge_time (column df_sold_date_parsed df) cutoff) in
  let subset := loc mask (column df_price_per_m2 df) in
  if (5 <=? length subset)%nat then mean subset
  else
    (* Fall back to overall average if not enough suburb data *)
    let overall_mask :=
      mask_and (mask_and (mask_and
        (notna (column df_price_per_m2 df))
        (gt_zero (column df_price_per_m2 df)))
        (lt_time (column df_sold_date_parsed df) current_date))
        (ge_time (column df_sold_date_parsed df) cutoff) in
    let overall_subset := loc overall_mask (column df_price_per_m2 df) in
    if (5 <=? length overall_subset)%nat then mean overall_subset
    else 5000.

(** The default argument [lookback_days=180]. *)
Definition default_lookback_days : Z := 180.

(** The four row conditions both masks of the function share, at the
    default look-back. *)
Definition valid_in_window (current_date : Z) (r : SaleSample) : bool :=
  match df_price_per_m2 r with Some _ => true | None => false end
  && match df_price_per_m2 r with Some q => negb (Qle_bool q 0) | None => false end
  && match df_sold_date_parsed r with Some d => (d <? current_date)%Z | None => false end
  && match df_sold_date_parsed r with
     | Some d => (current_date - Timedelta_days 180 <=? d)%Z
     | None => false
     end.

(** *** The rolling average as the specification words it *)

(** A price-per-area sample: a row with a recorded, positive price per
    area. *)
Definition sample_value (r : SaleSample) : option Q :=
  match df_price_per_m2 r with
  | Some q => if Qle_bool q 0 then None else Some q
  | None => None
  end.

(** The sale date lies in the half-open window
    [[as_of - lookback_days, as_of)]. *)
Definition in_window (as_of lookback_days : Z) (r : SaleSample) : bool :=
  match df_sold_date_parsed r with
  | Some d => ((as_of - lookback_days * 86400 <=? d) && (d <? as_of))%Z
  | None => false
  end.

Definition in_suburb (name : string) (r : SaleSample) : bool :=
  String.eqb (upper (df_suburb r)) (upper name).

(** The samples of the window, of one suburb or of all suburbs. *)
Definition window_samples (df : DataFrame) (as_of lookback_days : Z)
  (keep : SaleSample -> bool) : list Q :=
  present (map sample_value
             (filter (fun r => keep r && in_window as_of lookback_days r) df)).

Definition average (xs : list Q) : Q :=
  fold_right Qplus 0 xs / inject_Z (Z.of_nat (length xs)).

Definition default_price_per_area : Q := 5000.

Definition rolling_avg_spec (df : DataFrame) (suburb : string) (as_of : Z) : Q :=
  let own := window_samples df as_of 180 (in_suburb suburb) in
  let everywhere := window_samples df as_of 180 (fun _ => true) in
  if (5 <=? length own)%nat then average own
  else if (5 <=? length everywhere)%nat then average everywhere
  else default_price_per_area.

(* ===================================================================== *)
(** ** Integrity constraints of the ledger tables *)
(* ===================================================================== *)

(** The PRIMARY KEY of a [listing_history] row. *)
Definition key_of (h : HistoryRow) : string * string * string :=
  (h_property_id h, h_date h, h_status h).

(** No two rows of [listing_history] share a key. *)
Definition history_keys_unique (hs : list HistoryRow) : Prop :=
  NoDup (map key_of hs).

(** What holds of a database that capture batches have filled: the key of
    [listing_history] is unique, every history row has its [properties] row,
    and a capture date is never the empty text. *)
Record ledger_wf (db : DB) : Prop := mkWf {
  wf_history_key : history_keys_unique (listing_history db);
  wf_property : forall h, In h (listing_history db) ->
      exists p, In p (properties db) /\ p_property_id p = h_property_id h;
  wf_dates : forall h, In h (listing_history db) -> h_date h <> ""
}.

(** The FOR_SALE rows of one property on one date. *)
Definition for_sale_rows_on (hs : list HistoryRow) (pid date : string)
  : list HistoryRow :=
  filter (fun h => String.eqb (h_property_id h) pid
                   && String.eqb (h_date h) date
                   && String.eqb (h_status h) "sale") hs.

(* ===================================================================== *)
(** ** Example records and ledgers *)
(* ===================================================================== *)

(** A three-bedroom house in Castle Hill with the given id, status and
    price. *)
Definition listing (pid status display : string) (value : Z) : PropertyListing :=
  mkListing pid "12 Example St Castle Hill" "CASTLE HILL" display value 3 2 1
            (Some "450m2") (Some "house") None
            "https://www.domain.com.au/p" "Domain" "2024-01-01T09:00:00" status
            None None None.

(** The same house as a SOLD record with its sale date. *)
Definition sold_listing (pid display : string) (value : Z)
  (sale_date sale_date_iso : string) : PropertyListing :=
  mkListing pid "12 Example St Castle Hill" "CASTLE HILL" display value 3 2 1
            (Some "450m2") (Some "house") None
            "https://www.domain.com.au/p" "Domain" "2024-01-01T09:00:00" "sold"
            (Some sale_date) (Some sale_date_iso) None.

(** P1 was captured as sold on 2024-06-01. *)
Definition db_sold_once : DB :=
  run_batches [("2024-06-01", [listing "P1" "sold" "$900,000" 900000])].


(** The scenario of the specification: P1 is for sale at $1,000,000 on
    2024-01-01 and at $1,050,000 on 2024-01-02. *)
Definition db_scenario : DB :=
  run_batches
    [("2024-01-01", [listing "P1" "sale" "$1,000,000" 1000000]);
     ("2024-01-02", [listing "P1" "sale" "$1,050,000" 1050000])].

(** The PRICE_CHANGE entry of the scenario, with [price_diff = 50000]. *)
Definition scenario_price_change : ChangeData :=
  with_price_diff
    (old_price_change
       (history_row_of "2024-01-02" (listing "P1" "sale" "$1,050,000" 1050000))
       (mkProperty "P1" "12 Example St Castle Hill" "CASTLE HILL" "2024-01-01"
                   "https://www.domain.com.au/p" 0)
       (history_row_of "2024-01-01" (listing "P1" "sale" "$1,000,000" 1000000)))
    50000.


(** P1 is listed twice with the same price text up to letter case and a
    trailing blank. *)
Definition db_case_only : DB :=
  run_batches
    [("2024-01-01", [listing "P1" "sale" "Offers over $1,500,000" 1500000]);
     ("2024-01-02", [listing "P1" "sale" "OFFERS OVER $1,500,000 " 1500000])].

(** P1 publishes a price guide and P2 hides its price between 2024-01-01
    and 2024-01-02. *)
Definition db_guide_and_hidden : DB :=
  run_batches
    [("2024-01-01", [listing "P1" "sale" "Contact Agent" 0;
                     listing "P2" "sale" "$900,000" 900000]);
     ("2024-01-02", [listing "P1" "sale" "$900,000" 900000;
                     listing "P2" "sale" "Contact Agent" 0])].


(** P1 is captured on 2024-01-01 and again on 2024-01-05 with a new price;
    in between, on 2024-01-04, only P2 is captured. *)
Definition db_gap : DB :=
  run_batches
    [("2024-01-01", [listing "P1" "sale" "$1,000,000" 1000000]);
     ("2024-01-04", [listing "P2" "sale" "$800,000" 800000]);
     ("2024-01-05", [listing "P1" "sale" "$1,050,000" 1050000;
                     listing "P2" "sale" "$800,000" 800000])].

(* ===================================================================== *)
(** ** The per-property baseline, as the specification words it *)
(* ===================================================================== *)

(** Read for the PRICE_CHANGE category: a FOR_SALE snapshot on the target
    date is compared against the property's own most recent prior record,
    so when that record is a FOR_SALE snapshot with another known price and
    another display text, the property is reported as a PRICE_CHANGE. *)
Definition price_change_against_own_previous (db : DB) (target_date : string)
  : Prop :=
  forall h_now h_prev,
    In h_now (listing_history db) -> In h_prev (listing_history db) ->
    h_property_id h_prev = h_property_id h_now ->
    h_date h_now = target_date ->
    property_prev_date (listing_history db) (h_property_id h_now) target_date
    = Some (h_date h_prev) ->
    h_status h_now = "sale" -> h_status h_prev = "sale" ->
    (h_price_value h_prev > 0)%Z -> (h_price_value h_now > 0)%Z ->
    h_price_value h_prev <> h_price_value h_now ->
    lower (strip (h_price_display h_prev)) <> lower (strip (h_price_display h_now)) ->
    exists d,
      In d (price_changes (get_comprehensive_daily_changes db target_date))
      /\ cd_row d = h_now.


(** P1 was for sale on 2024-05-20, and sold and captured as sold on
    2024-06-01 for $900,000.  Its Domain estimate was read on 2024-05-20 and again on
    2024-06-05, after the sale; the model prediction was refreshed on
    2024-06-10. *)
Definition db_estimate_after_sale : DB :=
  let ledger :=
    run_batches
      [("2024-05-20", [listing "P1" "sale" "$1,000,000" 1000000]);
       ("2024-06-01",
        [sold_listing "P1" "$900,000 (01 Jun 2024)" 900000 "01 Jun 2024" "2024-06-01"])] in
  mkDB (properties ledger) (listing_history ledger)
       [mkPrediction "P1" (Some 990000%Z) (Some "2024-06-10T08:00:00")]
       [mkEstimate "P1" (Some 950000%Z) (Some "2024-05-20T10:00:00");
        mkEstimate "P1" (Some 905000%Z) (Some "2024-06-05T10:00:00")]
       [mkEstimate "P1" (Some 905000%Z) (Some "2024-06-05T10:00:00")].

(** P1 was for sale on 2024-05-20, sold and captured as sold on 2024-06-01,
    and listed again on 2024-07-10. *)
Definition db_relisted : DB :=
  run_batches
    [("2024-05-20", [listing "P1" "sale" "$1,000,000" 1000000]);
     ("2024-06-01",
      [sold_listing "P1" "$900,000 (01 Jun 2024)" 900000 "01 Jun 2024" "2024-06-01"]);
     ("2024-07-10", [listing "P1" "sale" "$1,300,000" 1300000])].

(** The day ordinal of 2024-06-15. *)
Definition ordinal_2024_06_15 : Z := 739052.

(** [days_back] values for which the cutoff date can be computed on the day
    [now_ordinal]. *)
Definition cutoff_representable (now_ordinal days_back : Z) : Prop :=
  (-999999999 <= days_back <= 999999999)%Z
  /\ (1 <= now_ordinal - days_back <= 3652059)%Z.


(** The fallback scenario of the specification: three samples in suburb A
    and ten in suburb B, all sold within the 180 days before day 200 (times
    in seconds). *)
Definition sample_on (suburb : string) (day : Z) (price_per_area : Q) : SaleSample :=
  mkSample suburb (Some price_per_area) (Some (day * 86400)%Z).

Definition df_three_and_ten : DataFrame :=
  [sample_on "A" 100 9000; sample_on "A" 110 9300; sample_on "A" 120 9600;
   sample_on "B" 100 4000; sample_on "B" 105 4100; sample_on "B" 110 4200;
   sample_on "B" 115 4300; sample_on "B" 120 4400; sample_on "B" 125 4500;
   sample_on "B" 130 4600; sample_on "B" 135 4700; sample_on "B" 140 4800;
   sample_on "B" 145 4900].

(* ===================================================================== *)
(** ** Further integrity constraints and views of the ledger *)
(* ===================================================================== *)

(** [property_id] is the PRIMARY KEY of [properties]. *)
Definition property_ids_unique (ps : list PropertyRow) : Prop :=
  NoDup (map p_property_id ps).

(** The SOLD rows of one property. *)
Definition sold_rows_of (hs : list HistoryRow) (pid : string) : list HistoryRow :=
  filter (fun h => String.eqb (h_property_id h) pid
                   && String.eqb (h_status h) "sold") hs.

(** The [properties] row step 1 of [save_listings] inserts for a listing. *)
Definition property_row_of (today_str : string) (l : PropertyListing) : PropertyRow :=
  mkProperty (id l) (address l) (suburb l) today_str (url l) 0.


(** P1 and P2 are for sale on 2024-01-01; on 2024-01-02 P1 is captured at a
    new price and P2 is not captured. *)
Definition db_withdrawn : DB :=
  run_batches
    [("2024-01-01", [listing "P1" "sale" "$1,000,000" 1000000;
                     listing "P2" "sale" "$900,000" 900000]);
     ("2024-01-02", [listing "P1" "sale" "$1,050,000" 1050000])].


(* ===================================================================== *)
(** ** The daily tally: [update_daily_stats] and [get_daily_history] *)
(* ===================================================================== *)

(** A row of table [daily_summary], PRIMARY KEY (date).  The table is kept
    beside [DB], which has the tables the other functions read. *)
Record SummaryRow := mkSummary {
  ds_date : string;
  ds_new_count : nat;
  ds_sold_count : nat;
  ds_adj_count : nat
}.

Definition is_new (c : Change) : bool :=
  match c_type c with NEW => true | ADJUSTMENT => false end.

(** [h.date = (SELECT MAX(date) FROM listing_history WHERE date < ?)
    AND h.status = 'sale'] *)
Definition for_sale_on_prev_date (hs : list HistoryRow) (target_date : string)
  (h : HistoryRow) : bool :=
  sql_eq_scalar (h_date h) (global_prev_date hs target_date)
  && String.eqb (h_status h) "sale".

(** The first COUNT: for sale on the previous date, no row on the target
    date. *)
Definition gone_count (db : DB) (target_date : string) : nat :=
  length
    (filter (fun h_prev =>
       for_sale_on_prev_date (listing_history db) target_date h_prev
       && negb (existsb (fun h_now =>
                  String.eqb (h_property_id h_now) (h_property_id h_prev)
                  && String.eqb (h_date h_now) target_date) (listing_history db)))
       (listing_history db)).

(** The second COUNT: sold on the target date, with [property_id IN] the
    properties for sale on the previous date. *)
Definition moved_to_sold_count (db : DB) (target_date : string) : nat :=
  length
    (filter (fun h =>
       String.eqb (h_date h) target_date && String.eqb (h_status h) "sold"
       && existsb (fun s => String.eqb (h_property_id h) (h_property_id s))
            (filter (for_sale_on_prev_date (listing_history db) target_date)
                    (listing_history db)))
       (listing_history db)).

(** The row that [update_daily_stats] computes for a date. *)
Definition daily_counts (db : DB) (target_date : string) : SummaryRow :=
  let changes := get_daily_changes db target_date in
  let new_count := length (filter is_new changes) in
  let adj_count := length (filter is_adjustment changes) in
  let sold_count := (gone_count db target_date + moved_to_sold_count db target_date)%nat in
  mkSummary target_date new_count sold_count adj_count.

(** [update_daily_stats]: [INSERT OR REPLACE INTO daily_summary]. *)
Definition update_daily_stats (db : DB) (daily_summary : list SummaryRow)
  (target_date : string) : list SummaryRow :=
  filter (fun r => negb (String.eqb (ds_date r) target_date)) daily_summary
  ++ [daily_counts db target_date].

(** [get_daily_history]: [SELECT * FROM daily_summary ORDER BY date DESC]. *)
Definition get_daily_history (daily_summary : list SummaryRow) : list SummaryRow :=
  order_by (fun a b => text_ltb (ds_date b) (ds_date a)) daily_summary.


(** Rows newest first: [b], listed after [a], is not dated after [a]. *)
Definition newest_first (a b : SummaryRow) : Prop :=
  text_leb (ds_date b) (ds_date a) = true.


(* ===================================================================== *)
(** ** Catchment flags: [update_catchment_flags] and
       [get_catchment_property_ids] *)
(* ===================================================================== *)

Definition with_catchment (p : PropertyRow) (flag : Z) : PropertyRow :=
  mkProperty (p_property_id p) (p_address p) (p_suburb p) (p_first_seen p)
             (p_url p) flag.

(** [UPDATE properties SET in_excelsior_catchment = 0] *)
Definition reset_catchment (ps : list PropertyRow) : list PropertyRow :=
  map (fun p => with_catchment p 0) ps.

(** [UPDATE properties SET in_excelsior_catchment = 1 WHERE property_id = ?]
    with its [cursor.rowcount]. *)
Definition mark_catchment (ps : list PropertyRow) (prop_id : string)
  : list PropertyRow * nat :=
  (map (fun p => if String.eqb (p_property_id p) prop_id
                 then with_catchment p 1 else p) ps,
   length (filter (fun p => String.eqb (p_property_id p) prop_id) ps)).

(** The loop over [catchment_ids], a set given in its iteration order: the
    table and [updated_ids]. *)
Definition mark_all (ps : list PropertyRow) (catchment_ids : list string)
  : list PropertyRow * list string :=
  fold_left (fun st prop_id =>
               let marked := mark_catchment (fst st) prop_id in
               (fst marked,
                if (0 <? snd marked)%nat then snd st ++ [prop_id] else snd st))
            catchment_ids (ps, []).

(** The [prop_info] dict. *)
Record CatchmentInfo := mkInfo {
  ci_property_id : string;
  ci_address : string;
  ci_suburb : string;
  ci_price : string
}.

(** The dict that [update_catchment_flags] returns. *)
Record CatchmentResult := mkCatchmentResult {
  updated_count : nat;
  cr_for_sale : list CatchmentInfo;
  cr_sold : list CatchmentInfo;
  catchment_ids_found : nat
}.

(** [a] is read before [b] when the rows of one property are read by date,
    newest first.  SQL leaves the order of rows of one date open; SQLite reads
    them from the index of the primary key (property_id, date, status)
    backwards, the greater status first: a 'sold' row before a 'sale' row of
    the same date. *)
Definition read_before (a b : HistoryRow) : bool :=
  match String.compare (h_date a) (h_date b) with
  | Gt => true
  | Lt => false
  | Eq => text_ltb (h_status b) (h_status a)
  end.

(** [... LIMIT 1]: the row that is read first. *)
Fixpoint first_by {A : Type} (before : A -> A -> bool) (l : list A) : option A :=
  match l with
  | [] => None
  | x :: l' =>
      match first_by before l' with
      | None => Some x
      | Some y => if before y x then Some y else Some x
      end
  end.

(** The row both scalar subqueries [... WHERE lh.property_id = p.property_id
    ORDER BY lh.date DESC LIMIT 1] read. *)
Definition current_row (hs : list HistoryRow) (pid : string) : option HistoryRow :=
  first_by read_before (filter (fun h => String.eqb (h_property_id h) pid) hs).

(** [a] sorts strictly before [b] under [ORDER BY p.suburb, p.address].  Rows
    equal in both keep the order in which [WHERE p.property_id IN (...)] reads
    them, which in SQLite is the order of the primary-key index: by
    [property_id]. *)
Definition suburb_address_before (a b : PropertyRow) : bool :=
  match String.compare (p_suburb a) (p_suburb b) with
  | Lt => true
  | Gt => false
  | Eq =>
      match String.compare (p_address a) (p_address b) with
      | Lt => true
      | Gt => false
      | Eq => text_ltb (p_property_id a) (p_property_id b)
      end
  end.

(** The details query over the updated properties. *)
Definition catchment_details (db : DB) (updated_ids : list string)
  : list PropertyRow :=
  match updated_ids with
  | [] => []
  | _ =>
      order_by suburb_address_before
        (filter (fun p => existsb (String.eqb (p_property_id p)) updated_ids)
                (properties db))
  end.

Definition catchment_info (db : DB) (p : PropertyRow) : CatchmentInfo :=
  mkInfo (p_property_id p) (p_address p) (p_suburb p)
         (py_or_str (option_map h_price_display
                       (current_row (listing_history db) (p_property_id p))) "N/A").

(** [status = row[3] or 'sale'] *)
Definition current_status (db : DB) (p : PropertyRow) : string :=
  py_or_str (option_map h_status
               (current_row (listing_history db) (p_property_id p))) "sale".

Definition update_catchment_flags (db : DB) (catchment_ids : list string)
  : DB * CatchmentResult :=
  let marked := mark_all (reset_catchment (properties db)) catchment_ids in
  let db' := with_properties db (fst marked) in
  let updated_ids := snd marked in
  let rows := catchment_details db' updated_ids in
  (db',
   mkCatchmentResult
     (length updated_ids)
     (map (catchment_info db')
          (filter (fun p => negb (String.eqb (current_status db' p) "sold")) rows))
     (map (catchment_info db')
          (filter (fun p => String.eqb (current_status db' p) "sold") rows))
     (length catchment_ids)).

(** [get_catchment_property_ids]: the set of flagged ids, in table order. *)
Definition get_catchment_property_ids (db : DB) : list string :=
  map p_property_id
      (filter (fun p => (p_in_excelsior_catchment p =? 1)%Z) (properties db)).


(* ===================================================================== *)
(** ** [get_listings_for_prediction] *)
(* ===================================================================== *)

(** A row of the query: the features the model needs. *)
Record ListingFeatures := mkFeatures {
  lf_property_id : string;
  lf_suburb : string;
  lf_beds : Z;
  lf_baths : Z;
  lf_cars : Z;
  lf_land_size : option string;
  lf_property_type : option string
}.

(** [(SELECT MAX(date) FROM listing_history WHERE property_id = ? AND
    status = ?)] *)
Definition status_latest_date (hs : list HistoryRow) (pid status : string)
  : option string :=
  sql_max_text
    (map h_date
       (filter (fun r => String.eqb (h_property_id r) pid
                         && String.eqb (h_status r) status) hs)).

(** The WHERE clause: the row has the status and the latest date of its
    property among the rows of that status. *)
Definition is_latest_of_status (hs : list HistoryRow) (status : string)
  (h : HistoryRow) : bool :=
  String.eqb (h_status h) status
  && sql_eq_scalar (h_date h) (status_latest_date hs (h_property_id h) status).

Definition features_of (h : HistoryRow) (p : PropertyRow) : ListingFeatures :=
  mkFeatures (h_property_id h) (p_suburb p) (h_beds h) (h_baths h) (h_cars h)
             (h_land_size h) (h_property_type h).

Definition get_listings_for_prediction (db : DB) (status : string)
  : list ListingFeatures :=
  flat_map (fun h =>
    if is_latest_of_status (listing_history db) status h
    then map (features_of h) (join_property (properties db) h)
    else []) (listing_history db).


(* ===================================================================== *)
(** ** Property types (src/baulkandcastle/utils/property_types.py) *)
(* ===================================================================== *)

(** The dict [PROPERTY_TYPE_MAP], in the order of its literal. *)
Definition PROPERTY_TYPE_MAP : list (string * string) :=
  [("house", "house"); ("free-standing", "house"); ("duplex", "house");
   ("semi-detached", "house"); ("terrace", "house"); ("villa", "house");
   ("acreage", "house"); ("rural", "house");
   ("unit", "unit"); ("apartment", "unit"); ("apartment-unit-flat", "unit");
   ("studio", "unit"); ("pent-house", "unit"); ("penthouse", "unit");
   ("flat", "unit"); ("serviced-apartment", "unit");
   ("townhouse", "townhouse"); ("town-house", "townhouse");
   ("other", "other"); ("vacant-land", "other"); ("land", "other");
   ("block-of-units", "other"); ("development-site", "other");
   ("commercial", "other"); ("retirement", "other")].

Definition PROPERTY_CATEGORIES : list string := ["house"; "unit"; "townhouse"; "other"].

Definition UNIT_TYPES : list string :=
  ["unit"; "apartment"; "apartment-unit-flat"; "studio"; "pent-house"; "penthouse";
   "flat"; "serviced-apartment"].

Definition HOUSE_TYPES : list string :=
  ["house"; "free-standing"; "duplex"; "semi-detached"; "terrace"; "villa";
   "acreage"; "rural"].

Definition TOWNHOUSE_TYPES : list string := ["townhouse"; "town-house"].

(** [d.get(key, default)] *)
Fixpoint dict_get (d : list (string * string)) (key default : string) : string :=
  match d with
  | [] => default
  | (k, v) :: d' => if String.eqb k key then v else dict_get d' key default
  end.

(** [key in s] on a set of strings. *)
Definition set_mem (key : string) (s : list string) : bool :=
  existsb (String.eqb key) s.

(** [str(prop_type).lower().strip()] *)
Definition type_key (prop_type : string) : string := strip (lower prop_type).

Definition consolidate_property_type (prop_type : option string) : string :=
  match prop_type with
  | None | Some "" => "other"
  | Some s => dict_get PROPERTY_TYPE_MAP (type_key s) "other"
  end.

Definition is_unit_type (prop_type : option string) : bool :=
  match prop_type with
  | None | Some "" => false
  | Some s =>
      set_mem (type_key s) UNIT_TYPES
      || String.eqb (consolidate_property_type prop_type) "unit"
  end.

Definition is_house_type (prop_type : option string) : bool :=
  match prop_type with
  | None | Some "" => false
  | Some s =>
      set_mem (type_key s) HOUSE_TYPES
      || String.eqb (consolidate_property_type prop_type) "house"
  end.

Definition is_townhouse_type (prop_type : option string) : bool :=
  match prop_type with
  | None | Some "" => false
  | Some s =>
      set_mem (type_key s) TOWNHOUSE_TYPES
      || String.eqb (consolidate_property_type prop_type) "townhouse"
  end.

Definition get_default_land_size (prop_type : option string) : Q :=
  let consolidated := consolidate_property_type prop_type in
  if String.eqb consolidated "house" then 550
  else if String.eqb consolidated "townhouse" then 250
  else if String.eqb consolidated "unit" then 0
  else 400.


(* ===================================================================== *)
(** ** [get_stats] *)
(* ===================================================================== *)

(** The dict [get_stats] returns. *)
Record SummaryStats := mkSummaryStats {
  total_tracked : nat;
  count_sale : nat;
  avg_price_sale : Z;
  baulkham_hills_count : nat;
  castle_hill_count : nat;
  excelsior_catchment_count : nat;
  excelsior_catchment_sale : nat;
  excelsior_catchment_sold : nat
}.

(** [status='sale' AND date=(SELECT MAX(date) FROM listing_history)] *)
Definition sale_on_latest_date (hs : list HistoryRow) (h : HistoryRow) : bool :=
  String.eqb (h_status h) "sale"
  && sql_eq_scalar (h_date h) (sql_max_text (map h_date hs)).

(** [AVG(x)]: NULL over no row, else the sum over the count, a REAL. *)
Definition sql_avg (xs : list Z) : option Q :=
  match xs with
  | [] => None
  | _ => Some (inject_Z (fold_right Z.add 0%Z xs) / inject_Z (Z.of_nat (length xs)))
  end.

(** [int(x)] of a float: truncation towards zero. *)
Definition py_int (x : Q) : Z :=
  if Qle_bool 0 x then Qfloor x else Qceiling x.

(** [int(row[0]) if row[0] else 0] *)
Definition int_or_zero (x : option Q) : Z :=
  match x with
  | None => 0%Z
  | Some v => if Qeq_bool v 0 then 0%Z else py_int v
  end.

(** [COUNT(DISTINCT p.property_id)] over the join of [properties] with
    [listing_history], flagged properties and the history rows [keep]
    selects. *)
Definition count_catchment_with (db : DB) (keep : HistoryRow -> bool) : nat :=
  length (nodup string_dec
    (flat_map (fun p =>
       flat_map (fun h =>
         if String.eqb (p_property_id p) (h_property_id h)
            && (p_in_excelsior_catchment p =? 1)%Z
            && keep h
         then [p_property_id p] else [])
         (listing_history db))
       (properties db))).

Definition get_stats (db : DB) : SummaryStats :=
  let hs := listing_history db in
  mkSummaryStats
    (length (properties db))
    (length (filter (sale_on_latest_date hs) hs))
    (int_or_zero
       (sql_avg (map h_price_value
                     (filter (fun h => String.eqb (h_status h) "sale"
                                       && (h_price_value h >? 0)%Z
                                       && sql_eq_scalar (h_date h)
                                            (sql_max_text (map h_date hs)))
                             hs))))
    (length (filter (fun p => String.eqb (p_suburb p) "BAULKHAM HILLS") (properties db)))
    (length (filter (fun p => String.eqb (p_suburb p) "CASTLE HILL") (properties db)))
    (length (filter (fun p => (p_in_excelsior_catchment p =? 1)%Z) (properties db)))
    (count_catchment_with db (sale_on_latest_date hs))
    (count_catchment_with db (fun h => String.eqb (h_status h) "sold")).


(* ===================================================================== *)
(** ** Price text and sale dates of a scraped listing
       ([BaulkandcastleScraper._extract_price_value],
        [BaulkandcastleScraper._convert_to_iso_date]) *)
(* ===================================================================== *)

(** What [\d] and [[A-Za-z]] match on ASCII text. *)
Definition isdigit (c : ascii) : bool :=
  let n := nat_of_ascii c in ((48 <=? n)%nat && (n <=? 57)%nat).

Definition isalpha (c : ascii) : bool :=
  let n := nat_of_ascii c in
  ((65 <=? n)%nat && (n <=? 90)%nat) || ((97 <=? n)%nat && (n <=? 122)%nat).

(** A greedy bounded repetition [x{0,n}] of a one-character class at the
    head of [s]: the matched text and the rest. *)
Fixpoint take_upto (f : ascii -> bool) (n : nat) (s : string) : string * string :=
  match n, s with
  | S n', String c s' =>
      if f c then let (m, r) := take_upto f n' s' in (String c m, r)
      else (EmptyString, s)
  | _, _ => (EmptyString, s)
  end.

(** The greedy [(?:,\d{3})*] at the head of [s]: the matched text. *)
Fixpoint comma_groups (s : string) : string :=
  match s with
  | String k (String a (String b (String c rest))) =>
      if Ascii.eqb k "," && isdigit a && isdigit b && isdigit c
      then String k (String a (String b (String c (comma_groups rest))))
      else EmptyString
  | _ => EmptyString
  end.

(** [re.findall(r'\d{1,3}(?:,\d{3})*', s)[0]], [None] for an empty list: the
    match at the first digit of [s]. *)
Fixpoint first_number (s : string) : option string :=
  match s with
  | EmptyString => None
  | String c s' =>
      if isdigit c
      then Some (let (m, r) := take_upto isdigit 3 s in (m ++ comma_groups r)%string)
      else first_number s'
  end.

(** [num.replace(',', '')] *)
Fixpoint remove_commas (s : string) : string :=
  match s with
  | EmptyString => EmptyString
  | String c s' => if Ascii.eqb c "," then remove_commas s' else String c (remove_commas s')
  end.

Definition digit_value (c : ascii) : Z := Z.of_nat (nat_of_ascii c - 48).

Fixpoint digits_value (acc : Z) (s : string) : Z :=
  match s with
  | EmptyString => acc
  | String c s' => digits_value (10 * acc + digit_value c) s'
  end.

(** [int(s)] on a non-empty text of decimal digits (all that
    [_extract_price_value] passes, lemma [first_number_digits]).
    [int_max_str_digits] is the interpreter's limit on the length of the
    text, [sys.get_int_max_str_digits()]: 0 when there is none, 4300 by
    default since CPython 3.11; a longer text raises ValueError, [None]
    here. *)
Definition int_of_digits (int_max_str_digits : nat) (s : string) : option Z :=
  if (0 <? int_max_str_digits)%nat && (int_max_str_digits <? String.length s)%nat
  then None
  else Some (digits_value 0 s).

Definition _extract_price_value (int_max_str_digits : nat) (price_text : option string)
  : Z :=
  match price_text with
  | None | Some EmptyString => 0
  | Some s =>
      match first_number s with
      | Some num =>
          match int_of_digits int_max_str_digits (remove_commas num) with
          | Some val => if (val >? 100000)%Z then val else 0
          | None => 0
          end
      | None => 0
      end
  end.

Fixpoint string_forallb (f : ascii -> bool) (s : string) : bool :=
  match s with
  | EmptyString => true
  | String c s' => f c && string_forallb f s'
  end.

(** A text that the number before it does not run into: empty, or starting
    with something other than a digit or a comma. *)
Definition ends_number (t : string) : bool :=
  match t with
  | EmptyString => true
  | String c _ => negb (isdigit c) && negb (Ascii.eqb c ",")
  end.


(** The dict [MONTH_MAP] of the scraper. *)
Definition MONTH_MAP : list (string * string) :=
  [("jan", "01"); ("feb", "02"); ("mar", "03"); ("apr", "04");
   ("may", "05"); ("jun", "06"); ("jul", "07"); ("aug", "08");
   ("sep", "09"); ("oct", "10"); ("nov", "11"); ("dec", "12")].

(** [d.get(key)] *)
Definition dict_lookup (d : list (string * string)) (key : string) : option string :=
  option_map snd (find (fun kv => String.eqb (fst kv) key) d).

(** [k in s] for a character [k]. *)
Fixpoint contains_char (k : ascii) (s : string) : bool :=
  match s with
  | EmptyString => false
  | String c s' => Ascii.eqb c k || contains_char k s'
  end.

(** [s.split(k)[0]]: the text before the first [k], all of [s] without one. *)
Fixpoint before_char (k : ascii) (s : string) : string :=
  match s with
  | EmptyString => EmptyString
  | String c s' => if Ascii.eqb c k then EmptyString else String c (before_char k s')
  end.

(** A repetition [x{n}] of a one-character class at the head of [s]: the
    matched text and the rest. *)
Definition take_exactly (f : ascii -> bool) (n : nat) (s : string)
  : option (string * string) :=
  let (m, r) := take_upto f n s in
  if (String.length m =? n)%nat then Some (m, r) else None.

(** One given character at the head of [s]: the rest. *)
Definition take_char (k : ascii) (s : string) : option string :=
  match s with
  | String c r => if Ascii.eqb c k then Some r else None
  | EmptyString => None
  end.

(** The greedy [\s+] at the head of [s]: the rest. *)
Definition take_spaces (s : string) : option string :=
  match s with
  | String c _ => if isspace c then Some (lstrip s) else None
  | EmptyString => None
  end.

(** [re.match(r'^\d{4}-\d{2}-\d{2}', s)] *)
Definition match_iso_date (s : string) : bool :=
  match take_exactly isdigit 4 s with
  | Some (_, r1) =>
      match take_char "-" r1 with
      | Some r2 =>
          match take_exactly isdigit 2 r2 with
          | Some (_, r3) =>
              match take_char "-" r3 with
              | Some r4 =>
                  match take_exactly isdigit 2 r4 with
                  | Some _ => true
                  | None => false
                  end
              | None => false
              end
          | None => false
          end
      | None => false
      end
  | None => false
  end.

(** [re.match(r'(\d{1,2})\s+([A-Za-z]{3})\s+(\d{4})', s)]: the three groups.
    No choice of the matcher is ever revised: a shorter run of digits or
    blanks leaves a digit or a blank where the pattern wants another class. *)
Definition match_day_month_year (s : string) : option (string * string * string) :=
  let (day, r1) := take_upto isdigit 2 s in
  match day with
  | EmptyString => None
  | _ =>
      match take_spaces r1 with
      | Some r2 =>
          match take_exactly isalpha 3 r2 with
          | Some (mon, r3) =>
              match take_spaces r3 with
              | Some r4 =>
                  match take_exactly isdigit 4 r4 with
                  | Some (year, _) => Some (day, mon, year)
                  | None => None
                  end
              | None => None
              end
          | None => None
          end
      | None => None
      end
  end.

(** [s.zfill(width)] on a text without a sign. *)
Fixpoint zeros (n : nat) : string :=
  match n with
  | O => EmptyString
  | S n' => String "0" (zeros n')
  end.

Definition zfill (width : nat) (s : string) : string :=
  (zeros (width - String.length s) ++ s)%string.

Definition _convert_to_iso_date (date_str : option string) : option string :=
  match date_str with
  | None | Some EmptyString => None
  | Some s =>
      if contains_char "T" s then Some (before_char "T" s)
      else if match_iso_date s then Some (prefix_slice 10 s)
      else
        match match_day_month_year s with
        | Some (day0, mon, year) =>
            let day := zfill 2 day0 in
            match dict_lookup MONTH_MAP (lower mon) with
            | Some (String _ _ as month) =>
                Some (year ++ "-" ++ month ++ "-" ++ day)%string
            | _ => None
            end
        | None => None
        end
  end.


(* ===================================================================== *)
(** ** The ranges in which the embedding is the program *)
(* ===================================================================== *)

(** ASCII text: every character is below 128.  On such text [isspace],
    [isdigit], [isalpha], [lower], [upper] and [strip] above are Python's
    [str.isspace], [\d], [[A-Za-z]], [str.lower], [str.upper] and
    [str.strip]; beyond it Python knows further white space, digits and case
    pairs. *)
Definition is_ascii (s : string) : bool :=
  string_forallb (fun c => (nat_of_ascii c <? 128)%nat) s.

(** An INTEGER of SQLite is a signed 64-bit number.  Binding a Python int
    outside this range raises OverflowError, and the [with] block of
    [save_listings] rolls the whole batch back. *)
Definition fits_int64 (z : Z) : bool :=
  ((- 2 ^ 63 <=? z) && (z <? 2 ^ 63))%Z.

(** A record all of whose integers [save_listings] can bind. *)
Definition storable (l : PropertyListing) : bool :=
  fits_int64 (price_value l) && fits_int64 (bedrooms l)
  && fits_int64 (bathrooms l) && fits_int64 (parking l).

(** [pd.Timedelta(days=n)] is a signed 64-bit number of nanoseconds: it
    exists for at most 106751 days either way and raises beyond. *)
Definition Timedelta_representable (n : Z) : Prop :=
  (-106751 <= n <= 106751)%Z.

(** A [pd.Timestamp] is a signed 64-bit number of nanoseconds from
    1970-01-01; in whole seconds: *)
Definition Timestamp_representable (t : Z) : Prop :=
  (-9223372036 <= t <= 9223372036)%Z.



(* ===================================================================== *)
(** * Properties *)
(* ===================================================================== *)

(** ** Rolling aggregate *)

Section RollingAverage.

Lemma mask_and_map {A : Type} (f g : A -> bool) (l : list A) :
    mask_and (map f l) (map g l) = map (fun x => f x && g x) l.
  Proof.
    induction l as [| x l IH]; simpl; [reflexivity | now rewrite IH].
  Qed.

Lemma loc_map {A B : Type} (f : A -> bool) (g : A -> B) (l : list A) :
    loc (map f l) (map g l) = map g (filter f l).
  Proof.
    induction l as [| x l IH]; simpl; [reflexivity |].
    destruct (f x); simpl; now rewrite IH.
  Qed.

Lemma present_map_Some {A : Type} (xs : list A) : present (map Some xs) = xs.
  Proof.
    unfold present.
    induction xs as [| x xs IH]; simpl; [reflexivity | now f_equal].
  Qed.

Lemma mean_map_Some (xs : list Q) : mean (map Some xs) = average xs.
  Proof. unfold mean, average. now rewrite present_map_Some. Qed.

Variable current_date : Z.

Lemma row_cases (r : SaleSample) :
    (valid_in_window current_date r = true
     /\ in_window current_date 180 r = true
     /\ exists q, df_price_per_m2 r = Some q /\ sample_value r = Some q)
    \/ (valid_in_window current_date r = false
        /\ (in_window current_date 180 r = false \/ sample_value r = None)).
  Proof.
    unfold valid_in_window, in_window, sample_value, Timedelta_days.
    destruct (df_price_per_m2 r) as [q |]; [| right; split; [reflexivity | now right]].
    destruct (Qle_bool q 0); [right; split; [reflexivity | now right] |].
    destruct (df_sold_date_parsed r) as [d |]; [| right; split; [reflexivity | now left]].
    destruct (d <? current_date)%Z, (current_date - 180 * 86400 <=? d)%Z;
      try (right; split; [reflexivity | now left]).
    left. split; [reflexivity | split; [reflexivity | now exists q]].
  Qed.

Lemma selected_samples (keep : SaleSample -> bool) (df : DataFrame) :
    map df_price_per_m2 (filter (fun r => keep r && valid_in_window current_date r) df)
    = map Some (window_samples df current_date 180 keep).
  Proof.
    unfold window_samples, present.
    induction df as [| r df IH]; simpl; [reflexivity |].
    destruct (keep r); simpl; [| exact IH].
    destruct (row_cases r) as [(Hv & Hw & q & Hq & Hs) | (Hv & [Hw | Hs])];
      rewrite Hv; try rewrite Hw; simpl; try rewrite Hs; simpl.
    - rewrite Hq. now f_equal.
    - exact IH.
    - destruct (in_window current_date 180 r); simpl; [rewrite Hs; simpl |]; exact IH.
  Qed.

Lemma own_subset (df : DataFrame) (suburb : string) :
    loc (mask_and (mask_and (mask_and (mask_and
           (upper_eq (column df_suburb df) (upper suburb))
           (notna (column df_price_per_m2 df)))
           (gt_zero (column df_price_per_m2 df)))
           (lt_time (column df_sold_date_parsed df) current_date))
           (ge_time (column df_sold_date_parsed df)
                    (current_date - Timedelta_days 180)))
        (column df_price_per_m2 df)
    = map Some (window_samples df current_date 180 (in_suburb suburb)).
  Proof.
    unfold upper_eq, notna, gt_zero, lt_time, ge_time, column.
    rewrite !map_map, !mask_and_map, loc_map, <- selected_samples.
    f_equal. apply filter_ext. intro r.
    unfold valid_in_window, in_suburb. now rewrite !andb_assoc.
  Qed.

Lemma overall_subset (df : DataFrame) :
    loc (mask_and (mask_and (mask_and
           (notna (column df_price_per_m2 df))
           (gt_zero (column df_price_per_m2 df)))
           (lt_time (column df_sold_date_parsed df) current_date))
           (ge_time (column df_sold_date_parsed df)
                    (current_date - Timedelta_days 180)))
        (column df_price_per_m2 df)
    = map Some (window_samples df current_date 180 (fun _ => true)).
  Proof.
    unfold notna, gt_zero, lt_time, ge_time, column.
    rewrite !map_map, !mask_and_map, loc_map, <- selected_samples.
    f_equal.
  Qed.

End RollingAverage.

(** C9. With the default look-back of 180 days, the rolling average of
    ([suburb], [as_of]) is the mean of the price-per-area samples of that
    suburb sold in [[as_of - 180 days, as_of)] when there are at least five
    of them, otherwise the mean of the samples of all suburbs in the same
    window when there are at least five of those, otherwise the default
    5000. *)
Theorem rolling_average_fallback_chain (df : DataFrame) (suburb : string) (as_of : Z) :
  compute_rolling_avg_price_per_m2 df as_of suburb default_lookback_days
  = rolling_avg_spec df suburb as_of.
Proof.
  unfold compute_rolling_avg_price_per_m2, rolling_avg_spec, default_lookback_days,
    default_price_per_area.
  rewrite own_subset, overall_subset, !mean_map_Some, !length_map.
  reflexivity.
Qed.

(** The fallback scenario: suburb A has three samples in the window, so its
    rolling average is the mean over all thirteen samples of A and B, not
    the mean of its own three. *)
Lemma three_samples_fall_back_to_all_suburbs :
  Qeq (compute_rolling_avg_price_per_m2 df_three_and_ten (200 * 86400) "A"
         default_lookback_days)
      (72400 # 13)
  /\ Qeq (average [9000; 9300; 9600]) 9300
  /\ ~ Qeq (compute_rolling_avg_price_per_m2 df_three_and_ten (200 * 86400) "A"
              default_lookback_days) 9300.
Proof. repeat split; vm_compute; congruence. Qed.

(** ** Ordering of TEXT values *)

Section TextOrder.

Lemma text_leb_refl (a : string) : text_leb a a = true.
  Proof.
    unfold text_leb, String.leb.
    destruct (String.compare a a) eqn:E; try reflexivity.
    pose proof (String.compare_antisym a a) as H. rewrite E in H. discriminate.
  Qed.

Lemma text_leb_trans (a b c : string) :
    text_leb a b = true -> text_leb b c = true -> text_leb a c = true.
  Proof.
    unfold text_leb, String.leb. intros Hab Hbc.
    destruct (String.compare a b) eqn:Eab; try discriminate.
    - apply String_as_OT.cmp_eq in Eab. now subst.
    - destruct (String.compare b c) eqn:Ebc; try discriminate.
      + apply String_as_OT.cmp_eq in Ebc. subst. now rewrite Eab.
      + apply String_as_OT.cmp_lt in Eab, Ebc.
        pose proof (String_as_OT.lt_trans _ _ _ Eab Ebc) as Hac.
        apply String_as_OT.cmp_lt in Hac. unfold String_as_OT.cmp in Hac.
        now rewrite Hac.
  Qed.

Lemma text_leb_antisym (a b : string) :
    text_leb a b = true -> text_leb b a = true -> a = b.
  Proof. apply String.leb_antisym. Qed.

Lemma text_ltb_leb (a b : string) : text_ltb a b = true -> text_leb a b = true.
  Proof.
    unfold text_ltb, text_leb, String.ltb, String.leb.
    now destruct (String.compare a b).
  Qed.

Lemma text_leb_total (a b : string) : text_leb a b = false -> text_leb b a = true.
  Proof.
    intro H. destruct (String.leb_total a b) as [H' | H']; [| exact H'].
    unfold text_leb in H. congruence.
  Qed.

Lemma sql_max_text_In (l : list string) (m : string) :
    sql_max_text l = Some m -> In m l.
  Proof.
    revert m. induction l as [| x l IH]; simpl; intros m H; [discriminate |].
    destruct (sql_max_text l) as [m' |].
    - destruct (text_leb x m'); injection H as <-; [right; now apply IH | now left].
    - injection H as <-. now left.
  Qed.

Lemma sql_max_text_upper (l : list string) (m : string) :
    sql_max_text l = Some m -> forall x, In x l -> text_leb x m = true.
  Proof.
    revert m. induction l as [| x l IH]; simpl; intros m H y Hy; [contradiction |].
    destruct (sql_max_text l) as [m' |] eqn:E.
    - destruct (text_leb x m') eqn:Hx; injection H as <-.
      + destruct Hy as [<- | Hy]; [exact Hx | now apply IH].
      + destruct Hy as [<- | Hy]; [apply text_leb_refl |].
        apply text_leb_trans with m'; [now apply IH | now apply text_leb_total].
    - injection H as <-. destruct Hy as [<- | Hy]; [apply text_leb_refl |].
      destruct l; [contradiction | simpl in E].
      destruct (sql_max_text l); [destruct (text_leb s s0) |]; discriminate.
  Qed.

Lemma sql_max_text_some (l : list string) (x : string) :
    In x l -> exists m, sql_max_text l = Some m.
  Proof.
    destruct l as [| y l]; [contradiction | intros _; simpl].
    destruct (sql_max_text l) as [m |]; [destruct (text_leb y m) |]; eauto.
  Qed.

  (** A maximum is determined by membership and the upper bound. *)
Lemma sql_max_text_unique (l : list string) (m m' : string) :
    sql_max_text l = Some m -> In m' l ->
    (forall x, In x l -> text_leb x m' = true) -> m = m'.
  Proof.
    intros H Hin Hub. apply text_leb_antisym.
    - apply Hub. now apply sql_max_text_In.
    - now apply (sql_max_text_upper l m H).
  Qed.

End TextOrder.

(** ** The ledger store *)

Section Ledger.

Variable today_str : string.

Lemma has_sold_row_iff (hs : list HistoryRow) (pid : string) :
    has_sold_row hs pid = true
    <-> exists r, In r hs /\ h_property_id r = pid /\ h_status r = "sold".
  Proof.
    unfold has_sold_row. rewrite existsb_exists. split.
    - intros (r & Hin & H). apply andb_prop in H as [H1 H2].
      apply String.eqb_eq in H1, H2. eauto.
    - intros (r & Hin & H1 & H2). exists r. split; [exact Hin |].
      apply andb_true_intro. split; now apply String.eqb_eq.
  Qed.

Lemma known_property_history (db : DB) (l : PropertyListing) :
    listing_history (known_property today_str db l) = listing_history db.
  Proof.
    unfold known_property.
    now destruct (find _ (properties db)).
  Qed.

Lemma save_listing_unfold (db : DB) (l : PropertyListing) :
    save_listing today_str db l
    = if String.eqb (status l) "sold" then
        if has_sold_row (listing_history db) (id l) then known_property today_str db l
        else with_history (known_property today_str db l)
               (insert_history (listing_history db) (history_row_of today_str l))
      else with_history (known_property today_str db l)
             (insert_or_replace_history (listing_history db)
                (history_row_of today_str l)).
  Proof.
    unfold save_listing. now rewrite known_property_history.
  Qed.

Lemma save_listing_skips_sold (db : DB) (l : PropertyListing) :
    status l = "sold" ->
    has_sold_row (listing_history db) (id l) = true ->
    listing_history (save_listing today_str db l) = listing_history db.
  Proof.
    intros Hs Hsold. rewrite save_listing_unfold, Hs, Hsold. simpl.
    apply known_property_history.
  Qed.

Lemma known_property_found (db : DB) (l : PropertyListing) :
    exists p,
      find (fun p => String.eqb (p_property_id p) (id l))
           (properties (known_property today_str db l)) = Some p.
  Proof.
    unfold known_property.
    destruct (find _ (properties db)) as [p |] eqn:E; [eauto |].
    simpl. induction (properties db) as [| q ps IH]; simpl in *.
    - rewrite String.eqb_refl. eauto.
    - destruct (String.eqb (p_property_id q) (id l)); [discriminate | now apply IH].
  Qed.

Lemma known_property_idem (db : DB) (l : PropertyListing) :
    known_property today_str (known_property today_str db l) l
    = known_property today_str db l.
  Proof.
    destruct (known_property_found db l) as [p Hp].
    unfold known_property at 1. now rewrite Hp.
  Qed.

Lemma filter_idem {A : Type} (f : A -> bool) (xs : list A) :
    filter f (filter f xs) = filter f xs.
  Proof.
    induction xs as [| x xs IH]; simpl; [reflexivity |].
    destruct (f x) eqn:E; simpl; [rewrite E; now f_equal | exact IH].
  Qed.

Lemma same_key_refl (r : HistoryRow) : same_key r r = true.
  Proof. unfold same_key. now rewrite !String.eqb_refl. Qed.

Lemma insert_or_replace_idem (hs : list HistoryRow) (r : HistoryRow) :
    insert_or_replace_history (insert_or_replace_history hs r) r
    = insert_or_replace_history hs r.
  Proof.
    unfold insert_or_replace_history.
    rewrite filter_app, filter_idem. simpl.
    now rewrite same_key_refl, app_nil_r.
  Qed.

Lemma save_listing_for_sale_idem (db : DB) (l : PropertyListing) :
    status l = "sale" ->
    save_listing today_str (save_listing today_str db l) l
    = save_listing today_str db l.
  Proof.
    intro Hs. rewrite !save_listing_unfold, Hs. simpl.
    set (r := history_row_of today_str l).
    assert (Hk : known_property today_str (with_history (known_property today_str db l)
                   (insert_or_replace_history (listing_history db) r)) l
                 = with_history (known_property today_str db l)
                     (insert_or_replace_history (listing_history db) r)).
    { destruct (known_property_found db l) as [p Hp].
      unfold known_property at 1. simpl. now rewrite Hp. }
    rewrite Hk. unfold with_history. simpl.
    now rewrite insert_or_replace_idem.
  Qed.

End Ledger.

(** ** Integrity constraints are invariants of ingestion *)

Section Integrity.

Lemma same_key_iff (a b : HistoryRow) :
    same_key a b = true <-> key_of a = key_of b.
  Proof.
    unfold same_key, key_of. rewrite !andb_true_iff, !String.eqb_eq. split.
    - intros [[-> ->] ->]. reflexivity.
    - intro H. injection H as -> -> ->. auto.
  Qed.

Lemma NoDup_map_injective {A B : Type} (f : A -> B) (l : list A) (a b : A) :
    NoDup (map f l) -> In a l -> In b l -> f a = f b -> a = b.
  Proof.
    induction l as [| x l IH]; simpl; intros Hnd Ha Hb Hf; [contradiction |].
    apply NoDup_cons_iff in Hnd as [Hx Hnd].
    destruct Ha as [-> | Ha], Hb as [-> | Hb]; auto.
    - exfalso. apply Hx. rewrite Hf. now apply in_map.
    - exfalso. apply Hx. rewrite <- Hf. now apply in_map.
  Qed.

Lemma NoDup_map_filter {A B : Type} (f : A -> B) (g : A -> bool) (l : list A) :
    NoDup (map f l) -> NoDup (map f (filter g l)).
  Proof.
    induction l as [| x l IH]; simpl; intro Hnd; [constructor |].
    apply NoDup_cons_iff in Hnd as [Hx Hnd].
    destruct (g x); simpl; [| now apply IH].
    constructor; [| now apply IH].
    intro Hin. apply Hx. apply in_map_iff in Hin as (y & Hy & Hin).
    apply filter_In in Hin as [Hin _]. rewrite <- Hy. now apply in_map.
  Qed.

Lemma keys_unique_replace (hs : list HistoryRow) (r : HistoryRow) :
    history_keys_unique hs ->
    history_keys_unique (insert_or_replace_history hs r).
  Proof.
    unfold history_keys_unique, insert_or_replace_history. intro Hnd.
    rewrite map_app. apply NoDup_app.
    - now apply NoDup_map_filter.
    - simpl. constructor; [intros [] | constructor].
    - intros k Hk [<- | []].
      apply in_map_iff in Hk as (h & Hh & Hin).
      apply filter_In in Hin as [_ Hneq].
      apply same_key_iff in Hh. now rewrite Hh in Hneq.
  Qed.

Lemma keys_unique_first_sold (hs : list HistoryRow) (r : HistoryRow) :
    history_keys_unique hs ->
    h_status r = "sold" ->
    has_sold_row hs (h_property_id r) = false ->
    history_keys_unique (insert_history hs r).
  Proof.
    unfold history_keys_unique, insert_history. intros Hnd Hs Hnone.
    rewrite map_app. apply NoDup_app; [exact Hnd | |].
    - simpl. constructor; [intros [] | constructor].
    - intros k Hk [<- | []].
      apply in_map_iff in Hk as (h & Hh & Hin).
      unfold key_of in Hh. injection Hh as Hp Hd Hst.
      assert (has_sold_row hs (h_property_id r) = true) as Hyes; [| congruence].
      apply has_sold_row_iff. exists h. rewrite Hst. auto.
  Qed.

Lemma save_listing_keys_unique (today_str : string) (db : DB) (l : PropertyListing) :
    history_keys_unique (listing_history db) ->
    history_keys_unique (listing_history (save_listing today_str db l)).
  Proof.
    intro Hnd. rewrite save_listing_unfold.
    destruct (String.eqb (status l) "sold") eqn:Hs.
    - destruct (has_sold_row (listing_history db) (id l)) eqn:Hsold.
      + now rewrite known_property_history.
      + simpl. apply keys_unique_first_sold; auto.
        simpl. now apply String.eqb_eq.
    - simpl. now apply keys_unique_replace.
  Qed.

Lemma save_listings_keys_unique (today_str : string) (ls : list PropertyListing)
    (db : DB) :
    history_keys_unique (listing_history db) ->
    history_keys_unique (listing_history (save_listings today_str ls db)).
  Proof.
    unfold save_listings. revert db.
    induction ls as [| l ls IH]; simpl; intros db Hnd; [exact Hnd |].
    apply IH. now apply save_listing_keys_unique.
  Qed.

Lemma run_batches_keys_unique (batches : list (string * list PropertyListing)) :
    history_keys_unique (listing_history (run_batches batches)).
  Proof.
    unfold run_batches.
    assert (G : forall db, history_keys_unique (listing_history db) ->
      history_keys_unique (listing_history
        (fold_left (fun db b => save_listings (fst b) (snd b) db) batches db))).
    { induction batches as [| b bs IH]; simpl; intros db Hnd; [exact Hnd |].
      apply IH. now apply save_listings_keys_unique. }
    apply G. constructor.
  Qed.

  (** A unique key leaves at most one FOR_SALE row per property and date. *)
Lemma keys_unique_one_for_sale (hs : list HistoryRow) (pid date : string) :
    history_keys_unique hs ->
    (length (for_sale_rows_on hs pid date) <= 1)%nat.
  Proof.
    unfold history_keys_unique, for_sale_rows_on.
    induction hs as [| h hs IH]; simpl; intro Hnd; [lia |].
    apply NoDup_cons_iff in Hnd as [Hh Hnd].
    destruct (String.eqb (h_property_id h) pid && String.eqb (h_date h) date
              && String.eqb (h_status h) "sale") eqn:E; [| now apply IH].
    simpl. enough (Hnil : filter
      (fun h0 => String.eqb (h_property_id h0) pid && String.eqb (h_date h0) date
                 && String.eqb (h_status h0) "sale") hs = []) by (rewrite Hnil; simpl; lia).
    destruct (filter _ hs) as [| h' rest] eqn:F; [reflexivity | exfalso].
    assert (Hin : In h' (filter
      (fun h0 => String.eqb (h_property_id h0) pid && String.eqb (h_date h0) date
                 && String.eqb (h_status h0) "sale") hs)) by (rewrite F; now left).
    apply filter_In in Hin as [Hin E'].
    apply Hh. apply in_map_iff. exists h'. split; [| exact Hin].
    rewrite !andb_true_iff, !String.eqb_eq in E, E'.
    destruct E as [[E1 E2] E3], E' as [[E1' E2'] E3']. unfold key_of. congruence.
  Qed.

End Integrity.

Section WellFormedLedger.

Lemma save_listing_history_cases (today_str : string) (db : DB)
    (l : PropertyListing) (h : HistoryRow) :
    In h (listing_history (save_listing today_str db l)) ->
    In h (listing_history db) \/ h = history_row_of today_str l.
  Proof.
    rewrite save_listing_unfold.
    destruct (String.eqb (status l) "sold").
    - destruct (has_sold_row (listing_history db) (id l)).
      + rewrite known_property_history. now left.
      + simpl. unfold insert_history. intros Hin%in_app_or.
        destruct Hin as [Hin | [<- | []]]; auto.
    - simpl. unfold insert_or_replace_history. intros Hin%in_app_or.
      destruct Hin as [Hin | [<- | []]]; auto.
      apply filter_In in Hin as [Hin _]. now left.
  Qed.

Lemma save_listing_properties (today_str : string) (db : DB) (l : PropertyListing) :
    properties (save_listing today_str db l)
    = properties (known_property today_str db l).
  Proof.
    rewrite save_listing_unfold.
    destruct (String.eqb (status l) "sold");
      [destruct (has_sold_row (listing_history db) (id l)) |]; reflexivity.
  Qed.

Lemma known_property_keeps (today_str : string) (db : DB) (l : PropertyListing)
    (p : PropertyRow) :
    In p (properties db) -> In p (properties (known_property today_str db l)).
  Proof.
    unfold known_property. destruct (find _ (properties db)); simpl; auto.
    intro Hin. apply in_or_app. now left.
  Qed.

Lemma known_property_has (today_str : string) (db : DB) (l : PropertyListing) :
    exists p, In p (properties (known_property today_str db l))
              /\ p_property_id p = id l.
  Proof.
    destruct (known_property_found today_str db l) as [p Hp].
    apply find_some in Hp as [Hin Heq]. apply String.eqb_eq in Heq. eauto.
  Qed.

Lemma save_listing_wf (today_str : string) (db : DB) (l : PropertyListing) :
    today_str <> "" -> ledger_wf db -> ledger_wf (save_listing today_str db l).
  Proof.
    intros Hday [Hkey Hprop Hdates]. constructor.
    - now apply save_listing_keys_unique.
    - intros h Hin. rewrite save_listing_properties.
      apply save_listing_history_cases in Hin as [Hin | ->].
      + destruct (Hprop h Hin) as (p & Hp & Hid).
        exists p. split; [now apply known_property_keeps | exact Hid].
      + apply known_property_has.
    - intros h Hin.
      apply save_listing_history_cases in Hin as [Hin | ->]; [now apply Hdates |].
      exact Hday.
  Qed.

Lemma save_listings_wf (today_str : string) (ls : list PropertyListing) (db : DB) :
    today_str <> "" -> ledger_wf db -> ledger_wf (save_listings today_str ls db).
  Proof.
    intro Hday. unfold save_listings. revert db.
    induction ls as [| l ls IH]; simpl; intros db Hwf; [exact Hwf |].
    apply IH. now apply save_listing_wf.
  Qed.

Lemma empty_db_wf : ledger_wf empty_db.
  Proof.
    constructor; simpl; try (intros h []). constructor.
  Qed.

  (** Every ledger that capture batches build from an empty database is
      well formed. *)
Lemma run_batches_wf (batches : list (string * list PropertyListing)) :
    Forall (fun b => fst b <> "") batches -> ledger_wf (run_batches batches).
  Proof.
    unfold run_batches. generalize empty_db_wf. generalize empty_db.
    induction batches as [| b bs IH]; simpl; intros db Hwf Hall; [exact Hwf |].
    apply Forall_cons_iff in Hall as [Hb Hall].
    apply IH; [| exact Hall]. now apply save_listings_wf.
  Qed.

End WellFormedLedger.

(** ** Ingestion: write-once SOLD rows, idempotent FOR_SALE upsert *)

(** C3. SOLD rows are write-once per property: when every record of a batch
    is a SOLD record of a property that already has a SOLD row, on whatever
    date, ingesting the batch leaves the whole [listing_history] table as it
    was, whatever the date, price and other attributes of the records. *)
Theorem sold_rows_write_once (today_str : string) (listings : list PropertyListing)
  (db : DB) :
  (forall l, In l listings ->
     status l = "sold"
     /\ exists r, In r (listing_history db)
                  /\ h_property_id r = id l /\ h_status r = "sold") ->
  listing_history (save_listings today_str listings db) = listing_history db.
Proof.
  unfold save_listings. intro H.
  enough (G : forall db',
    listing_history db' = listing_history db ->
    listing_history (fold_left (save_listing today_str) listings db')
    = listing_history db) by now apply G.
  induction listings as [| l ls IH]; simpl; intros db' Heq; [exact Heq |].
  apply IH.
  - intros l' Hl'. apply H. now right.
  - destruct (H l (or_introl eq_refl)) as [Hs Hrow].
    rewrite save_listing_skips_sold; [exact Heq | exact Hs |].
    apply has_sold_row_iff. now rewrite Heq.
Qed.

Lemma sold_rows_write_once_witness :
  listing_history
    (save_listings "2024-06-09" [listing "P1" "sold" "$955,000" 955000] db_sold_once)
  = listing_history db_sold_once.
Proof.
  apply (sold_rows_write_once "2024-06-09"
           [listing "P1" "sold" "$955,000" 955000] db_sold_once).
  intros l [<- | []]. split; [reflexivity |].
  exists (history_row_of "2024-06-01" (listing "P1" "sold" "$900,000" 900000)).
  split; [left; reflexivity | split; reflexivity].
Defined.

(** C6. FOR_SALE ingestion is an idempotent upsert: ingesting the same
    FOR_SALE record a second time on the same date leaves every ledger state
    as the first ingestion left it, and in every ledger that ingestion
    builds a property has at most one FOR_SALE row per date. *)
Theorem for_sale_upsert_idempotent (today_str : string) (l : PropertyListing) :
  status l = "sale" ->
  (forall db,
     save_listings today_str [l] (save_listings today_str [l] db)
     = save_listings today_str [l] db)
  /\ (forall batches pid date,
        (length (for_sale_rows_on (listing_history (run_batches batches)) pid date)
         <= 1)%nat).
Proof.
  intro Hs. split.
  - intro db. simpl. now apply save_listing_for_sale_idem.
  - intros batches pid date.
    apply keys_unique_one_for_sale, run_batches_keys_unique.
Qed.

Lemma for_sale_upsert_idempotent_witness :
  status (listing "P1" "sale" "$1,000,000" 1000000) = "sale"
  /\ save_listings "2024-01-02" [listing "P1" "sale" "$1,000,000" 1000000]
       (save_listings "2024-01-02" [listing "P1" "sale" "$1,000,000" 1000000]
          db_sold_once)
     = save_listings "2024-01-02" [listing "P1" "sale" "$1,000,000" 1000000]
         db_sold_once.
Proof.
  split; [reflexivity |].
  apply (for_sale_upsert_idempotent "2024-01-02"
           (listing "P1" "sale" "$1,000,000" 1000000)).
  reflexivity.
Defined.

(** ** The diff classifier *)

Section Classifier.

Variable db : DB.
Variable target_date : string.

Lemma in_join_property (h : HistoryRow) (p : PropertyRow) :
    In p (join_property (properties db) h)
    <-> In p (properties db) /\ h_property_id h = p_property_id p.
  Proof.
    unfold join_property. now rewrite filter_In, String.eqb_eq.
  Qed.

  (** Rows of the join against the single previous date. *)
Lemma in_against_prev_date (prev_date now_status : string) (d : ChangeData) :
    In d (against_prev_date db target_date prev_date now_status)
    <-> exists h_now p h_prev,
          In h_now (listing_history db) /\ In p (properties db)
          /\ In h_prev (listing_history db)
          /\ h_date h_now = target_date /\ h_status h_now = now_status
          /\ h_property_id h_now = p_property_id p
          /\ h_property_id h_now = h_property_id h_prev
          /\ h_date h_prev = prev_date /\ h_status h_prev = "sale"
          /\ d = old_price_change h_now p h_prev.
  Proof.
    unfold against_prev_date. rewrite in_flat_map. split.
    - intros (h_now & Hnow & Hd).
      destruct (String.eqb (h_date h_now) target_date
                && String.eqb (h_status h_now) now_status) eqn:E; [| contradiction].
      apply andb_prop in E as [E1 E2]. apply String.eqb_eq in E1, E2.
      apply in_flat_map in Hd as (p & Hp & Hd).
      apply in_join_property in Hp as [Hp Hid].
      apply in_flat_map in Hd as (h_prev & Hprev & Hd).
      destruct (String.eqb (h_property_id h_now) (h_property_id h_prev)
                && String.eqb (h_date h_prev) prev_date
                && String.eqb (h_status h_prev) "sale") eqn:F; [| contradiction].
      rewrite !andb_true_iff, !String.eqb_eq in F. destruct F as [[F1 F2] F3].
      destruct Hd as [<- | []].
      exists h_now, p, h_prev. repeat (split; [assumption |]). reflexivity.
    - intros (h_now & p & h_prev & Hnow & Hp & Hprev & E1 & E2 & Hid & F1 & F2 & F3 & ->).
      exists h_now. split; [exact Hnow |].
      rewrite <- E1, <- E2, !String.eqb_refl. simpl.
      apply in_flat_map. exists p. split; [now apply in_join_property |].
      apply in_flat_map. exists h_prev. split; [exact Hprev |].
      rewrite F1, <- F2, F3, !String.eqb_refl. simpl. now left.
  Qed.

  (** Rows of the ADJUSTMENT query. *)
Lemma in_adjustment_rows (d : ChangeData) :
    In d (adjustment_rows db target_date)
    <-> exists h_now p h_prev,
          In h_now (listing_history db) /\ In p (properties db)
          /\ In h_prev (listing_history db)
          /\ h_date h_now = target_date
          /\ h_property_id h_now = p_property_id p
          /\ h_property_id h_now = h_property_id h_prev
          /\ property_prev_date (listing_history db) (h_property_id h_now) target_date
             = Some (h_date h_prev)
          /\ sql_is_true (differs_at_all h_now h_prev) = true
          /\ d = adjustment_change h_now p h_prev.
  Proof.
    unfold adjustment_rows. rewrite in_flat_map. split.
    - intros (h_now & Hnow & Hd).
      destruct (String.eqb (h_date h_now) target_date) eqn:E; [| contradiction].
      apply String.eqb_eq in E.
      apply in_flat_map in Hd as (p & Hp & Hd).
      apply in_join_property in Hp as [Hp Hid].
      apply in_flat_map in Hd as (h_prev & Hprev & Hd).
      destruct (String.eqb (h_property_id h_now) (h_property_id h_prev)
                && sql_eq_scalar (h_date h_prev)
                     (property_prev_date (listing_history db) (h_property_id h_now) target_date)
                && sql_is_true (differs_at_all h_now h_prev)) eqn:F; [| contradiction].
      rewrite !andb_true_iff in F. destruct F as [[F1 F2] F3].
      apply String.eqb_eq in F1.
      destruct Hd as [<- | []].
      exists h_now, p, h_prev. repeat (split; [assumption |]).
      split; [| split; [exact F3 | reflexivity]].
      unfold sql_eq_scalar in F2.
      destruct (property_prev_date (listing_history db) (h_property_id h_now) target_date);
        [| discriminate].
      apply String.eqb_eq in F2. now subst.
    - intros (h_now & p & h_prev & Hnow & Hp & Hprev & E & Hid & F1 & F2 & F3 & ->).
      exists h_now. split; [exact Hnow |].
      rewrite E, String.eqb_refl.
      apply in_flat_map. exists p. split; [now apply in_join_property |].
      apply in_flat_map. exists h_prev. split; [exact Hprev |].
      rewrite F2, F3. unfold sql_eq_scalar.
      rewrite F1, !String.eqb_refl. simpl. now left.
  Qed.

  (** The single previous date is a capture date before the target date
      and bounds every earlier capture date. *)
Lemma global_prev_date_spec (prev_date : string) :
    global_prev_date (listing_history db) target_date = Some prev_date ->
    text_ltb prev_date target_date = true
    /\ (exists r, In r (listing_history db) /\ h_date r = prev_date)
    /\ (forall r, In r (listing_history db) -> text_ltb (h_date r) target_date = true ->
                  text_leb (h_date r) prev_date = true).
  Proof.
    unfold global_prev_date. intro H.
    pose proof (sql_max_text_In _ _ H) as Hin.
    apply in_map_iff in Hin as (r & Hr & Hin).
    apply filter_In in Hin as [Hin Hlt].
    split; [now rewrite <- Hr | split; [now exists r |]].
    intros r' Hin' Hlt'. apply (sql_max_text_upper _ _ H).
    apply in_map. apply filter_In. now split.
  Qed.

  (** A property's own previous date, likewise among its own rows. *)
Lemma property_prev_date_spec (pid prev_date : string) :
    property_prev_date (listing_history db) pid target_date = Some prev_date ->
    text_ltb prev_date target_date = true
    /\ (exists r, In r (listing_history db)
                  /\ h_property_id r = pid /\ h_date r = prev_date)
    /\ (forall r, In r (listing_history db) -> h_property_id r = pid ->
                  text_ltb (h_date r) target_date = true ->
                  text_leb (h_date r) prev_date = true).
  Proof.
    unfold property_prev_date. intro H.
    pose proof (sql_max_text_In _ _ H) as Hin.
    apply in_map_iff in Hin as (r & Hr & Hin).
    apply filter_In in Hin as [Hin Hc].
    apply andb_prop in Hc as [Hp Hlt]. apply String.eqb_eq in Hp.
    split; [now rewrite <- Hr | split; [now exists r |]].
    intros r' Hin' Hp' Hlt'. apply (sql_max_text_upper _ _ H).
    apply in_map. apply filter_In. split; [exact Hin' |].
    apply andb_true_intro. split; [now apply String.eqb_eq | exact Hlt'].
  Qed.

  (** For a property captured on the single previous date, its own previous
      date is that date. *)
Lemma property_prev_date_of_global (prev_date : string) (h : HistoryRow) :
    global_prev_date (listing_history db) target_date = Some prev_date ->
    In h (listing_history db) -> h_date h = prev_date ->
    property_prev_date (listing_history db) (h_property_id h) target_date
    = Some prev_date.
  Proof.
    intros Hg Hin Hd.
    destruct (global_prev_date_spec _ Hg) as (Hlt & _ & Hub).
    assert (Hmem : In prev_date
      (map h_date (filter (fun r => String.eqb (h_property_id r) (h_property_id h)
                                    && text_ltb (h_date r) target_date) (listing_history db)))).
    { rewrite <- Hd. apply in_map. apply filter_In. split; [exact Hin |].
      now rewrite String.eqb_refl, Hd. }
    unfold property_prev_date.
    destruct (sql_max_text_some _ _ Hmem) as [m Hm]. rewrite Hm. f_equal.
    apply (sql_max_text_unique _ _ _ Hm Hmem).
    intros x Hx. apply in_map_iff in Hx as (r & <- & Hr).
    apply filter_In in Hr as [Hr Hc]. apply andb_prop in Hc as [_ Hc].
    now apply Hub.
  Qed.

End Classifier.

Section PriceVerdicts.

Lemma py_or_str_some (s : string) : py_or_str (Some s) "" = s.
  Proof. now destruct s. Qed.

Lemma py_or_int_some (v : Z) : py_or_int (Some v) 0 = v.
  Proof.
    unfold py_or_int. destruct (v =? 0)%Z eqn:E; [| reflexivity].
    apply Z.eqb_eq in E. now subst.
  Qed.

  (** The verdict of the price loop on a joined row, in terms of the two
      snapshots. *)
Lemma classify_price_row_spec (h_now : HistoryRow) (p : PropertyRow)
    (h_prev : HistoryRow) :
    let e := old_price_change h_now p h_prev in
    let o := h_price_value h_prev in
    let n := h_price_value h_now in
    classify_price_row e
    = if String.eqb (lower (strip (h_price_display h_prev)))
                    (lower (strip (h_price_display h_now))) then Skip
      else if ((o >? 0) && (n >? 0) && negb (o =? n))%Z
           then PriceChange (with_price_diff e (n - o))
      else if ((o =? 0) && (n >? 0))%Z then GuideRevealed e
      else if ((n =? 0) && (o >? 0))%Z then PriceChange e
      else Skip.
  Proof.
    cbv beta iota zeta delta
      [classify_price_row old_price_change cd_old_price cd_row cd_old_price_value].
    now rewrite !py_or_str_some, !py_or_int_some.
  Qed.

Lemma price_change_verdict (h_now : HistoryRow) (p : PropertyRow)
    (h_prev : HistoryRow) (d : ChangeData) :
    classify_price_row (old_price_change h_now p h_prev) = PriceChange d ->
    cd_row d = h_now
    /\ lower (strip (h_price_display h_prev)) <> lower (strip (h_price_display h_now))
    /\ (h_price_value h_prev > 0)%Z.
  Proof.
    rewrite classify_price_row_spec. cbv zeta.
    destruct (String.eqb _ _) eqn:E; [discriminate |].
    apply String.eqb_neq in E.
    destruct ((h_price_value h_prev >? 0)%Z && (h_price_value h_now >? 0)%Z
              && negb (h_price_value h_prev =? h_price_value h_now)%Z) eqn:C1.
    - intro H. injection H as <-. rewrite !andb_true_iff in C1.
      destruct C1 as [[C1 _] _]. repeat split; [exact E | lia].
    - destruct ((h_price_value h_prev =? 0)%Z && (h_price_value h_now >? 0)%Z);
        [discriminate |].
      destruct ((h_price_value h_now =? 0)%Z && (h_price_value h_prev >? 0)%Z) eqn:C3;
        [| discriminate].
      intro H. injection H as <-. apply andb_prop in C3 as [_ C3].
      repeat split; [exact E | lia].
  Qed.

Lemma guide_revealed_verdict (h_now : HistoryRow) (p : PropertyRow)
    (h_prev : HistoryRow) (d : ChangeData) :
    classify_price_row (old_price_change h_now p h_prev) = GuideRevealed d ->
    cd_row d = h_now
    /\ lower (strip (h_price_display h_prev)) <> lower (strip (h_price_display h_now))
    /\ h_price_value h_prev = 0%Z.
  Proof.
    rewrite classify_price_row_spec. cbv zeta.
    destruct (String.eqb _ _) eqn:E; [discriminate |].
    apply String.eqb_neq in E.
    destruct ((h_price_value h_prev >? 0)%Z && (h_price_value h_now >? 0)%Z
              && negb (h_price_value h_prev =? h_price_value h_now)%Z);
      [discriminate |].
    destruct ((h_price_value h_prev =? 0)%Z && (h_price_value h_now >? 0)%Z) eqn:C2.
    - intro H. injection H as <-. apply andb_prop in C2 as [C2 _].
      repeat split; [exact E | lia].
    - destruct ((h_price_value h_now =? 0)%Z && (h_price_value h_prev >? 0)%Z);
        discriminate.
  Qed.

Variable db : DB.
Variable target_date : string.

  (** Entries of [price_changes] and [guide_revealed] come from the price
      loop over the join against the single previous date. *)
Lemma in_price_changes (d : ChangeData) :
    In d (price_changes (get_comprehensive_daily_changes db target_date))
    <-> exists prev_date e,
          global_prev_date (listing_history db) target_date = Some prev_date
          /\ prev_date <> ""
          /\ In e (against_prev_date db target_date prev_date "sale")
          /\ classify_price_row e = PriceChange d.
  Proof.
    unfold get_comprehensive_daily_changes.
    destruct (global_prev_date (listing_history db) target_date) as [[| a s] |];
      simpl.
    - split; [intros [] | intros (pd & e & H & Hne & _)].
      injection H as <-. now elim Hne.
    - rewrite in_flat_map. split.
      + intros (v & Hv & Hd). apply in_map_iff in Hv as (e & <- & He).
        exists (String a s), e. repeat split; try assumption; try discriminate.
        destruct (classify_price_row e); simpl in Hd; try contradiction.
        destruct Hd as [<- | []]. reflexivity.
      + intros (pd & e & H & _ & He & Hc). injection H as <-.
        exists (classify_price_row e). split; [now apply in_map |].
        rewrite Hc. now left.
    - split; [intros [] | intros (pd & e & H & _)]. discriminate.
  Qed.

Lemma in_guide_revealed (d : ChangeData) :
    In d (guide_revealed (get_comprehensive_daily_changes db target_date))
    <-> exists prev_date e,
          global_prev_date (listing_history db) target_date = Some prev_date
          /\ prev_date <> ""
          /\ In e (against_prev_date db target_date prev_date "sale")
          /\ classify_price_row e = GuideRevealed d.
  Proof.
    unfold get_comprehensive_daily_changes.
    destruct (global_prev_date (listing_history db) target_date) as [[| a s] |];
      simpl.
    - split; [intros [] | intros (pd & e & H & Hne & _)].
      injection H as <-. now elim Hne.
    - rewrite in_flat_map. split.
      + intros (v & Hv & Hd). apply in_map_iff in Hv as (e & <- & He).
        exists (String a s), e. repeat split; try assumption; try discriminate.
        destruct (classify_price_row e); simpl in Hd; try contradiction.
        destruct Hd as [<- | []]. reflexivity.
      + intros (pd & e & H & _ & He & Hc). injection H as <-.
        exists (classify_price_row e). split; [now apply in_map |].
        rewrite Hc. now left.
    - split; [intros [] | intros (pd & e & H & _)]. discriminate.
  Qed.

End PriceVerdicts.

(** ** The coarse ADJUSTMENT bucket against the typed price categories *)

Lemma scenario_yields_one_price_change :
  price_changes (get_comprehensive_daily_changes db_scenario "2024-01-02")
  = [scenario_price_change]
  /\ cd_price_diff scenario_price_change = Some 50000%Z.
Proof. split; vm_compute; reflexivity. Qed.

(** A pair of snapshots on the target date and on the single previous date
    whose display strings differ after normalisation is a row of the
    ADJUSTMENT query. *)
Lemma price_row_is_adjustment (db : DB) (target_date prev_date : string)
  (h_now : HistoryRow) (p : PropertyRow) (h_prev : HistoryRow) :
  global_prev_date (listing_history db) target_date = Some prev_date ->
  In h_now (listing_history db) -> In p (properties db) ->
  In h_prev (listing_history db) ->
  h_date h_now = target_date ->
  h_property_id h_now = p_property_id p ->
  h_property_id h_now = h_property_id h_prev ->
  h_date h_prev = prev_date ->
  lower (strip (h_price_display h_prev)) <> lower (strip (h_price_display h_now)) ->
  exists c, In c (get_daily_changes db target_date)
            /\ c_type c = ADJUSTMENT
            /\ cd_property_id (c_data c) = h_property_id h_now.
Proof.
  intros Hg Hn Hq Hv E1 Hid F1 F2 Hneq.
  exists (mkTyped ADJUSTMENT (adjustment_change h_now p h_prev)).
  split; [| split; reflexivity].
  unfold get_daily_changes. apply in_or_app. right. apply in_map.
  apply in_adjustment_rows. exists h_now, p, h_prev.
  repeat (split; [assumption |]). split; [| split; [| reflexivity]].
  - rewrite F1, F2. apply property_prev_date_of_global; assumption.
  - unfold differs_at_all. simpl.
    destruct (String.eqb (h_price_display h_now) (h_price_display h_prev)) eqn:E;
      [| reflexivity].
    apply String.eqb_eq in E. rewrite E in Hneq. now elim Hneq.
Qed.

(** C5. Every property that the comprehensive classifier files under
    PRICE_CHANGE or GUIDE_REVEALED for a target date is also an ADJUSTMENT
    entry of the coarse daily change list for that date. *)
Theorem adjustment_covers_price_categories (db : DB) (target_date : string)
  (d : ChangeData) :
  In d (price_changes (get_comprehensive_daily_changes db target_date)
        ++ guide_revealed (get_comprehensive_daily_changes db target_date)) ->
  exists c, In c (get_daily_changes db target_date)
            /\ c_type c = ADJUSTMENT
            /\ cd_property_id (c_data c) = cd_property_id d.
Proof.
  intros Hin. apply in_app_or in Hin as [Hin | Hin].
  - apply in_price_changes in Hin as (pd & e & Hg & _ & He & Hc).
    apply in_against_prev_date in He
      as (n & q & v & Hn & Hq & Hv & E1 & _ & Hid & F1 & F2 & _ & ->).
    apply price_change_verdict in Hc as (Hrow & Hneq & _).
    unfold cd_property_id. rewrite Hrow.
    now apply (price_row_is_adjustment db target_date pd n q v).
  - apply in_guide_revealed in Hin as (pd & e & Hg & _ & He & Hc).
    apply in_against_prev_date in He
      as (n & q & v & Hn & Hq & Hv & E1 & _ & Hid & F1 & F2 & _ & ->).
    apply guide_revealed_verdict in Hc as (Hrow & Hneq & _).
    unfold cd_property_id. rewrite Hrow.
    now apply (price_row_is_adjustment db target_date pd n q v).
Qed.

Lemma adjustment_covers_price_categories_witness :
  exists c, In c (get_daily_changes db_scenario "2024-01-02")
            /\ c_type c = ADJUSTMENT
            /\ cd_property_id (c_data c) = "P1".
Proof.
  apply (adjustment_covers_price_categories db_scenario "2024-01-02"
           scenario_price_change).
  vm_compute. left. reflexivity.
Defined.

(** ** PRICE_CHANGE and GUIDE_REVEALED *)

Lemma same_snapshot (hs : list HistoryRow) (a b : HistoryRow) :
  history_keys_unique hs -> In a hs -> In b hs ->
  h_property_id a = h_property_id b -> h_date a = h_date b ->
  h_status a = h_status b -> a = b.
Proof.
  intros Hnd Ha Hb Hp Hd Hs.
  apply (NoDup_map_injective key_of hs a b Hnd Ha Hb).
  unfold key_of. now rewrite Hp, Hd, Hs.
Qed.

(** C7. When the FOR_SALE snapshot of a property on the target date and its
    latest earlier FOR_SALE snapshot carry display prices that are equal
    after stripping white space and folding case, the classifier emits no
    PRICE_CHANGE entry for that property. *)
Theorem no_price_change_on_case_or_whitespace (db : DB) (target_date : string)
  (h_now h_prev : HistoryRow) :
  history_keys_unique (listing_history db) ->
  In h_now (listing_history db) -> In h_prev (listing_history db) ->
  h_property_id h_prev = h_property_id h_now ->
  h_status h_now = "sale" -> h_status h_prev = "sale" ->
  h_date h_now = target_date ->
  text_ltb (h_date h_prev) target_date = true ->
  (forall r, In r (listing_history db) ->
             h_property_id r = h_property_id h_now -> h_status r = "sale" ->
             text_ltb (h_date r) target_date = true ->
             text_leb (h_date r) (h_date h_prev) = true) ->
  lower (strip (h_price_display h_prev)) = lower (strip (h_price_display h_now)) ->
  forall d, In d (price_changes (get_comprehensive_daily_changes db target_date)) ->
            cd_property_id d <> h_property_id h_now.
Proof.
  intros Hnd Hn Hv Hp Sn Sv Dn Dv Hlatest Hnorm d Hd Hpid.
  apply in_price_changes in Hd as (pd & e & Hg & _ & He & Hc).
  apply in_against_prev_date in He
    as (n & q & v & Hn' & _ & Hv' & E1 & E2 & _ & F1 & F2 & F3 & ->).
  apply price_change_verdict in Hc as (Hrow & Hneq & _).
  unfold cd_property_id in Hpid. rewrite Hrow in Hpid.
  assert (n = h_now) as ->
    by (apply (same_snapshot (listing_history db)); congruence).
  destruct (global_prev_date_spec db (h_date h_now) pd) as (Hlt & _ & Hub);
    [now rewrite Dn |].
  assert (h_date v = h_date h_prev) as Hdate.
  { apply text_leb_antisym.
    - apply Hlatest; congruence.
    - rewrite F2. apply Hub; [exact Hv | now rewrite Dn]. }
  assert (v = h_prev) as ->
    by (apply (same_snapshot (listing_history db)); congruence).
  contradiction.
Qed.

Lemma no_price_change_on_case_or_whitespace_witness :
  lower (strip "Offers over $1,500,000") = lower (strip "OFFERS OVER $1,500,000 ")
  /\ forall d,
       In d (price_changes (get_comprehensive_daily_changes db_case_only "2024-01-02")) ->
       cd_property_id d <> "P1".
Proof.
  split; [reflexivity |].
  apply (no_price_change_on_case_or_whitespace db_case_only "2024-01-02"
           (history_row_of "2024-01-02"
              (listing "P1" "sale" "OFFERS OVER $1,500,000 " 1500000))
           (history_row_of "2024-01-01"
              (listing "P1" "sale" "Offers over $1,500,000" 1500000))).
  - apply run_batches_keys_unique.
  - right. left. reflexivity.
  - left. reflexivity.
  - reflexivity.
  - reflexivity.
  - reflexivity.
  - reflexivity.
  - reflexivity.
  - intros r [<- | [<- | []]] _ _ Hlt; [reflexivity | discriminate Hlt].
  - reflexivity.
Defined.

Section Exclusive.

Variable db : DB.
Variable target_date prev_date : string.
Hypothesis Hwf : ledger_wf db.
Hypothesis Hprev : global_prev_date (listing_history db) target_date = Some prev_date.



End Exclusive.




(** ** Which earlier record each category compares against *)

Lemma property_prev_date_intro (hs : list HistoryRow) (target_date : string)
  (h_prev : HistoryRow) :
  In h_prev hs ->
  text_ltb (h_date h_prev) target_date = true ->
  (forall r, In r hs -> h_property_id r = h_property_id h_prev ->
             text_ltb (h_date r) target_date = true ->
             text_leb (h_date r) (h_date h_prev) = true) ->
  property_prev_date hs (h_property_id h_prev) target_date = Some (h_date h_prev).
Proof.
  intros Hin Hlt Hub.
  assert (Hmem : In (h_date h_prev)
    (map h_date (filter (fun r => String.eqb (h_property_id r) (h_property_id h_prev)
                                  && text_ltb (h_date r) target_date) hs))).
  { apply in_map. apply filter_In. split; [exact Hin |].
    now rewrite String.eqb_refl, Hlt. }
  unfold property_prev_date.
  destruct (sql_max_text_some _ _ Hmem) as [m Hm]. rewrite Hm. f_equal.
  apply (sql_max_text_unique _ _ _ Hm Hmem).
  intros x Hx. apply in_map_iff in Hx as (r & <- & Hr).
  apply filter_In in Hr as [Hr Hc]. apply andb_prop in Hc as [Hp Hc].
  apply String.eqb_eq in Hp. now apply Hub.
Qed.

Lemma in_sold (db : DB) (target_date : string) (d : ChangeData) :
  In d (sold (get_comprehensive_daily_changes db target_date)) ->
  exists prev_date,
    global_prev_date (listing_history db) target_date = Some prev_date
    /\ In d (against_prev_date db target_date prev_date "sold").
Proof.
  unfold get_comprehensive_daily_changes.
  destruct (global_prev_date (listing_history db) target_date) as [[| a s] |];
    simpl; try contradiction.
  intro H. eauto.
Qed.

Lemma in_disappeared (db : DB) (target_date : string) (d : ChangeData) :
  In d (disappeared (get_comprehensive_daily_changes db target_date)) ->
  exists prev_date,
    global_prev_date (listing_history db) target_date = Some prev_date
    /\ In d (disappeared_rows db target_date prev_date).
Proof.
  unfold get_comprehensive_daily_changes.
  destruct (global_prev_date (listing_history db) target_date) as [[| a s] |];
    simpl; try contradiction.
  intro H. eauto.
Qed.

Lemma verdict_keeps_columns (e d : ChangeData) :
  classify_price_row e = PriceChange d \/ classify_price_row e = GuideRevealed d ->
  cd_row d = cd_row e /\ cd_old_price d = cd_old_price e.
Proof.
  unfold classify_price_row.
  destruct (String.eqb _ _); [intros [H | H]; discriminate |].
  destruct (_ && _ && _)%bool;
    [intros [H | H]; [injection H as <-; now split | discriminate] |].
  destruct (_ && _)%bool;
    [intros [H | H]; [discriminate | injection H as <-; now split] |].
  destruct (_ && _)%bool; intros [H | H]; try discriminate.
  injection H as <-. now split.
Qed.

(** C2, amended.  The coarse ADJUSTMENT entries compare a snapshot of the
    target date against the rows of the same property on that property's own
    latest earlier date, and every such differing pair is reported, however
    old the earlier record.  The typed categories SOLD, PRICE_CHANGE and
    GUIDE_REVEALED compare against a FOR_SALE row on the single latest
    capture date of the whole ledger before the target date, and
    DISAPPEARED lists FOR_SALE rows of that date. *)
Theorem baseline_of_each_category (db : DB) (target_date : string) :
  let hs := listing_history db in
  let result := get_comprehensive_daily_changes db target_date in
  let own_latest_before (h_prev : HistoryRow) :=
    text_ltb (h_date h_prev) target_date = true
    /\ forall r, In r hs -> h_property_id r = h_property_id h_prev ->
                 text_ltb (h_date r) target_date = true ->
                 text_leb (h_date r) (h_date h_prev) = true in
  let ledger_latest_before (h_prev : HistoryRow) :=
    text_ltb (h_date h_prev) target_date = true
    /\ forall r, In r hs -> text_ltb (h_date r) target_date = true ->
                 text_leb (h_date r) (h_date h_prev) = true in
  (forall c, In c (get_daily_changes db target_date) -> c_type c = ADJUSTMENT ->
     exists h_prev,
       In h_prev hs /\ h_property_id h_prev = cd_property_id (c_data c)
       /\ own_latest_before h_prev
       /\ cd_old_price (c_data c) = Some (h_price_display h_prev))
  /\ (forall h_now p h_prev,
        In h_now hs -> In p (properties db) -> In h_prev hs ->
        h_date h_now = target_date ->
        h_property_id h_now = p_property_id p ->
        h_property_id h_prev = h_property_id h_now ->
        own_latest_before h_prev ->
        sql_is_true (differs_at_all h_now h_prev) = true ->
        In (mkTyped ADJUSTMENT (adjustment_change h_now p h_prev))
           (get_daily_changes db target_date))
  /\ (forall d, In d (sold result ++ price_changes result ++ guide_revealed result) ->
        exists h_prev,
          In h_prev hs /\ h_property_id h_prev = cd_property_id d
          /\ ledger_latest_before h_prev
          /\ h_status h_prev = "sale"
          /\ cd_old_price d = Some (h_price_display h_prev))
  /\ (forall d, In d (disappeared result) ->
        In (cd_row d) hs /\ ledger_latest_before (cd_row d)
        /\ h_status (cd_row d) = "sale").
Proof.
  intros hs result own_latest_before ledger_latest_before.
  assert (Hjoin : forall pd st d,
    global_prev_date hs target_date = Some pd ->
    In d (against_prev_date db target_date pd st) ->
    exists h_prev,
      In h_prev hs /\ h_property_id h_prev = cd_property_id d
      /\ ledger_latest_before h_prev /\ h_status h_prev = "sale"
      /\ cd_old_price d = Some (h_price_display h_prev)).
  { intros pd st d Hg Hd.
    apply in_against_prev_date in Hd
      as (n & q & v & Hn & _ & Hv & E1 & E2 & _ & F1 & F2 & F3 & ->).
    destruct (global_prev_date_spec db target_date pd Hg) as (Hlt & _ & Hub).
    exists v. unfold ledger_latest_before, cd_property_id. simpl.
    rewrite F2. repeat split; auto. }
  split; [| split; [| split]].
  - intros c Hc Hty. unfold get_daily_changes in Hc.
    apply in_app_or in Hc as [Hc | Hc];
      apply in_map_iff in Hc as (d & <- & Hd); [discriminate |].
    apply in_adjustment_rows in Hd
      as (n & q & v & Hn & _ & Hv & E & _ & F1 & F2 & _ & ->).
    destruct (property_prev_date_spec db target_date _ _ F2) as (Hlt & _ & Hub).
    exists v. unfold own_latest_before, cd_property_id. simpl.
    repeat split; auto.
    intros r Hr Hp Hl. apply Hub; [exact Hr | congruence | exact Hl].
  - intros n q v Hn Hq Hv E Hid Hp [Hlt Hub] Hdiff.
    unfold get_daily_changes. apply in_or_app. right. apply in_map.
    apply in_adjustment_rows. exists n, q, v.
    repeat (split; [congruence || assumption |]).
    split; [| split; [exact Hdiff | reflexivity]].
    rewrite <- Hp. now apply property_prev_date_intro.
  - intros d Hd. apply in_app_or in Hd as [Hd | Hd].
    + apply in_sold in Hd as (pd & Hg & Hd). now apply (Hjoin pd "sold").
    + assert (Hex : exists pd e,
                global_prev_date hs target_date = Some pd
                /\ In e (against_prev_date db target_date pd "sale")
                /\ (classify_price_row e = PriceChange d
                    \/ classify_price_row e = GuideRevealed d)).
      { apply in_app_or in Hd as [Hd | Hd].
        - apply in_price_changes in Hd as (pd & e & Hg & _ & He & Hc). eauto 6.
        - apply in_guide_revealed in Hd as (pd & e & Hg & _ & He & Hc). eauto 6. }
      destruct Hex as (pd & e & Hg & He & Hc).
      apply verdict_keeps_columns in Hc as [Hrow Hold].
      destruct (Hjoin pd "sale" e Hg He) as (v & H1 & H2 & H3 & H4 & H5).
      exists v. unfold cd_property_id in *. rewrite Hrow, Hold. auto.
  - intros d Hd. apply in_disappeared in Hd as (pd & Hg & Hd).
    unfold disappeared_rows in Hd. apply in_flat_map in Hd as (v & Hv & Hd).
    destruct (String.eqb (h_date v) pd && String.eqb (h_status v) "sale"
              && negb _)%bool eqn:E; [| contradiction].
    rewrite !andb_true_iff, !String.eqb_eq in E. destruct E as [[E1 E2] _].
    apply in_map_iff in Hd as (q & <- & _). simpl.
    destruct (global_prev_date_spec db target_date pd Hg) as (Hlt & _ & Hub).
    unfold ledger_latest_before. rewrite E1. auto.
Qed.

Lemma baseline_of_each_category_witness :
  In (mkTyped ADJUSTMENT
        (adjustment_change
           (history_row_of "2024-01-05" (listing "P1" "sale" "$1,050,000" 1050000))
           (mkProperty "P1" "12 Example St Castle Hill" "CASTLE HILL" "2024-01-01"
                       "https://www.domain.com.au/p" 0)
           (history_row_of "2024-01-01" (listing "P1" "sale" "$1,000,000" 1000000))))
     (get_daily_changes db_gap "2024-01-05").
Proof.
  assert (H := baseline_of_each_category db_gap "2024-01-05").
  cbv zeta in H. destruct H as (_ & H & _).
  apply H.
  - right. right. left. reflexivity.
  - left. reflexivity.
  - left. reflexivity.
  - reflexivity.
  - reflexivity.
  - reflexivity.
  - split; [reflexivity |].
    intros r [<- | [<- | [<- | [<- | []]]]] Hp Hlt;
      first [reflexivity | discriminate Hp | discriminate Hlt].
  - reflexivity.
Defined.

(** C2, as stated, fails on a ledger with an observation gap: P1 was last
    seen on 2024-01-01 at another price, the ledger's previous capture date
    is 2024-01-04, and the classifier reports no PRICE_CHANGE for P1 on
    2024-01-05. *)
Lemma per_property_baseline_fails :
  ~ price_change_against_own_previous db_gap "2024-01-05".
Proof.
  intro H.
  destruct (H (history_row_of "2024-01-05" (listing "P1" "sale" "$1,050,000" 1050000))
              (history_row_of "2024-01-01" (listing "P1" "sale" "$1,000,000" 1000000)))
    as (d & Hd & _);
    try reflexivity; try discriminate.
  - right. right. left. reflexivity.
  - left. reflexivity.
  - vm_compute in Hd. exact Hd.
Qed.

(** ** The accuracy evaluator *)

(** C1 (the code departs from the claim).  P1 sold on 2024-06-01; the
    comparison of the report carries the Domain estimate read on 2024-06-05
    and the model prediction made on 2024-06-10, and computes both error
    percentages from them; the estimate of 2024-05-20 is not used. *)
Theorem estimate_after_sale_is_used :
  exists c,
    comparisons_of db_estimate_after_sale = [c]
    /\ cmp_sold_date_iso c = "2024-06-01"
    /\ domain_date c = Some "2024-06-05"
    /\ domain_estimate c = Some 905000%Z
    /\ domain_error_pct c = Some (error_pct 905000 900000)
    /\ xgboost_date c = Some "2024-06-10"
    /\ xgboost_error_pct c = Some (error_pct 990000 900000).
Proof.
  eexists. split; [vm_compute; reflexivity |].
  repeat split; vm_compute; reflexivity.
Qed.

(** C8 (the code departs from the claim).  P1 was captured as sold on
    2024-06-01 and listed again on 2024-07-10; the listed price of its
    comparison is the asking price of 2024-07-10, not that of 2024-05-20. *)
Theorem listing_after_sale_is_selected :
  select_listing db_relisted "P1"
  = Some (history_row_of "2024-07-10" (listing "P1" "sale" "$1,300,000" 1300000))
  /\ map cmp_sold_date_iso (comparisons_of db_relisted) = ["2024-06-01"]
  /\ map listed_price (comparisons_of db_relisted) = [Some 1300000%Z]
  /\ map listed_error_pct (comparisons_of db_relisted)
     = [Some (error_pct 1300000 900000)].
Proof. repeat split; vm_compute; reflexivity. Qed.

Section SoldRows.

Lemma in_insert_sorted {A : Type} (before : A -> A -> bool) (x y : A) (l : list A) :
    In y (insert_sorted before x l) <-> y = x \/ In y l.
  Proof.
    induction l as [| z l IH]; simpl; [intuition |].
    destruct (before z x); simpl; [rewrite IH |]; intuition.
  Qed.

Lemma in_order_by {A : Type} (before : A -> A -> bool) (y : A) (l : list A) :
    In y (order_by before l) <-> In y l.
  Proof.
    unfold order_by. induction l as [| x l IH]; simpl; [reflexivity |].
    rewrite in_insert_sorted, IH. intuition.
  Qed.

Lemma option_text_eqb_eq (a b : option string) :
    option_text_eqb a b = true -> a = b.
  Proof.
    destruct a, b; simpl; try discriminate; try reflexivity.
    intro H. apply String.eqb_eq in H. now subst.
  Qed.

Lemma sold_row_eqb_eq (a b : SoldRow) : sold_row_eqb a b = true -> a = b.
  Proof.
    unfold sold_row_eqb. rewrite !andb_true_iff, !String.eqb_eq, !Z.eqb_eq.
    intros [[[[[[[[[[H1 H2] H3] H4] H5] H6] H7] H8] H9] H10] H11].
    apply option_text_eqb_eq in H5, H6, H11.
    destruct a, b; simpl in *. congruence.
  Qed.

  (** DISTINCT loses no row: a row of the input is in the output unless an
      equal row was seen before. *)
Lemma in_distinct_by (z : SoldRow) (l seen : list SoldRow) :
    In z l -> In z seen \/ In z (distinct_by sold_row_eqb seen l).
  Proof.
    revert seen. induction l as [| x l IH]; simpl; intros seen Hin; [contradiction |].
    destruct (existsb (sold_row_eqb x) seen) eqn:E.
    - destruct Hin as [<- | Hin]; [| now apply IH].
      apply existsb_exists in E as (y & Hy & Heq).
      apply sold_row_eqb_eq in Heq. subst. now left.
    - destruct Hin as [<- | Hin]; [right; now left |].
      destruct (IH (x :: seen) Hin) as [[<- | Hs] | Hd]; simpl; auto.
  Qed.

  (** Every SOLD row with a positive price and a [properties] row is a row of
      [sold_properties], whatever its dates. *)
Lemma sold_properties_complete (db : DB) (p : PropertyRow) (h : HistoryRow) :
    In p (properties db) -> In h (listing_history db) ->
    p_property_id p = h_property_id h ->
    h_status h = "sold" -> (h_price_value h > 0)%Z ->
    In (mkSold (p_property_id p) (p_address p) (p_suburb p) (h_price_value h)
               (h_sold_date h) (h_sold_date_iso h) (h_date h) (h_beds h)
               (h_baths h) (h_cars h) (h_property_type h))
       (sold_properties db).
  Proof.
    intros Hp Hh Hid Hs Hpos. unfold sold_properties.
    apply in_order_by.
    destruct (in_distinct_by
                (mkSold (p_property_id p) (p_address p) (p_suburb p) (h_price_value h)
                        (h_sold_date h) (h_sold_date_iso h) (h_date h) (h_beds h)
                        (h_baths h) (h_cars h) (h_property_type h))
                (flat_map (fun p0 =>
                   flat_map (fun h_sold =>
                     if String.eqb (p_property_id p0) (h_property_id h_sold)
                        && String.eqb (h_status h_sold) "sold"
                        && (h_price_value h_sold >? 0)%Z
                     then [mkSold (p_property_id p0) (p_address p0) (p_suburb p0)
                                  (h_price_value h_sold) (h_sold_date h_sold)
                                  (h_sold_date_iso h_sold) (h_date h_sold)
                                  (h_beds h_sold) (h_baths h_sold) (h_cars h_sold)
                                  (h_property_type h_sold)]
                     else []) (listing_history db)) (properties db)) [])
      as [[] | H]; [| exact H].
    apply in_flat_map. exists p. split; [exact Hp |].
    apply in_flat_map. exists h. split; [exact Hh |].
    rewrite Hid, Hs, !String.eqb_refl. simpl.
    replace (h_price_value h >? 0)%Z with true by (symmetry; lia).
    rewrite <- Hid. now left.
  Qed.

End SoldRows.

(** C10, amended.  For two values of [days_back] for which the cutoff date
    can be computed, the report returns, with the same comparisons and
    statistics for both: the cutoff is never applied, and every SOLD row
    with a positive price that has something to compare against is in the
    comparisons, whatever its dates. *)
Theorem days_back_has_no_effect (now_ordinal : Z) (db : DB) (d1 d2 : Z) :
  cutoff_representable now_ordinal d1 ->
  cutoff_representable now_ordinal d2 ->
  exists r,
    get_prediction_accuracy_report now_ordinal db d1 = Ok r
    /\ get_prediction_accuracy_report now_ordinal db d2 = Ok r
    /\ total_sold (stats r) = length (sold_properties db)
    /\ forall p h,
         In p (properties db) -> In h (listing_history db) ->
         p_property_id p = h_property_id h ->
         h_status h = "sold" -> (h_price_value h > 0)%Z ->
         let s := mkSold (p_property_id p) (p_address p) (p_suburb p)
                         (h_price_value h) (h_sold_date h) (h_sold_date_iso h)
                         (h_date h) (h_beds h) (h_baths h) (h_cars h)
                         (h_property_type h) in
         has_prediction (compare_sold db s) = true ->
         In (compare_sold db s) (comparisons r).
Proof.
  intros [[A1 A2] [A3 A4]] [[B1 B2] [B3 B4]].
  exists (mkReport (comparisons_of db) (stats_of db)).
  assert (Hok : forall d,
    (-999999999 <= d <= 999999999)%Z -> (1 <= now_ordinal - d <= 3652059)%Z ->
    get_prediction_accuracy_report now_ordinal db d
    = Ok (mkReport (comparisons_of db) (stats_of db))).
  { intros d [H1 H2] [H3 H4].
    unfold get_prediction_accuracy_report, timedelta, datetime_sub.
    replace (-999999999 <=? d)%Z with true by (symmetry; lia).
    replace (d <=? 999999999)%Z with true by (symmetry; lia).
    simpl.
    replace (1 <=? now_ordinal - d)%Z with true by (symmetry; lia).
    replace (now_ordinal - d <=? 3652059)%Z with true by (symmetry; lia).
    reflexivity. }
  split; [apply Hok; lia | split; [apply Hok; lia | split; [reflexivity |]]].
  intros p h Hp Hh Hid Hs Hpos s Hpred. simpl.
  unfold comparisons_of. apply filter_In. split; [| exact Hpred].
  apply in_map. now apply sold_properties_complete.
Qed.

Lemma days_back_has_no_effect_witness :
  exists r,
    get_prediction_accuracy_report ordinal_2024_06_15 db_estimate_after_sale 365 = Ok r
    /\ get_prediction_accuracy_report ordinal_2024_06_15 db_estimate_after_sale 30 = Ok r.
Proof.
  destruct (days_back_has_no_effect ordinal_2024_06_15 db_estimate_after_sale 365 30)
    as (r & H1 & H2 & _).
  - unfold cutoff_representable, ordinal_2024_06_15. lia.
  - unfold cutoff_representable, ordinal_2024_06_15. lia.
  - exists r. split; assumption.
Defined.

(** C10, as stated, fails: with [days_back = 1000000] the cutoff date would
    fall before year 1, and the call raises instead of returning the report
    it returns for [days_back = 365]. *)
Lemma days_back_can_raise :
  get_prediction_accuracy_report ordinal_2024_06_15 db_estimate_after_sale 1000000
  = Raise OverflowError
  /\ get_prediction_accuracy_report ordinal_2024_06_15 db_estimate_after_sale 365
     <> get_prediction_accuracy_report ordinal_2024_06_15 db_estimate_after_sale 1000000.
Proof. split; [reflexivity | discriminate]. Qed.

(* ===================================================================== *)
(** * Further properties of the code *)
(* ===================================================================== *)

(** ** Ingestion: what [save_listings] keeps and what it writes *)

Section IngestionSteps.

Variable today_str : string.

Lemma save_listing_property_cases (db : DB) (l : PropertyListing) (p : PropertyRow) :
  In p (properties (save_listing today_str db l)) ->
  In p (properties db)
  \/ (p = property_row_of today_str l
      /\ forall q, In q (properties db) -> p_property_id q <> id l).
Proof.
  rewrite save_listing_properties. unfold known_property.
  destruct (find _ (properties db)) as [q |] eqn:E; [now left |].
  simpl. intros Hin%in_app_or. destruct Hin as [Hin | [<- | []]]; [now left |].
  right. split; [reflexivity |].
  intros q Hq Heq.
  apply (find_none _ _ E) in Hq. apply String.eqb_neq in Hq. contradiction.
Qed.

Lemma save_listing_keeps_properties (db : DB) (l : PropertyListing) (p : PropertyRow) :
  In p (properties db) -> In p (properties (save_listing today_str db l)).
Proof.
  intro Hin. rewrite save_listing_properties. now apply known_property_keeps.
Qed.

Lemma save_listing_property_ids_unique (db : DB) (l : PropertyListing) :
  property_ids_unique (properties db) ->
  property_ids_unique (properties (save_listing today_str db l)).
Proof.
  unfold property_ids_unique. intro Hnd.
  rewrite save_listing_properties. unfold known_property.
  destruct (find _ (properties db)) as [q |] eqn:E; [exact Hnd |].
  simpl. rewrite map_app. apply NoDup_app; [exact Hnd | |].
  - simpl. constructor; [intros [] | constructor].
  - intros k Hk [<- | []]. apply in_map_iff in Hk as (q & Hq & Hin).
    apply (find_none _ _ E) in Hin. apply String.eqb_neq in Hin. contradiction.
Qed.

(** A row that is not replaced stays: the row of another key, and every
    SOLD row. *)
Lemma save_listing_keeps_row (db : DB) (l : PropertyListing) (h : HistoryRow) :
  In h (listing_history db) ->
  h_date h <> today_str \/ h_status h = "sold" ->
  In h (listing_history (save_listing today_str db l)).
Proof.
  intros Hin Hother. rewrite save_listing_unfold.
  destruct (String.eqb (status l) "sold") eqn:Hs.
  - destruct (has_sold_row (listing_history db) (id l)).
    + now rewrite known_property_history.
    + simpl. apply in_or_app. now left.
  - simpl. unfold insert_or_replace_history. apply in_or_app. left.
    apply filter_In. split; [exact Hin |].
    apply negb_true_iff. apply not_true_is_false. intro Hk.
    apply same_key_iff in Hk. unfold key_of in Hk. simpl in Hk.
    injection Hk as Hp Hd Hst.
    destruct Hother as [Hd' | Hs']; [contradiction |].
    rewrite Hs' in Hst. rewrite <- Hst in Hs. discriminate.
Qed.

Lemma save_listings_property_ids_unique (ls : list PropertyListing) (db : DB) :
  property_ids_unique (properties db) ->
  property_ids_unique (properties (save_listings today_str ls db)).
Proof.
  unfold save_listings. revert db.
  induction ls as [| l ls IH]; simpl; intros db Hnd; [exact Hnd |].
  apply IH. now apply save_listing_property_ids_unique.
Qed.

End IngestionSteps.

(** X1. A [properties] row is written once: ingestion keeps every row as it
    is, and a row it adds belongs to a record of the batch whose property had
    no row before, with [first_seen] the capture date and the catchment flag
    0; the primary key stays unique. *)
Theorem property_row_written_once (today_str : string) (listings : list PropertyListing)
  (db : DB) :
  (forall p, In p (properties db) ->
             In p (properties (save_listings today_str listings db)))
  /\ (forall p, In p (properties (save_listings today_str listings db)) ->
        In p (properties db)
        \/ ((forall q, In q (properties db) -> p_property_id q <> p_property_id p)
            /\ exists l, In l listings /\ p = property_row_of today_str l))
  /\ (property_ids_unique (properties db) ->
      property_ids_unique (properties (save_listings today_str listings db))).
Proof.
  unfold save_listings. revert db.
  induction listings as [| l ls IH]; simpl; intro db.
  - repeat split; auto.
  - destruct (IH (save_listing today_str db l)) as (Hkeep & Hnew & Huniq).
    split; [| split].
    + intros p Hp. apply Hkeep. now apply save_listing_keeps_properties.
    + intros p Hp. destruct (Hnew p Hp) as [Hold | (Hfresh & l' & Hl' & ->)].
      * apply save_listing_property_cases in Hold as [Hold | (-> & Hfresh)];
          [now left |].
        right. split; [exact Hfresh | exists l; split; [now left | reflexivity]].
      * right. split; [| exists l'; split; [now right | reflexivity]].
        intros q Hq. apply Hfresh. now apply save_listing_keeps_properties.
    + intro Hnd. apply Huniq. now apply save_listing_property_ids_unique.
Qed.

(** X2. Ingestion is append-only for the past: a snapshot of another date
    and every SOLD row stay in [listing_history] unchanged, and every row of
    the table afterwards is a row that was there or the row of a record of
    the batch under the capture date. *)
Theorem earlier_snapshots_are_kept (today_str : string) (listings : list PropertyListing)
  (db : DB) :
  (forall h, In h (listing_history db) ->
             h_date h <> today_str \/ h_status h = "sold" ->
             In h (listing_history (save_listings today_str listings db)))
  /\ (forall h, In h (listing_history (save_listings today_str listings db)) ->
        In h (listing_history db)
        \/ exists l, In l listings /\ h = history_row_of today_str l).
Proof.
  unfold save_listings. revert db.
  induction listings as [| l ls IH]; simpl; intro db.
  - split; auto.
  - destruct (IH (save_listing today_str db l)) as (Hkeep & Hfrom).
    split.
    + intros h Hin Hother. apply Hkeep; [| exact Hother].
      now apply save_listing_keeps_row.
    + intros h Hin. destruct (Hfrom h Hin) as [Hold | (l' & Hl' & ->)].
      * apply save_listing_history_cases in Hold as [Hold | ->]; [now left |].
        right. exists l. split; [now left | reflexivity].
      * right. exists l'. split; [now right | reflexivity].
Qed.

Section SoldOnce.

Lemma sold_rows_of_app (hs hs' : list HistoryRow) (pid : string) :
  sold_rows_of (hs ++ hs') pid = sold_rows_of hs pid ++ sold_rows_of hs' pid.
Proof. apply filter_app. Qed.

Lemma sold_rows_of_none (hs : list HistoryRow) (pid : string) :
  has_sold_row hs pid = false -> sold_rows_of hs pid = [].
Proof.
  unfold has_sold_row, sold_rows_of.
  induction hs as [| h hs IH]; simpl; [reflexivity |].
  destruct (String.eqb (h_property_id h) pid && String.eqb (h_status h) "sold");
    simpl; [discriminate | exact IH].
Qed.

(** Replacing a row that is not SOLD does not touch the SOLD rows. *)
Lemma sold_rows_of_replace (hs : list HistoryRow) (r : HistoryRow) (pid : string) :
  String.eqb (h_status r) "sold" = false ->
  sold_rows_of (insert_or_replace_history hs r) pid = sold_rows_of hs pid.
Proof.
  intro Hs. unfold insert_or_replace_history. rewrite sold_rows_of_app.
  unfold sold_rows_of at 2. simpl. rewrite Hs, andb_false_r, app_nil_r.
  unfold sold_rows_of.
  induction hs as [| h hs IH]; simpl; [reflexivity |].
  destruct (same_key h r) eqn:K; simpl.
  - rewrite IH.
    unfold same_key in K. rewrite !andb_true_iff in K. destruct K as [_ K].
    apply String.eqb_eq in K. rewrite K, Hs, andb_false_r. reflexivity.
  - destruct (String.eqb (h_property_id h) pid && String.eqb (h_status h) "sold");
      now rewrite IH.
Qed.

Lemma save_listing_one_sold (today_str : string) (db : DB) (l : PropertyListing) :
  (forall pid, (length (sold_rows_of (listing_history db) pid) <= 1)%nat) ->
  forall pid,
    (length (sold_rows_of (listing_history (save_listing today_str db l)) pid) <= 1)%nat.
Proof.
  intros Hone pid. rewrite save_listing_unfold.
  destruct (String.eqb (status l) "sold") eqn:Hs.
  - destruct (has_sold_row (listing_history db) (id l)) eqn:Hsold.
    + rewrite known_property_history. apply Hone.
    + simpl. unfold insert_history. rewrite sold_rows_of_app, length_app.
      unfold sold_rows_of at 2. simpl.
      destruct (String.eqb (id l) pid) eqn:Hp; simpl.
      * apply String.eqb_eq in Hp. subst pid.
        rewrite (sold_rows_of_none _ _ Hsold). rewrite Hs. simpl. lia.
      * specialize (Hone pid). lia.
  - simpl. rewrite sold_rows_of_replace; [apply Hone | exact Hs].
Qed.

End SoldOnce.

(** X3. In every ledger that ingestion builds, a property has at most one
    SOLD row over all dates. *)
Theorem one_sold_row_per_property (batches : list (string * list PropertyListing))
  (pid : string) :
  (length (sold_rows_of (listing_history (run_batches batches)) pid) <= 1)%nat.
Proof.
  revert pid. unfold run_batches.
  assert (G : forall db,
    (forall pid, (length (sold_rows_of (listing_history db) pid) <= 1)%nat) ->
    forall pid,
      (length (sold_rows_of (listing_history
         (fold_left (fun db b => save_listings (fst b) (snd b) db) batches db)) pid)
       <= 1)%nat).
  { induction batches as [| b bs IH]; simpl; intros db Hone; [exact Hone |].
    apply IH. unfold save_listings. generalize dependent db.
    induction (snd b) as [| l ls IHl]; simpl; intros db Hone; [exact Hone |].
    apply IHl. now apply save_listing_one_sold. }
  apply G. intro pid. simpl. lia.
Qed.

(** X4. A FOR_SALE record ingested after another one of the same property
    on the same date overwrites it, when the integers of both fit SQLite's
    64 bits (so that neither makes the call raise): the table is as if only
    the later record had been ingested, and the property has exactly that one
    FOR_SALE row for the date. *)
Theorem for_sale_upsert_overwrites (today_str : string) (l1 l2 : PropertyListing)
  (db : DB) :
  storable l1 = true -> storable l2 = true ->
  status l1 = "sale" -> status l2 = "sale" -> id l1 = id l2 ->
  listing_history (save_listings today_str [l1; l2] db)
  = listing_history (save_listings today_str [l2] db)
  /\ for_sale_rows_on (listing_history (save_listings today_str [l1; l2] db))
       (id l2) today_str
     = [history_row_of today_str l2].
Proof.
  intros _ _ S1 S2 Hid. simpl.
  assert (Hsame : forall hs,
    insert_or_replace_history
      (insert_or_replace_history hs (history_row_of today_str l1))
      (history_row_of today_str l2)
    = insert_or_replace_history hs (history_row_of today_str l2)).
  { intro hs. unfold insert_or_replace_history.
    rewrite filter_app. simpl.
    assert (K : same_key (history_row_of today_str l1) (history_row_of today_str l2)
                = true).
    { apply same_key_iff. unfold key_of. simpl. now rewrite Hid, S1, S2. }
    rewrite K. simpl. rewrite app_nil_r. f_equal.
    induction hs as [| h hs IH]; simpl; [reflexivity |].
    assert (Kh : same_key h (history_row_of today_str l1)
                 = same_key h (history_row_of today_str l2)).
    { unfold same_key. simpl. now rewrite Hid, S1, S2. }
    rewrite Kh.
    destruct (same_key h (history_row_of today_str l2)) eqn:E; simpl;
      [exact IH | rewrite E; simpl; now f_equal]. }
  assert (Hhist : listing_history
                    (save_listing today_str (save_listing today_str db l1) l2)
                  = insert_or_replace_history (listing_history db)
                      (history_row_of today_str l2)).
  { rewrite (save_listing_unfold today_str (save_listing today_str db l1) l2).
    rewrite S2. simpl. rewrite save_listing_unfold, S1. simpl. apply Hsame. }
  split.
  - rewrite Hhist, save_listing_unfold, S2. reflexivity.
  - rewrite Hhist. clear Hhist Hsame.
    unfold for_sale_rows_on, insert_or_replace_history.
    rewrite filter_app. simpl. rewrite S2, !String.eqb_refl. simpl.
    generalize (listing_history db). intro hs0.
    replace (filter _ (filter _ hs0)) with (@nil HistoryRow); [reflexivity |].
    symmetry. induction hs0 as [| h hs IH]; simpl; [reflexivity |].
    destruct (same_key h (history_row_of today_str l2)) eqn:E; simpl; [exact IH |].
    destruct (String.eqb (h_property_id h) (id l2) && String.eqb (h_date h) today_str
              && String.eqb (h_status h) "sale") eqn:F; [exfalso | exact IH].
    rewrite !andb_true_iff, !String.eqb_eq in F. destruct F as [[F1 F2] F3].
    assert (K : same_key h (history_row_of today_str l2) = true)
      by (apply same_key_iff; unfold key_of; simpl; congruence).
    congruence.
Qed.

Lemma for_sale_upsert_overwrites_witness :
  for_sale_rows_on
    (listing_history
       (save_listings "2024-01-02"
          [listing "P1" "sale" "$1,000,000" 1000000;
           listing "P1" "sale" "$1,050,000" 1050000] empty_db))
    "P1" "2024-01-02"
  = [history_row_of "2024-01-02" (listing "P1" "sale" "$1,050,000" 1050000)].
Proof.
  apply (for_sale_upsert_overwrites "2024-01-02"
           (listing "P1" "sale" "$1,000,000" 1000000)
           (listing "P1" "sale" "$1,050,000" 1050000) empty_db);
    reflexivity.
Defined.

(** X5. A FOR_SALE record of a property that has no [properties] row yet,
    with integers that fit SQLite's 64 bits (so that the call does not
    raise), is reported as new for its capture date by both classifiers,
    right after its ingestion. *)
Theorem new_listing_is_reported_new (today_str : string) (l : PropertyListing)
  (db : DB) :
  storable l = true ->
  (forall q, In q (properties db) -> p_property_id q <> id l) ->
  status l = "sale" ->
  In (mkTyped NEW (plain_change (history_row_of today_str l)
                                (property_row_of today_str l)))
     (get_daily_changes (save_listings today_str [l] db) today_str)
  /\ In (plain_change (history_row_of today_str l) (property_row_of today_str l))
        (new (get_comprehensive_daily_changes
                (save_listings today_str [l] db) today_str)).
Proof.
  intros _ Hfresh Hs. simpl.
  set (db' := save_listing today_str db l).
  assert (Hrow : In (history_row_of today_str l) (listing_history db')).
  { unfold db'. rewrite save_listing_unfold, Hs. simpl.
    unfold insert_or_replace_history. apply in_or_app. right. now left. }
  assert (Hprop : In (property_row_of today_str l) (properties db')).
  { unfold db'. rewrite save_listing_properties. unfold known_property.
    destruct (find _ (properties db)) as [q |] eqn:E.
    - apply find_some in E as [Hq Heq]. apply String.eqb_eq in Heq.
      now elim (Hfresh q Hq).
    - simpl. apply in_or_app. right. now left. }
  assert (Hjoin : In (property_row_of today_str l)
                     (join_property (properties db') (history_row_of today_str l))).
  { apply in_join_property. now split. }
  assert (Hnew : In (plain_change (history_row_of today_str l)
                                  (property_row_of today_str l))
                    (new_rows db' today_str)).
  { unfold new_rows. apply in_flat_map. exists (history_row_of today_str l).
    split; [exact Hrow |]. simpl. rewrite String.eqb_refl. apply in_map.
    apply filter_In. split; [exact Hjoin |]. simpl. apply String.eqb_refl. }
  split.
  - unfold get_daily_changes. apply in_or_app. left. now apply in_map.
  - unfold get_comprehensive_daily_changes.
    destruct (global_prev_date (listing_history db') today_str) as [[| a s] |];
      simpl; try exact Hnew;
      (unfold first_day_rows; apply in_flat_map; exists (history_row_of today_str l);
       split; [exact Hrow |]; simpl; rewrite Hs, String.eqb_refl; simpl;
       now apply in_map).
Qed.

Lemma new_listing_is_reported_new_witness :
  In (mkTyped NEW
        (plain_change
           (history_row_of "2024-01-03" (listing "P9" "sale" "$700,000" 700000))
           (property_row_of "2024-01-03" (listing "P9" "sale" "$700,000" 700000))))
     (get_daily_changes
        (save_listings "2024-01-03" [listing "P9" "sale" "$700,000" 700000] db_scenario)
        "2024-01-03").
Proof.
  apply (new_listing_is_reported_new "2024-01-03"
           (listing "P9" "sale" "$700,000" 700000) db_scenario).
  - reflexivity.
  - intros q [<- | []]. discriminate.
  - reflexivity.
Defined.

Section OnePropertyRow.

Lemma unique_match {A : Type} (f : A -> string) (k : string) (x : A) (l : list A) :
  NoDup (map f l) -> In x l -> f x = k ->
  filter (fun y => String.eqb k (f y)) l = [x].
Proof.
  induction l as [| y l IH]; simpl; intros Hnd Hin Hk; [contradiction |].
  apply NoDup_cons_iff in Hnd as [Hy Hnd].
  destruct Hin as [-> | Hin].
  - rewrite Hk, String.eqb_refl. f_equal.
    destruct (filter (fun y => String.eqb k (f y)) l) as [| z rest] eqn:F;
      [reflexivity | exfalso].
    assert (Hz : In z (filter (fun y => String.eqb k (f y)) l))
      by (rewrite F; now left).
    apply filter_In in Hz as [Hz Hk']. apply String.eqb_eq in Hk'.
    apply Hy. rewrite Hk, Hk'. now apply in_map.
  - destruct (String.eqb k (f y)) eqn:E; [exfalso | now apply IH].
    apply String.eqb_eq in E. apply Hy. rewrite <- E, <- Hk. now apply in_map.
Qed.

Lemma join_property_one (db : DB) (h : HistoryRow) :
  ledger_wf db -> property_ids_unique (properties db) ->
  In h (listing_history db) ->
  exists p, join_property (properties db) h = [p]
            /\ In p (properties db) /\ p_property_id p = h_property_id h.
Proof.
  intros [_ Hprop _] Hnd Hin.
  destruct (Hprop h Hin) as (p & Hp & Hid).
  exists p. split; [| now split].
  unfold join_property. now apply unique_match.
Qed.

End OnePropertyRow.

Lemma run_batches_property_ids_unique (batches : list (string * list PropertyListing)) :
  property_ids_unique (properties (run_batches batches)).
Proof.
  unfold run_batches.
  assert (G : forall db, property_ids_unique (properties db) ->
    property_ids_unique (properties
      (fold_left (fun db b => save_listings (fst b) (snd b) db) batches db))).
  { induction batches as [| b bs IH]; simpl; intros db Hnd; [exact Hnd |].
    apply IH. now apply save_listings_property_ids_unique. }
  apply G. constructor.
Qed.

(** X6. Every ledger that capture batches with non-empty dates build from an
    empty database keeps the integrity of the tables: the keys of
    [listing_history] and of [properties] are unique, no capture date is
    empty, and every history row joins exactly one [properties] row. *)
Theorem ingestion_keeps_ledger_integrity (batches : list (string * list PropertyListing)) :
  Forall (fun b => fst b <> "") batches ->
  ledger_wf (run_batches batches)
  /\ property_ids_unique (properties (run_batches batches))
  /\ forall h, In h (listing_history (run_batches batches)) ->
       exists p, join_property (properties (run_batches batches)) h = [p]
                 /\ p_property_id p = h_property_id h.
Proof.
  intro Hdates.
  assert (Hwf : ledger_wf (run_batches batches)) by now apply run_batches_wf.
  assert (Hnd : property_ids_unique (properties (run_batches batches)))
    by apply run_batches_property_ids_unique.
  split; [exact Hwf | split; [exact Hnd |]].
  intros h Hin. destruct (join_property_one _ h Hwf Hnd Hin) as (p & Hj & _ & Hid).
  now exists p.
Qed.

Lemma ingestion_keeps_ledger_integrity_witness :
  ledger_wf db_gap /\ property_ids_unique (properties db_gap).
Proof.
  destruct (ingestion_keeps_ledger_integrity
              [("2024-01-01", [listing "P1" "sale" "$1,000,000" 1000000]);
               ("2024-01-04", [listing "P2" "sale" "$800,000" 800000]);
               ("2024-01-05", [listing "P1" "sale" "$1,050,000" 1050000;
                               listing "P2" "sale" "$800,000" 800000])])
    as (H1 & H2 & _).
  - repeat constructor; discriminate.
  - split; [exact H1 | exact H2].
Defined.

(** ** The typed feed: first day, and what DISAPPEARED excludes *)

Section TypedFeed.

Variable db : DB.
Variable target_date : string.

Lemma filter_nil_iff {A : Type} (f : A -> bool) (l : list A) :
  (forall x, In x l -> f x = false) -> filter f l = [].
Proof.
  induction l as [| x l IH]; simpl; intro H; [reflexivity |].
  rewrite (H x (or_introl eq_refl)). apply IH. intros y Hy. apply H. now right.
Qed.

(** The two shapes of the result: the first-day result, or the five queries
    against a previous date that is not the empty text. *)
Lemma comprehensive_cases :
  get_comprehensive_daily_changes db target_date
  = mkChanges (first_day_rows db target_date) [] [] [] []
  \/ exists prev_date,
       global_prev_date (listing_history db) target_date = Some prev_date
       /\ prev_date <> ""
       /\ get_comprehensive_daily_changes db target_date
          = mkChanges (new_rows db target_date)
              (against_prev_date db target_date prev_date "sold")
              (disappeared_rows db target_date prev_date)
              (flat_map verdict_price_change
                 (map classify_price_row
                    (against_prev_date db target_date prev_date "sale")))
              (flat_map verdict_guide_revealed
                 (map classify_price_row
                    (against_prev_date db target_date prev_date "sale"))).
Proof.
  unfold get_comprehensive_daily_changes.
  destruct (global_prev_date (listing_history db) target_date) as [[| a s] |];
    [now left | | now left].
  right. exists (String a s). repeat split. discriminate.
Qed.

Lemma in_new_rows (d : ChangeData) :
  In d (new_rows db target_date) ->
  In (cd_row d) (listing_history db) /\ h_date (cd_row d) = target_date.
Proof.
  unfold new_rows. intros (h & Hh & Hd)%in_flat_map.
  destruct (String.eqb (h_date h) target_date) eqn:E; [| contradiction].
  apply String.eqb_eq in E. apply in_map_iff in Hd as (p & <- & _). now split.
Qed.

Lemma in_first_day_rows (d : ChangeData) :
  In d (first_day_rows db target_date)
  <-> exists h p, In h (listing_history db) /\ In p (properties db)
                  /\ h_property_id h = p_property_id p
                  /\ h_date h = target_date /\ h_status h = "sale"
                  /\ d = plain_change h p.
Proof.
  unfold first_day_rows. rewrite in_flat_map. split.
  - intros (h & Hh & Hd).
    destruct (String.eqb (h_date h) target_date && String.eqb (h_status h) "sale")
      eqn:E; [| contradiction].
    apply andb_prop in E as [E1 E2]. apply String.eqb_eq in E1, E2.
    apply in_map_iff in Hd as (p & <- & Hp). apply in_join_property in Hp as [Hp Hid].
    exists h, p. repeat split; assumption.
  - intros (h & p & Hh & Hp & Hid & E1 & E2 & ->).
    exists h. split; [exact Hh |]. rewrite E1, E2, !String.eqb_refl. simpl.
    apply in_map. now apply in_join_property.
Qed.

Lemma in_disappeared_rows (prev_date : string) (d : ChangeData) :
  In d (disappeared_rows db target_date prev_date) ->
  In (cd_row d) (listing_history db)
  /\ h_date (cd_row d) = prev_date /\ h_status (cd_row d) = "sale"
  /\ forall h, In h (listing_history db) ->
               h_property_id h = cd_property_id d -> h_date h <> target_date.
Proof.
  unfold disappeared_rows. intros (v & Hv & Hd)%in_flat_map.
  destruct (String.eqb (h_date v) prev_date && String.eqb (h_status v) "sale"
            && negb _)%bool eqn:E; [| contradiction].
  rewrite !andb_true_iff, !String.eqb_eq in E. destruct E as [[E1 E2] E3].
  apply in_map_iff in Hd as (p & <- & _). unfold cd_property_id. simpl.
  repeat split; try assumption.
  intros h Hh Hp Hdate. apply negb_true_iff in E3.
  assert (Hex : existsb (fun h_now => String.eqb (h_property_id h_now) (h_property_id v)
                           && String.eqb (h_date h_now) target_date)
                        (listing_history db) = true); [| congruence].
  apply existsb_exists. exists h. split; [exact Hh |].
  now rewrite Hp, Hdate, !String.eqb_refl.
Qed.

End TypedFeed.

(** X7. On the first day (no row is dated before the target date) the typed
    feed lists every FOR_SALE row of the day that has a [properties] row as
    new, whatever its [first_seen], and nothing else; the other four
    categories are empty, and the coarse list has no ADJUSTMENT entry. *)
Theorem first_day_is_all_new (db : DB) (target_date : string) :
  (forall h, In h (listing_history db) -> text_ltb (h_date h) target_date = false) ->
  (forall d, In d (new (get_comprehensive_daily_changes db target_date))
             <-> exists h p, In h (listing_history db) /\ In p (properties db)
                             /\ h_property_id h = p_property_id p
                             /\ h_date h = target_date /\ h_status h = "sale"
                             /\ d = plain_change h p)
  /\ sold (get_comprehensive_daily_changes db target_date) = []
  /\ disappeared (get_comprehensive_daily_changes db target_date) = []
  /\ price_changes (get_comprehensive_daily_changes db target_date) = []
  /\ guide_revealed (get_comprehensive_daily_changes db target_date) = []
  /\ forall c, In c (get_daily_changes db target_date) -> c_type c = NEW.
Proof.
  intro Hfirst.
  assert (Hnone : global_prev_date (listing_history db) target_date = None).
  { unfold global_prev_date. now rewrite filter_nil_iff. }
  unfold get_comprehensive_daily_changes. rewrite Hnone. simpl.
  split; [intro d; apply in_first_day_rows |].
  repeat (split; [reflexivity |]).
  intros c Hc. unfold get_daily_changes in Hc.
  apply in_app_or in Hc as [Hc | Hc]; apply in_map_iff in Hc as (d & <- & Hd);
    [reflexivity | exfalso].
  apply in_adjustment_rows in Hd as (n & q & v & _ & _ & _ & _ & _ & _ & F & _).
  apply property_prev_date_spec in F as (Hlt & (r & Hr & _ & Hd) & _).
  rewrite <- Hd in Hlt. rewrite (Hfirst r Hr) in Hlt. discriminate.
Qed.

Lemma first_day_is_all_new_witness :
  sold (get_comprehensive_daily_changes db_scenario "2024-01-01") = []
  /\ price_changes (get_comprehensive_daily_changes db_scenario "2024-01-01") = [].
Proof.
  destruct (first_day_is_all_new db_scenario "2024-01-01") as (_ & H1 & _ & H2 & _).
  - intros h [<- | [<- | []]]; reflexivity.
  - split; assumption.
Defined.

(** X8. A property listed as DISAPPEARED for a date is in no other category
    of the typed feed for that date. *)
Theorem disappeared_excludes_other_categories (db : DB) (target_date : string) :
  forall d1 d2,
    In d1 (disappeared (get_comprehensive_daily_changes db target_date)) ->
    In d2 (new (get_comprehensive_daily_changes db target_date)
           ++ sold (get_comprehensive_daily_changes db target_date)
           ++ price_changes (get_comprehensive_daily_changes db target_date)
           ++ guide_revealed (get_comprehensive_daily_changes db target_date)) ->
    cd_property_id d1 <> cd_property_id d2.
Proof.
  intros d1 d2 H1 H2 Heq.
  destruct (comprehensive_cases db target_date) as [E | (pd & Hg & Hne & E)];
    rewrite E in H1, H2; simpl in H1, H2; [contradiction |].
  apply in_disappeared_rows in H1 as (_ & _ & _ & Hgone).
  assert (Hrow : In (cd_row d2) (listing_history db)
                 /\ h_date (cd_row d2) = target_date).
  { apply in_app_or in H2 as [H2 | H2]; [now apply in_new_rows |].
    assert (Hjoin : forall st e, In e (against_prev_date db target_date pd st) ->
              In (cd_row e) (listing_history db) /\ h_date (cd_row e) = target_date).
    { intros st e He. apply in_against_prev_date in He
        as (n & q & v & Hn & _ & _ & E1 & _ & _ & _ & _ & _ & ->). now split. }
    apply in_app_or in H2 as [H2 | H2]; [now apply (Hjoin "sold") |].
    assert (Hv : exists e, In e (against_prev_date db target_date pd "sale")
                           /\ (classify_price_row e = PriceChange d2
                               \/ classify_price_row e = GuideRevealed d2)).
    { apply in_app_or in H2 as [H2 | H2];
        apply in_flat_map in H2 as (v & Hv & Hd);
        apply in_map_iff in Hv as (e & <- & He); exists e; (split; [exact He |]);
        destruct (classify_price_row e); simpl in Hd; try contradiction;
        destruct Hd as [<- | []]; auto. }
    destruct Hv as (e & He & Hc). apply verdict_keeps_columns in Hc as [Hrow _].
    rewrite Hrow. now apply (Hjoin "sale"). }
  destruct Hrow as [Hin Hdate].
  apply (Hgone (cd_row d2) Hin); [now symmetry | exact Hdate].
Qed.

Lemma disappeared_excludes_other_categories_witness :
  In (plain_change
        (history_row_of "2024-01-01" (listing "P2" "sale" "$900,000" 900000))
        (property_row_of "2024-01-01" (listing "P2" "sale" "$900,000" 900000)))
     (disappeared (get_comprehensive_daily_changes db_withdrawn "2024-01-02"))
  /\ "P2" <> cd_property_id scenario_price_change.
Proof.
  assert (H1 : In (plain_change
        (history_row_of "2024-01-01" (listing "P2" "sale" "$900,000" 900000))
        (property_row_of "2024-01-01" (listing "P2" "sale" "$900,000" 900000)))
     (disappeared (get_comprehensive_daily_changes db_withdrawn "2024-01-02")))
    by (vm_compute; left; reflexivity).
  split; [exact H1 |].
  apply (disappeared_excludes_other_categories db_withdrawn "2024-01-02" _
           scenario_price_change H1).
  vm_compute. left. reflexivity.
Defined.

(** ** The daily tally *)

Section DailyTally.

Lemma length_flat_map_indicator {A B : Type} (g : A -> list B) (c : A -> bool)
  (l : list A) :
  (forall x, In x l -> length (g x) = if c x then 1%nat else 0%nat) ->
  length (flat_map g l) = length (filter c l).
Proof.
  induction l as [| x l IH]; simpl; intro H; [reflexivity |].
  rewrite length_app, (H x (or_introl eq_refl)), IH
    by (intros y Hy; apply H; now right).
  now destruct (c x).
Qed.

(** An ORDER BY result is a rearrangement of its input. *)
Lemma insert_sorted_permutation {A : Type} (before : A -> A -> bool) (x : A)
  (l : list A) :
  Permutation (insert_sorted before x l) (x :: l).
Proof.
  induction l as [| y l IH]; simpl; [reflexivity |].
  destruct (before y x); [| reflexivity].
  rewrite IH. apply perm_swap.
Qed.

Lemma order_by_permutation {A : Type} (before : A -> A -> bool) (l : list A) :
  Permutation (order_by before l) l.
Proof.
  unfold order_by. induction l as [| x l IH]; simpl; [reflexivity |].
  rewrite insert_sorted_permutation. now constructor.
Qed.

Lemma text_ltb_false_leb (a b : string) :
  text_ltb a b = false -> text_leb b a = true.
Proof.
  unfold text_ltb, text_leb, String.ltb, String.leb.
  rewrite (String.compare_antisym b a).
  now destruct (String.compare a b).
Qed.

Lemma insert_sorted_newest_first (x : SummaryRow) (l : list SummaryRow) :
  StronglySorted newest_first l ->
  StronglySorted newest_first
    (insert_sorted (fun a b => text_ltb (ds_date b) (ds_date a)) x l).
Proof.
  induction l as [| y l IH]; simpl; intro Hs; [repeat constructor |].
  apply StronglySorted_inv in Hs as [Hs Hy].
  destruct (text_ltb (ds_date x) (ds_date y)) eqn:E.
  - constructor; [now apply IH |].
    apply Forall_forall. intros z Hz.
    apply (Permutation_in _ (insert_sorted_permutation _ x l)) in Hz.
    destruct Hz as [<- | Hz]; [now apply text_ltb_leb |].
    now apply (proj1 (Forall_forall _ _) Hy).
  - assert (Hxy : newest_first x y) by (now apply text_ltb_false_leb).
    constructor; [constructor; assumption |].
    constructor; [exact Hxy |].
    apply Forall_forall. intros z Hz.
    unfold newest_first in *.
    apply text_leb_trans with (ds_date y); [| exact Hxy].
    now apply (proj1 (Forall_forall _ _) Hy).
Qed.

End DailyTally.

(** X9. [update_daily_stats] is an upsert on the date: afterwards the table
    has exactly one row for the target date, the counts just computed; the
    rows of other dates are as before; the key stays unique; and running it
    again on the same ledger changes nothing. *)
Theorem daily_stats_upsert (db : DB) (daily_summary : list SummaryRow)
  (target_date : string) :
  filter (fun r => String.eqb (ds_date r) target_date)
         (update_daily_stats db daily_summary target_date)
  = [daily_counts db target_date]
  /\ (forall r, ds_date r <> target_date ->
        (In r (update_daily_stats db daily_summary target_date) <-> In r daily_summary))
  /\ (NoDup (map ds_date daily_summary) ->
      NoDup (map ds_date (update_daily_stats db daily_summary target_date)))
  /\ update_daily_stats db (update_daily_stats db daily_summary target_date) target_date
     = update_daily_stats db daily_summary target_date.
Proof.
  unfold update_daily_stats.
  assert (Hnone : forall l,
    filter (fun r => String.eqb (ds_date r) target_date)
      (filter (fun r => negb (String.eqb (ds_date r) target_date)) l) = []).
  { intro l. apply filter_nil_iff. intros r Hr.
    apply filter_In in Hr as [_ Hr]. now apply negb_true_iff in Hr. }
  split; [| split; [| split]].
  - rewrite filter_app, Hnone. simpl. now rewrite String.eqb_refl.
  - intros r Hr. rewrite in_app_iff, filter_In. simpl. split.
    + intros [[Hin _] | [<- | []]]; [exact Hin | now elim Hr].
    + intro Hin. left. split; [exact Hin |].
      apply negb_true_iff. now apply String.eqb_neq.
  - intro Hnd. rewrite map_app. apply NoDup_app.
    + now apply NoDup_map_filter.
    + simpl. constructor; [intros [] | constructor].
    + intros k Hk [<- | []]. apply in_map_iff in Hk as (r & Hr & Hin).
      apply filter_In in Hin as [_ Hin]. apply negb_true_iff in Hin.
      apply String.eqb_neq in Hin. now apply Hin.
  - rewrite filter_app, filter_idem. simpl. rewrite String.eqb_refl. simpl.
    now rewrite app_nil_r.
Qed.

(** X10. [get_daily_history] returns the rows of the table, each once,
    newest date first. *)
Theorem daily_history_newest_first (daily_summary : list SummaryRow) :
  Permutation (get_daily_history daily_summary) daily_summary
  /\ StronglySorted newest_first (get_daily_history daily_summary).
Proof.
  split; [apply order_by_permutation |].
  unfold get_daily_history, order_by.
  induction daily_summary as [| x l IH]; simpl; [constructor |].
  now apply insert_sorted_newest_first.
Qed.

Section TallyAgainstFeed.

Lemma length_filter_le_one {A : Type} (f : A -> bool) (l : list A) :
  (length (filter f l) <= 1)%nat ->
  length (filter f l) = if existsb f l then 1%nat else 0%nat.
Proof.
  induction l as [| x l IH]; simpl; [reflexivity |].
  destruct (f x); simpl; intro H; [| now apply IH].
  destruct (filter f l); simpl in *; [reflexivity | lia].
Qed.

Lemma existsb_filter {A : Type} (f g : A -> bool) (l : list A) :
  existsb f (filter g l) = existsb (fun x => g x && f x) l.
Proof.
  induction l as [| x l IH]; simpl; [reflexivity |].
  destruct (g x); simpl; now rewrite IH.
Qed.

Variable db : DB.
Variable target_date : string.
Hypothesis Hwf : ledger_wf db.
Hypothesis Hnd : property_ids_unique (properties db).

Lemma length_join_property (h : HistoryRow) :
  In h (listing_history db) -> length (join_property (properties db) h) = 1%nat.
Proof.
  intro Hin. destruct (join_property_one db h Hwf Hnd Hin) as (p & -> & _).
  reflexivity.
Qed.

Lemma length_disappeared_rows (prev_date : string) :
  global_prev_date (listing_history db) target_date = Some prev_date ->
  length (disappeared_rows db target_date prev_date) = gone_count db target_date.
Proof.
  intro Hg. unfold disappeared_rows, gone_count.
  apply length_flat_map_indicator. intros h Hin.
  unfold for_sale_on_prev_date. rewrite Hg. simpl.
  destruct (String.eqb (h_date h) prev_date && String.eqb (h_status h) "sale"
            && negb _)%bool; [| reflexivity].
  rewrite length_map. now apply length_join_property.
Qed.

Lemma length_sold_rows (prev_date : string) :
  global_prev_date (listing_history db) target_date = Some prev_date ->
  length (against_prev_date db target_date prev_date "sold")
  = moved_to_sold_count db target_date.
Proof.
  intro Hg. unfold against_prev_date, moved_to_sold_count.
  apply length_flat_map_indicator. intros n Hin.
  destruct (String.eqb (h_date n) target_date && String.eqb (h_status n) "sold");
    simpl; [| reflexivity].
  destruct (join_property_one db n Hwf Hnd Hin) as (p & -> & _). simpl.
  rewrite app_nil_r.
  rewrite (length_flat_map_indicator _
             (fun v => String.eqb (h_property_id n) (h_property_id v)
                       && String.eqb (h_date v) prev_date
                       && String.eqb (h_status v) "sale"))
    by (intros v _; now destruct (_ && _ && _)%bool).
  rewrite existsb_filter.
  assert (Hext : forall v,
    String.eqb (h_property_id n) (h_property_id v)
    && String.eqb (h_date v) prev_date && String.eqb (h_status v) "sale"
    = for_sale_on_prev_date (listing_history db) target_date v
      && String.eqb (h_property_id n) (h_property_id v)).
  { intro v. unfold for_sale_on_prev_date. rewrite Hg. simpl.
    destruct (String.eqb (h_property_id n) (h_property_id v));
      now rewrite ?andb_true_r, ?andb_false_r. }
  rewrite (filter_ext _ _ Hext).
  apply length_filter_le_one.
  rewrite <- (filter_ext _ _ Hext).
  destruct Hwf as [Hkey _ _].
  pose proof (keys_unique_one_for_sale (listing_history db) (h_property_id n)
                prev_date Hkey) as Hone.
  unfold for_sale_rows_on in Hone.
  erewrite filter_ext; [exact Hone |].
  intro v. simpl. now rewrite (String.eqb_sym (h_property_id n)).
Qed.

End TallyAgainstFeed.

(** X11. On a ledger with its integrity constraints, the sold count that
    [update_daily_stats] stores for a date is the number of SOLD entries
    plus the number of DISAPPEARED entries of the typed feed for that date,
    and when some row is dated before the target date its new count is the
    number of NEW entries of the typed feed. *)
Theorem daily_tally_matches_typed_feed (db : DB) (target_date : string) :
  ledger_wf db -> property_ids_unique (properties db) ->
  ds_sold_count (daily_counts db target_date)
  = (length (sold (get_comprehensive_daily_changes db target_date))
     + length (disappeared (get_comprehensive_daily_changes db target_date)))%nat
  /\ ((exists h, In h (listing_history db) /\ text_ltb (h_date h) target_date = true) ->
      ds_new_count (daily_counts db target_date)
      = length (new (get_comprehensive_daily_changes db target_date))).
Proof.
  intros Hwf Hnd. unfold daily_counts. simpl.
  assert (Hnew : length (filter is_new (get_daily_changes db target_date))
                 = length (new_rows db target_date)).
  { unfold get_daily_changes. rewrite filter_app, length_app.
    replace (filter is_new (map (mkTyped ADJUSTMENT) (adjustment_rows db target_date)))
      with (@nil Change)
      by (symmetry; apply filter_nil_iff; intros c Hc;
          apply in_map_iff in Hc as (d & <- & _); reflexivity).
    replace (filter is_new (map (mkTyped NEW) (new_rows db target_date)))
      with (map (mkTyped NEW) (new_rows db target_date)).
    - simpl. rewrite length_map. lia.
    - induction (new_rows db target_date) as [| d l IH]; simpl; [reflexivity |].
      now f_equal. }
  unfold get_comprehensive_daily_changes.
  destruct (global_prev_date (listing_history db) target_date) as [[| a s] |] eqn:Hg.
  - exfalso. apply global_prev_date_spec in Hg as (_ & (r & Hr & Hd) & _).
    destruct Hwf as [_ _ Hdates]. now apply (Hdates r Hr).
  - simpl. rewrite (length_sold_rows db target_date Hwf Hnd _ Hg),
      (length_disappeared_rows db target_date Hwf Hnd _ Hg).
    split; [lia | intros _; exact Hnew].
  - simpl. split.
    + unfold gone_count, moved_to_sold_count, for_sale_on_prev_date.
      rewrite Hg. simpl. rewrite !filter_nil_iff; [reflexivity | |];
        intros h _; simpl; now rewrite ?andb_false_r.
    + intros (h & Hh & Hlt). exfalso. unfold global_prev_date in Hg.
      assert (Hin : In (h_date h)
                (map h_date (filter (fun r => text_ltb (h_date r) target_date)
                                    (listing_history db))))
        by (apply in_map; apply filter_In; now split).
      destruct (sql_max_text_some _ _ Hin) as [m Hm]. congruence.
Qed.

Lemma daily_tally_matches_typed_feed_witness :
  ds_sold_count (daily_counts db_withdrawn "2024-01-02")
  = (length (sold (get_comprehensive_daily_changes db_withdrawn "2024-01-02"))
     + length (disappeared (get_comprehensive_daily_changes db_withdrawn "2024-01-02")))%nat.
Proof.
  refine (proj1 (daily_tally_matches_typed_feed db_withdrawn "2024-01-02" _ _)).
  - apply run_batches_wf. repeat constructor; discriminate.
  - apply run_batches_property_ids_unique.
Defined.

(** ** Catchment flags *)

Section Catchment.

Lemma mark_all_fst (ids : list string) (ps : list PropertyRow) (acc : list string) :
  fst (fold_left (fun st prop_id =>
                    let marked := mark_catchment (fst st) prop_id in
                    (fst marked,
                     if (0 <? snd marked)%nat then snd st ++ [prop_id] else snd st))
                 ids (ps, acc))
  = map (fun p => if existsb (String.eqb (p_property_id p)) ids
                  then with_catchment p 1 else p) ps.
Proof.
  revert ps acc. induction ids as [| i ids IH]; intros ps acc; simpl.
  - symmetry. apply map_id.
  - rewrite IH, map_map. apply map_ext. intro p.
    destruct (String.eqb (p_property_id p) i); simpl; [| reflexivity].
    now destruct (existsb (String.eqb (p_property_id p)) ids).
Qed.

Lemma rowcount_positive (ps : list PropertyRow) (i : string) :
  (0 <? length (filter (fun p => String.eqb (p_property_id p) i) ps))%nat
  = existsb (fun p => String.eqb (p_property_id p) i) ps.
Proof.
  induction ps as [| p ps IH]; simpl; [reflexivity |].
  destruct (String.eqb (p_property_id p) i); simpl; [reflexivity | exact IH].
Qed.

Lemma known_after_mark (ps : list PropertyRow) (i j : string) :
  existsb (fun p => String.eqb (p_property_id p) j)
          (map (fun p => if String.eqb (p_property_id p) i
                         then with_catchment p 1 else p) ps)
  = existsb (fun p => String.eqb (p_property_id p) j) ps.
Proof.
  induction ps as [| p ps IH]; simpl; [reflexivity |].
  rewrite IH. now destruct (String.eqb (p_property_id p) i).
Qed.

Lemma mark_all_snd (ids : list string) (ps : list PropertyRow) (acc : list string) :
  snd (fold_left (fun st prop_id =>
                    let marked := mark_catchment (fst st) prop_id in
                    (fst marked,
                     if (0 <? snd marked)%nat then snd st ++ [prop_id] else snd st))
                 ids (ps, acc))
  = acc ++ filter (fun i => existsb (fun p => String.eqb (p_property_id p) i) ps) ids.
Proof.
  revert ps acc. induction ids as [| i ids IH]; intros ps acc; simpl.
  - now rewrite app_nil_r.
  - rewrite IH, rowcount_positive.
    rewrite (filter_ext _ _ (known_after_mark ps i)).
    destruct (existsb (fun p => String.eqb (p_property_id p) i) ps); simpl;
      [now rewrite <- app_assoc | reflexivity].
Qed.

(** The table after [update_catchment_flags]: each row with flag 1 when its
    id is in the set and 0 otherwise. *)
Lemma properties_after_update (db : DB) (ids : list string) :
  properties (fst (update_catchment_flags db ids))
  = map (fun p => with_catchment p
                    (if existsb (String.eqb (p_property_id p)) ids then 1 else 0)%Z)
        (properties db).
Proof.
  unfold update_catchment_flags, mark_all, reset_catchment. simpl.
  rewrite mark_all_fst, map_map. apply map_ext. intro p. simpl.
  now destruct (existsb (String.eqb (p_property_id p)) ids).
Qed.

Lemma updated_ids_after_update (db : DB) (ids : list string) :
  snd (mark_all (reset_catchment (properties db)) ids)
  = filter (fun i => existsb (fun p => String.eqb (p_property_id p) i)
                             (properties db)) ids.
Proof.
  unfold mark_all, reset_catchment. rewrite mark_all_snd. simpl.
  apply filter_ext. intro i.
  induction (properties db) as [| p ps IH]; simpl; [reflexivity | now rewrite IH].
Qed.

End Catchment.

(** X12. After [update_catchment_flags] with a set of ids,
    [get_catchment_property_ids] returns exactly the ids of the set that have
    a [properties] row: flags set by an earlier update are cleared. *)
Theorem catchment_flags_round_trip (db : DB) (catchment_ids : list string)
  (pid : string) :
  In pid (get_catchment_property_ids (fst (update_catchment_flags db catchment_ids)))
  <-> In pid catchment_ids
      /\ exists p, In p (properties db) /\ p_property_id p = pid.
Proof.
  unfold get_catchment_property_ids. rewrite properties_after_update.
  rewrite in_map_iff. split.
  - intros (q & Hq & Hin). apply filter_In in Hin as [Hin Hflag].
    apply in_map_iff in Hin as (p & <- & Hp). simpl in *.
    destruct (existsb (String.eqb (p_property_id p)) catchment_ids) eqn:E;
      [| discriminate].
    apply existsb_exists in E as (i & Hi & Heq). apply String.eqb_eq in Heq.
    subst. split; [exact Hi | now exists p].
  - intros (Hi & p & Hp & <-).
    exists (with_catchment p 1). split; [reflexivity |].
    apply filter_In. split; [| reflexivity].
    apply in_map_iff. exists p. split; [| exact Hp].
    replace (existsb (String.eqb (p_property_id p)) catchment_ids) with true;
      [reflexivity |].
    symmetry. apply existsb_exists. exists (p_property_id p).
    split; [exact Hi | apply String.eqb_refl].
Qed.

(** X13. [update_catchment_flags] changes the catchment flag and nothing
    else: the other tables and the other columns of [properties] are as
    before, in the same row order, and a second update with the same set
    leaves the database as the first one left it. *)
Theorem catchment_update_changes_only_flags (db : DB) (catchment_ids : list string) :
  let db' := fst (update_catchment_flags db catchment_ids) in
  listing_history db' = listing_history db
  /\ xgboost_predictions db' = xgboost_predictions db
  /\ domain_estimates_history db' = domain_estimates_history db
  /\ domain_estimates db' = domain_estimates db
  /\ reset_catchment (properties db') = reset_catchment (properties db)
  /\ fst (update_catchment_flags db' catchment_ids) = db'.
Proof.
  intro db'. repeat (split; [reflexivity |]). split.
  - unfold db'. rewrite properties_after_update. unfold reset_catchment.
    rewrite map_map. reflexivity.
  - assert (Hp : properties (fst (update_catchment_flags db' catchment_ids))
                 = properties db').
    { rewrite properties_after_update. unfold db'.
      rewrite properties_after_update, map_map. apply map_ext. intro p. reflexivity. }
    unfold update_catchment_flags in *. simpl in *. unfold with_properties. simpl.
    now rewrite Hp.
Qed.

Section CatchmentCounts.

Lemma length_filter_partition {A : Type} (f : A -> bool) (l : list A) :
  (length (filter (fun x => negb (f x)) l) + length (filter f l))%nat = length l.
Proof.
  induction l as [| x l IH]; simpl; [reflexivity |].
  destruct (f x); simpl; lia.
Qed.

Lemma flagged_ids_after_update (db : DB) (ids : list string) :
  get_catchment_property_ids (fst (update_catchment_flags db ids))
  = map p_property_id
        (filter (fun p => existsb (String.eqb (p_property_id p)) ids) (properties db)).
Proof.
  unfold get_catchment_property_ids. rewrite properties_after_update.
  induction (properties db) as [| p ps IH]; simpl; [reflexivity |].
  destruct (existsb (String.eqb (p_property_id p)) ids); simpl; now rewrite IH.
Qed.

Lemma existsb_eqb_In (i : string) (l : list string) :
  existsb (String.eqb i) l = true <-> In i l.
Proof.
  rewrite existsb_exists. split.
  - intros (j & Hj & Heq). apply String.eqb_eq in Heq. now subst.
  - intro Hin. exists i. split; [exact Hin | apply String.eqb_refl].
Qed.

Lemma ids_of_marked_rows (ids : list string) (ps : list PropertyRow) :
  map p_property_id
    (filter (fun p => existsb (String.eqb (p_property_id p)) ids)
       (map (fun p => with_catchment p
                        (if existsb (String.eqb (p_property_id p)) ids then 1 else 0)%Z)
            ps))
  = map p_property_id
      (filter (fun p => existsb (String.eqb (p_property_id p)) ids) ps).
Proof.
  induction ps as [| p ps IH]; simpl; [reflexivity |].
  destruct (existsb (String.eqb (p_property_id p)) ids) eqn:E; simpl;
    now rewrite IH.
Qed.

Lemma partition_ids (f : PropertyRow -> bool) (g : PropertyRow -> CatchmentInfo)
  (rows : list PropertyRow) :
  (forall p, ci_property_id (g p) = p_property_id p) ->
  Permutation
    (map ci_property_id
         (map g (filter (fun p => negb (f p)) rows) ++ map g (filter f rows)))
    (map p_property_id rows).
Proof.
  intro Hg. induction rows as [| p l IH]; simpl; [reflexivity |].
  destruct (f p); simpl.
  - rewrite map_app in *. simpl. rewrite <- Permutation_middle, Hg.
    now constructor.
  - rewrite Hg. now constructor.
Qed.

(** The rows of the details query, up to their order. *)
Lemma catchment_details_rows (db : DB) (ids : list string) :
  let db' := fst (update_catchment_flags db ids) in
  Permutation
    (catchment_details db' (snd (mark_all (reset_catchment (properties db)) ids)))
    (filter (fun p => existsb (String.eqb (p_property_id p)) ids) (properties db')).
Proof.
  intro db'. rewrite updated_ids_after_update.
  set (U := filter (fun i => existsb (fun p => String.eqb (p_property_id p) i)
                                     (properties db)) ids).
  assert (Hrows : Permutation (catchment_details db' U)
            (filter (fun p => existsb (String.eqb (p_property_id p)) U)
                    (properties db'))).
  { unfold catchment_details. destruct U as [| u U']; [| apply order_by_permutation].
    simpl. rewrite filter_nil_iff; [reflexivity | reflexivity]. }
  rewrite Hrows. erewrite filter_ext_in; [reflexivity |].
  intros p Hp. unfold db' in Hp. rewrite properties_after_update in Hp.
  apply in_map_iff in Hp as (q & <- & Hq). simpl.
  apply eq_true_iff_eq. rewrite !existsb_eqb_In. unfold U. rewrite filter_In.
  split; [tauto | intro Hi; split; [exact Hi |]].
  apply existsb_exists. exists q. split; [exact Hq | apply String.eqb_refl].
Qed.

End CatchmentCounts.

(** X14. With a primary key on [properties], the counts that
    [update_catchment_flags] returns agree with the table: [updated_count] is
    the number of ids [get_catchment_property_ids] returns afterwards, the
    for-sale and sold lists together have one entry per flagged property, and
    [catchment_ids_found] is the size of the set passed in. *)
Theorem catchment_counts_agree (db : DB) (catchment_ids : list string) :
  NoDup catchment_ids -> property_ids_unique (properties db) ->
  let db' := fst (update_catchment_flags db catchment_ids) in
  let r := snd (update_catchment_flags db catchment_ids) in
  updated_count r = length (get_catchment_property_ids db')
  /\ (length (cr_for_sale r) + length (cr_sold r))%nat = updated_count r
  /\ catchment_ids_found r = length catchment_ids
  /\ Permutation (map ci_property_id (cr_for_sale r ++ cr_sold r))
                 (get_catchment_property_ids db').
Proof.
  intros Hids Hps db' r.
  assert (Hflag : get_catchment_property_ids db'
                  = map p_property_id
                      (filter (fun p => existsb (String.eqb (p_property_id p))
                                                catchment_ids) (properties db)))
    by apply flagged_ids_after_update.
  assert (Hcount : updated_count r = length (get_catchment_property_ids db')).
  { unfold r, update_catchment_flags. simpl. rewrite updated_ids_after_update, Hflag.
    apply Permutation_length. apply NoDup_Permutation.
    - now apply NoDup_filter.
    - now apply NoDup_map_filter.
    - intro i. rewrite filter_In, in_map_iff. split.
      + intros [Hi Hex]. apply existsb_exists in Hex as (p & Hp & Heq).
        apply String.eqb_eq in Heq. exists p. split; [exact Heq |].
        apply filter_In. split; [exact Hp |]. apply existsb_eqb_In. now rewrite Heq.
      + intros (p & <- & Hp). apply filter_In in Hp as [Hp Hmem].
        apply existsb_eqb_In in Hmem. split; [exact Hmem |].
        apply existsb_exists. exists p. split; [exact Hp | apply String.eqb_refl]. }
  pose proof (catchment_details_rows db catchment_ids) as Hrows. cbv zeta in Hrows.
  fold db' in Hrows.
  set (rows := catchment_details db'
                 (snd (mark_all (reset_catchment (properties db)) catchment_ids)))
    in *.
  assert (Hids' : map p_property_id
                    (filter (fun p => existsb (String.eqb (p_property_id p))
                                              catchment_ids) (properties db'))
                  = get_catchment_property_ids db').
  { rewrite Hflag. unfold db'. rewrite properties_after_update.
    apply ids_of_marked_rows. }
  assert (Hperm : Permutation (map ci_property_id (cr_for_sale r ++ cr_sold r))
                              (get_catchment_property_ids db')).
  { rewrite <- Hids'.
    apply perm_trans with (map p_property_id rows);
      [| now apply Permutation_map].
    apply (partition_ids (fun p => String.eqb (current_status db' p) "sold")
                         (catchment_info db') rows).
    reflexivity. }
  split; [exact Hcount | split; [| split; [reflexivity | exact Hperm]]].
  rewrite Hcount, <- (Permutation_length Hperm), length_map, length_app.
  reflexivity.
Qed.

Lemma catchment_counts_agree_witness :
  updated_count (snd (update_catchment_flags db_guide_and_hidden ["P2"; "P7"]))
  = length (get_catchment_property_ids
              (fst (update_catchment_flags db_guide_and_hidden ["P2"; "P7"]))).
Proof.
  refine (proj1 (catchment_counts_agree db_guide_and_hidden ["P2"; "P7"] _ _)).
  - repeat constructor; simpl; intuition discriminate.
  - apply run_batches_property_ids_unique.
Defined.

(** ** Latest snapshot per property and status *)

Section LatestSnapshots.

Variable db : DB.
Variable status0 : string.

Lemma status_latest_date_spec (pid m : string) :
  status_latest_date (listing_history db) pid status0 = Some m ->
  (exists r, In r (listing_history db) /\ h_property_id r = pid
             /\ h_status r = status0 /\ h_date r = m)
  /\ (forall r, In r (listing_history db) -> h_property_id r = pid ->
                h_status r = status0 -> text_leb (h_date r) m = true).
Proof.
  unfold status_latest_date. intro H. split.
  - apply sql_max_text_In in H. apply in_map_iff in H as (r & Hd & Hr).
    apply filter_In in Hr as [Hr Hc]. apply andb_prop in Hc as [Hp Hs].
    apply String.eqb_eq in Hp, Hs. now exists r.
  - intros r Hr Hp Hs. apply (sql_max_text_upper _ _ H).
    apply in_map. apply filter_In. split; [exact Hr |].
    now rewrite Hp, Hs, !String.eqb_refl.
Qed.

Lemma in_listings_for_prediction (f : ListingFeatures) :
  In f (get_listings_for_prediction db status0)
  <-> exists h p, In h (listing_history db) /\ In p (properties db)
                  /\ h_property_id h = p_property_id p
                  /\ is_latest_of_status (listing_history db) status0 h = true
                  /\ f = features_of h p.
Proof.
  unfold get_listings_for_prediction. rewrite in_flat_map. split.
  - intros (h & Hh & Hf).
    destruct (is_latest_of_status (listing_history db) status0 h) eqn:E;
      [| contradiction].
    apply in_map_iff in Hf as (p & <- & Hp). apply in_join_property in Hp as [Hp Hid].
    now exists h, p.
  - intros (h & p & Hh & Hp & Hid & E & ->). exists h. split; [exact Hh |].
    rewrite E. apply in_map. now apply in_join_property.
Qed.

Lemma NoDup_map_coarser {A B C : Type} (f : A -> B) (g : A -> C) (l : list A) :
  NoDup (map f l) ->
  (forall x y, In x l -> In y l -> g x = g y -> f x = f y) ->
  NoDup (map g l).
Proof.
  induction l as [| x l IH]; simpl; intros Hnd Hinj; [constructor |].
  apply NoDup_cons_iff in Hnd as [Hx Hnd]. constructor.
  - intro Hin. apply in_map_iff in Hin as (y & Hy & Hin).
    apply Hx. rewrite <- (Hinj y x); auto. now apply in_map.
  - apply IH; auto.
Qed.

Hypothesis Hwf : ledger_wf db.
Hypothesis Hnd : property_ids_unique (properties db).

Lemma prediction_ids (l : list HistoryRow) :
  incl l (listing_history db) ->
  map lf_property_id
      (flat_map (fun h =>
         if is_latest_of_status (listing_history db) status0 h
         then map (features_of h) (join_property (properties db) h)
         else []) l)
  = map h_property_id (filter (is_latest_of_status (listing_history db) status0) l).
Proof.
  induction l as [| h l IH]; simpl; intro Hincl; [reflexivity |].
  rewrite map_app, IH by (intros x Hx; apply Hincl; now right).
  destruct (is_latest_of_status (listing_history db) status0 h); [| reflexivity].
  destruct (join_property_one db h Hwf Hnd (Hincl h (or_introl eq_refl)))
    as (p & -> & _).
  reflexivity.
Qed.

End LatestSnapshots.

(** X15. On a ledger with its integrity constraints,
    [get_listings_for_prediction] returns one row per property that has a
    snapshot of the requested status: every such property is covered, no
    property twice, and each row carries the features of the property's
    snapshot of that status with the latest date. *)
Theorem prediction_inputs_are_latest_snapshots (db : DB) (status0 : string) :
  ledger_wf db -> property_ids_unique (properties db) ->
  NoDup (map lf_property_id (get_listings_for_prediction db status0))
  /\ (forall h, In h (listing_history db) -> h_status h = status0 ->
        In (h_property_id h)
           (map lf_property_id (get_listings_for_prediction db status0)))
  /\ (forall f, In f (get_listings_for_prediction db status0) ->
        exists h p,
          In h (listing_history db) /\ In p (properties db)
          /\ f = features_of h p /\ h_status h = status0
          /\ forall r, In r (listing_history db) ->
                       h_property_id r = h_property_id h -> h_status r = status0 ->
                       text_leb (h_date r) (h_date h) = true).
Proof.
  intros Hwf Hnd.
  assert (Hlatest : forall h,
    is_latest_of_status (listing_history db) status0 h = true ->
    h_status h = status0
    /\ status_latest_date (listing_history db) (h_property_id h) status0
       = Some (h_date h)).
  { intros h E. unfold is_latest_of_status in E. apply andb_prop in E as [E1 E2].
    apply String.eqb_eq in E1. split; [exact E1 |].
    unfold sql_eq_scalar in E2.
    destruct (status_latest_date _ _ _); [| discriminate].
    apply String.eqb_eq in E2. now subst. }
  split; [| split].
  - unfold get_listings_for_prediction.
    rewrite (prediction_ids db status0 Hwf Hnd) by apply incl_refl.
    destruct Hwf as [Hkey _ _].
    apply (NoDup_map_coarser key_of); [now apply NoDup_map_filter |].
    intros x y Hx Hy Heq.
    apply filter_In in Hx as [_ Hx]. apply filter_In in Hy as [_ Hy].
    apply Hlatest in Hx as [Sx Dx]. apply Hlatest in Hy as [Sy Dy].
    unfold key_of. rewrite Heq in Dx. congruence.
  - intros h Hh Hs.
    assert (Hmem : In (h_date h)
      (map h_date (filter (fun r => String.eqb (h_property_id r) (h_property_id h)
                                    && String.eqb (h_status r) status0)
                          (listing_history db)))).
    { apply in_map. apply filter_In. split; [exact Hh |].
      now rewrite Hs, !String.eqb_refl. }
    destruct (sql_max_text_some _ _ Hmem) as [m Hm].
    destruct (status_latest_date_spec db status0 _ _ Hm)
      as ((r & Hr & Hp & Hsr & Hd) & _).
    destruct Hwf as [_ Hprop _]. destruct (Hprop r Hr) as (p & Hpin & Hid).
    rewrite <- Hp. apply in_map_iff. exists (features_of r p).
    split; [reflexivity |]. apply in_listings_for_prediction.
    exists r, p. repeat split; auto.
    unfold is_latest_of_status. rewrite Hsr, String.eqb_refl. simpl.
    unfold status_latest_date. rewrite Hp, Hm. simpl.
    rewrite Hd. apply String.eqb_refl.
  - intros f Hf. apply in_listings_for_prediction in Hf
      as (h & p & Hh & Hp & Hid & E & ->).
    apply Hlatest in E as [Hs Hd]. exists h, p. repeat split; auto.
    intros r Hr Hpr Hsr.
    now apply (proj2 (status_latest_date_spec db status0 _ _ Hd) r).
Qed.

Lemma prediction_inputs_are_latest_snapshots_witness :
  NoDup (map lf_property_id (get_listings_for_prediction db_gap "sale")).
Proof.
  refine (proj1 (prediction_inputs_are_latest_snapshots db_gap "sale" _ _)).
  - apply run_batches_wf. repeat constructor; discriminate.
  - apply run_batches_property_ids_unique.
Defined.

(** ** Aggregate statistics of the accuracy report *)

Section SourceStatistics.








End SourceStatistics.


(** ** Property types *)

Section PropertyTypes.

Lemma dict_get_cases (d : list (string * string)) (key default : string) :
  dict_get d key default = default
  \/ In (key, dict_get d key default) d.
Proof.
  induction d as [| [k v] d IH]; simpl; [now left |].
  destruct (String.eqb k key) eqn:E.
  - apply String.eqb_eq in E. subst. right. now left.
  - destruct IH as [IH | IH]; [now left | right; now right].
Qed.

Lemma consolidated_key_cases (key : string) :
  dict_get PROPERTY_TYPE_MAP key "other" = "other"
  \/ (dict_get PROPERTY_TYPE_MAP key "other" = "house" /\ set_mem key HOUSE_TYPES = true)
  \/ (dict_get PROPERTY_TYPE_MAP key "other" = "unit" /\ set_mem key UNIT_TYPES = true)
  \/ (dict_get PROPERTY_TYPE_MAP key "other" = "townhouse"
      /\ set_mem key TOWNHOUSE_TYPES = true).
Proof.
  destruct (dict_get_cases PROPERTY_TYPE_MAP key "other") as [H | H]; [now left |].
  remember (dict_get PROPERTY_TYPE_MAP key "other") as v eqn:Hv. clear Hv.
  simpl in H.
  repeat (destruct H as [H | H];
          [injection H as <- <-; vm_compute; tauto |]).
  contradiction.
Qed.

Lemma set_member_consolidates (key : string) :
  (set_mem key HOUSE_TYPES = true -> dict_get PROPERTY_TYPE_MAP key "other" = "house")
  /\ (set_mem key UNIT_TYPES = true -> dict_get PROPERTY_TYPE_MAP key "other" = "unit")
  /\ (set_mem key TOWNHOUSE_TYPES = true ->
      dict_get PROPERTY_TYPE_MAP key "other" = "townhouse").
Proof.
  unfold set_mem. repeat split; intro H;
    apply existsb_exists in H as (k & Hk & Heq); apply String.eqb_eq in Heq; subst k;
    simpl in Hk;
    repeat (destruct Hk as [<- | Hk]; [reflexivity |]); contradiction.
Qed.

End PropertyTypes.

(** X17. [consolidate_property_type] always returns one of the four
    categories house, unit, townhouse and other, and consolidating a
    consolidated type changes nothing. *)
Theorem consolidate_property_type_idempotent (prop_type : option string) :
  In (consolidate_property_type prop_type) PROPERTY_CATEGORIES
  /\ consolidate_property_type (Some (consolidate_property_type prop_type))
     = consolidate_property_type prop_type.
Proof.
  assert (H : consolidate_property_type prop_type = "other"
              \/ consolidate_property_type prop_type = "house"
              \/ consolidate_property_type prop_type = "unit"
              \/ consolidate_property_type prop_type = "townhouse").
  { unfold consolidate_property_type.
    destruct prop_type as [[| c s] |]; [now left | | now left].
    destruct (consolidated_key_cases (type_key (String c s)))
      as [H | [[H _] | [[H _] | [H _]]]]; tauto. }
  destruct H as [-> | [-> | [-> | ->]]]; split; vm_compute; tauto.
Qed.

(** X18. The three type predicates say what the consolidation says: a type
    is a unit, a house or a townhouse type exactly when it consolidates to
    that category (the sets of type names add nothing to the mapping), no
    type is of two kinds, and the default land size is 0 exactly for unit
    types. *)
Theorem type_predicates_follow_consolidation (prop_type : option string) :
  is_unit_type prop_type = String.eqb (consolidate_property_type prop_type) "unit"
  /\ is_house_type prop_type
     = String.eqb (consolidate_property_type prop_type) "house"
  /\ is_townhouse_type prop_type
     = String.eqb (consolidate_property_type prop_type) "townhouse"
  /\ (is_unit_type prop_type && is_house_type prop_type = false)
  /\ (is_unit_type prop_type && is_townhouse_type prop_type = false)
  /\ (is_house_type prop_type && is_townhouse_type prop_type = false)
  /\ (get_default_land_size prop_type = 0 <-> is_unit_type prop_type = true).
Proof.
  unfold is_unit_type, is_house_type, is_townhouse_type, get_default_land_size.
  destruct prop_type as [[| c s] |];
    [vm_compute; intuition discriminate | | vm_compute; intuition discriminate].
  unfold consolidate_property_type.
  set (key := type_key (String c s)).
  destruct (set_member_consolidates key) as (Hh & Hu & Ht).
  destruct (consolidated_key_cases key) as [H | [[H M] | [[H M] | [H M]]]];
    rewrite H;
    destruct (set_mem key UNIT_TYPES) eqn:U;
    destruct (set_mem key HOUSE_TYPES) eqn:O;
    destruct (set_mem key TOWNHOUSE_TYPES) eqn:T;
    try (specialize (Hu eq_refl)); try (specialize (Hh eq_refl));
    try (specialize (Ht eq_refl)); try congruence;
    vm_compute; intuition discriminate.
Qed.

(** ** Summary statistics *)

Section SummaryStatistics.

Lemma sum_ge_length (xs : list Z) :
  (forall x, In x xs -> (0 < x)%Z) ->
  (Z.of_nat (length xs) <= fold_right Z.add 0 xs)%Z.
Proof.
  induction xs as [| x xs IH]; intro H; [simpl; lia |].
  cbn [length fold_right].
  assert (0 < x)%Z by (apply H; now left).
  assert (Z.of_nat (length xs) <= fold_right Z.add 0 xs)%Z
    by (apply IH; intros y Hy; apply H; now right).
  lia.
Qed.

Lemma int_or_zero_nonneg (xs : list Z) :
  (forall x, In x xs -> (0 < x)%Z) ->
  (0 <= int_or_zero (sql_avg xs))%Z
  /\ (xs <> [] -> (0 < int_or_zero (sql_avg xs))%Z).
Proof.
  intro H. destruct xs as [| x xs]; [split; [simpl; lia | congruence] |].
  pose proof (sum_ge_length (x :: xs) H) as Hsum.
  unfold sql_avg, int_or_zero.
  set (s := fold_right Z.add 0%Z (x :: xs)) in *.
  set (n := Z.of_nat (length (x :: xs))) in *.
  assert (Hn : (0 < n)%Z) by (unfold n; cbn [length]; lia).
  assert (Hq : 1 <= inject_Z s / inject_Z n).
  { apply Qle_shift_div_l.
    - replace 0 with (inject_Z 0) by reflexivity. now rewrite <- Zlt_Qlt.
    - rewrite Qmult_1_l. now rewrite <- Zle_Qle. }
  assert (Hpos : (0 < py_int (inject_Z s / inject_Z n))%Z).
  { unfold py_int.
    assert (Hle : Qle_bool 0 (inject_Z s / inject_Z n) = true).
    { apply Qle_bool_iff. apply Qle_trans with 1; [discriminate | exact Hq]. }
    rewrite Hle. apply Qfloor_resp_le in Hq.
    change (Qfloor 1) with 1%Z in Hq. lia. }
  destruct (Qeq_bool (inject_Z s / inject_Z n) 0) eqn:E.
  - apply Qeq_bool_iff in E. rewrite E in Hq. exfalso. now apply Hq.
  - split; [lia | intros _; exact Hpos].
Qed.

Lemma length_disjoint_filters {A : Type} (f g : A -> bool) (l : list A) :
  (forall x, f x && g x = false) ->
  (length (filter f l) + length (filter g l) <= length l)%nat.
Proof.
  intro H. induction l as [| x l IH]; simpl; [lia |].
  specialize (H x). destruct (f x), (g x); simpl in *; try discriminate; lia.
Qed.

Lemma in_catchment_join (db : DB) (keep : HistoryRow -> bool) (i : string) :
  In i (flat_map (fun p =>
          flat_map (fun h =>
            if String.eqb (p_property_id p) (h_property_id h)
               && (p_in_excelsior_catchment p =? 1)%Z
               && keep h
            then [p_property_id p] else [])
            (listing_history db))
          (properties db))
  <-> exists p h, In p (properties db) /\ In h (listing_history db)
                  /\ p_property_id p = i /\ h_property_id h = i
                  /\ p_in_excelsior_catchment p = 1%Z /\ keep h = true.
Proof.
  rewrite in_flat_map. split.
  - intros (p & Hp & Hi). apply in_flat_map in Hi as (h & Hh & Hi).
    destruct (String.eqb (p_property_id p) (h_property_id h)) eqn:E1;
      [| contradiction].
    destruct (p_in_excelsior_catchment p =? 1)%Z eqn:E2; [| contradiction].
    destruct (keep h) eqn:E3; [| contradiction].
    destruct Hi as [<- | []].
    apply String.eqb_eq in E1. apply Z.eqb_eq in E2.
    exists p, h. repeat split; auto.
  - intros (p & h & Hp & Hh & Hi & Hj & Hf & Hk).
    exists p. split; [exact Hp |]. apply in_flat_map. exists h. split; [exact Hh |].
    rewrite Hi, Hj, String.eqb_refl, Hf, Hk. now left.
Qed.

Lemma count_catchment_with_le_rows (db : DB) (keep : HistoryRow -> bool) :
  (count_catchment_with db keep <= length (filter keep (listing_history db)))%nat.
Proof.
  unfold count_catchment_with.
  rewrite <- (length_map h_property_id (filter keep (listing_history db))).
  apply NoDup_incl_length; [apply NoDup_nodup |].
  intros i Hi. apply nodup_In in Hi.
  apply in_catchment_join in Hi as (p & h & _ & Hh & _ & Hj & _ & Hk).
  apply in_map_iff. exists h. split; [exact Hj |]. now apply filter_In.
Qed.

Lemma count_catchment_with_le_flagged (db : DB) (keep : HistoryRow -> bool) :
  (count_catchment_with db keep
   <= length (filter (fun p => (p_in_excelsior_catchment p =? 1)%Z) (properties db)))%nat.
Proof.
  unfold count_catchment_with.
  rewrite <- (length_map p_property_id
                (filter (fun p => (p_in_excelsior_catchment p =? 1)%Z) (properties db))).
  apply NoDup_incl_length; [apply NoDup_nodup |].
  intros i Hi. apply nodup_In in Hi.
  apply in_catchment_join in Hi as (p & h & Hp & _ & Hi & _ & Hf & _).
  apply in_map_iff. exists p. split; [exact Hi |]. apply filter_In.
  split; [exact Hp | now apply Z.eqb_eq].
Qed.

Lemma first_by_In {A : Type} (before : A -> A -> bool) (l : list A) (x : A) :
  first_by before l = Some x -> In x l.
Proof.
  revert x. induction l as [| y l IH]; simpl; intros x H; [discriminate |].
  destruct (first_by before l) as [z |].
  - destruct (before z y); injection H as <-; [right; now apply IH | now left].
  - injection H as <-. now left.
Qed.

End SummaryStatistics.

(** X19. The numbers of [get_stats] bound each other in every database: the
    two suburb counts together and the catchment count are at most the number
    of tracked properties; the catchment-for-sale count is at most the
    for-sale count and, like the catchment-sold count, at most the catchment
    count; the average price is never negative, and it is positive exactly
    when a for-sale row of the latest capture date has a positive price. *)
Theorem get_stats_bounds (db : DB) :
  let s := get_stats db in
  (baulkham_hills_count s + castle_hill_count s <= total_tracked s)%nat
  /\ (excelsior_catchment_count s <= total_tracked s)%nat
  /\ (count_sale s <= length (listing_history db))%nat
  /\ (excelsior_catchment_sale s <= count_sale s)%nat
  /\ (excelsior_catchment_sale s <= excelsior_catchment_count s)%nat
  /\ (excelsior_catchment_sold s <= excelsior_catchment_count s)%nat
  /\ (0 <= avg_price_sale s)%Z
  /\ ((0 < avg_price_sale s)%Z
      <-> exists h, In h (listing_history db)
                    /\ sale_on_latest_date (listing_history db) h = true
                    /\ (0 < h_price_value h)%Z).
Proof.
  intro s. unfold s, get_stats.
  cbn [baulkham_hills_count castle_hill_count total_tracked excelsior_catchment_count
       count_sale excelsior_catchment_sale excelsior_catchment_sold avg_price_sale].
  split; [| split; [| split; [| split; [| split; [| split]]]]].
  - apply length_disjoint_filters. intro p.
    destruct (String.eqb (p_suburb p) "BAULKHAM HILLS") eqn:E; [| reflexivity].
    apply String.eqb_eq in E. now rewrite E.
  - apply filter_length_le.
  - apply filter_length_le.
  - apply count_catchment_with_le_rows.
  - apply count_catchment_with_le_flagged.
  - apply count_catchment_with_le_flagged.
  - set (priced := filter _ (listing_history db)).
    assert (Hpos : forall x, In x (map h_price_value priced) -> (0 < x)%Z).
    { intros x Hx. apply in_map_iff in Hx as (h & <- & Hh).
      apply filter_In in Hh as [_ Hh].
      apply andb_prop in Hh as [Hh _]. apply andb_prop in Hh as [_ Hh]. lia. }
    destruct (int_or_zero_nonneg _ Hpos) as [H0 H1].
    split; [exact H0 |]. split.
    + intro Hlt. destruct priced as [| h l] eqn:E; [simpl in Hlt; lia |].
      assert (Hin : In h priced) by (rewrite E; now left).
      unfold priced in Hin. apply filter_In in Hin as [Hin Hh].
      apply andb_prop in Hh as [Hh Hd]. apply andb_prop in Hh as [Hs Hp].
      exists h. split; [exact Hin |]. unfold sale_on_latest_date.
      rewrite Hs, Hd. split; [reflexivity | lia].
    + intros (h & Hin & Hh & Hp). apply H1. intro E.
      assert (Hh' : In h priced).
      { unfold priced. apply filter_In. split; [exact Hin |].
        unfold sale_on_latest_date in Hh. apply andb_prop in Hh as [Hs Hd].
        rewrite Hs, Hd. simpl. rewrite andb_true_r. lia. }
      apply (in_map h_price_value) in Hh'. rewrite E in Hh'. contradiction.
Qed.

Section StatsAfterCatchmentUpdate.

Variable db : DB.
Variable catchment_ids : list string.
Hypothesis ids_nodup : NoDup catchment_ids.
Hypothesis ids_unique : property_ids_unique (properties db).

Lemma updated_count_is_flagged_count :
  updated_count (snd (update_catchment_flags db catchment_ids))
  = length (filter (fun p => (p_in_excelsior_catchment p =? 1)%Z)
                   (properties (fst (update_catchment_flags db catchment_ids)))).
Proof.
  rewrite <- (length_map p_property_id).
  change (map p_property_id
            (filter (fun p => (p_in_excelsior_catchment p =? 1)%Z)
                    (properties (fst (update_catchment_flags db catchment_ids)))))
    with (get_catchment_property_ids (fst (update_catchment_flags db catchment_ids))).
  rewrite flagged_ids_after_update.
  unfold update_catchment_flags. simpl. rewrite updated_ids_after_update.
  apply Permutation_length. apply NoDup_Permutation.
  - now apply NoDup_filter.
  - now apply NoDup_map_filter.
  - intro i. rewrite filter_In, in_map_iff. split.
    + intros [Hi Hex]. apply existsb_exists in Hex as (p & Hp & Heq).
      apply String.eqb_eq in Heq. exists p. split; [exact Heq |].
      apply filter_In. split; [exact Hp |]. apply existsb_eqb_In. now rewrite Heq.
    + intros (p & <- & Hp). apply filter_In in Hp as [Hp Hmem].
      apply existsb_eqb_In in Hmem. split; [exact Hmem |].
      apply existsb_exists. exists p. split; [exact Hp | apply String.eqb_refl].
Qed.

Lemma property_ids_after_update :
  map p_property_id (properties (fst (update_catchment_flags db catchment_ids)))
  = map p_property_id (properties db).
Proof.
  rewrite properties_after_update, map_map. reflexivity.
Qed.

Lemma sold_status_has_sold_row (db0 : DB) (p : PropertyRow) :
  String.eqb (current_status db0 p) "sold" = true ->
  exists h, In h (listing_history db0) /\ h_property_id h = p_property_id p
            /\ h_status h = "sold".
Proof.
  unfold current_status. intro H.
  destruct (current_row (listing_history db0) (p_property_id p)) as [h |] eqn:E;
    [| discriminate].
  apply first_by_In in E. apply filter_In in E as [Hin Hid].
  apply String.eqb_eq in Hid. exists h. split; [exact Hin | split; [exact Hid |]].
  simpl in H. destruct (h_status h) as [| c s]; [discriminate |].
  now apply String.eqb_eq in H.
Qed.

Lemma sold_list_is_counted :
  (length (cr_sold (snd (update_catchment_flags db catchment_ids)))
   <= count_catchment_with (fst (update_catchment_flags db catchment_ids))
        (fun h => String.eqb (h_status h) "sold"))%nat.
Proof.
  pose proof (catchment_details_rows db catchment_ids) as Hrows. cbv zeta in Hrows.
  set (db' := fst (update_catchment_flags db catchment_ids)) in *.
  assert (Hsold : cr_sold (snd (update_catchment_flags db catchment_ids))
                  = map (catchment_info db')
                      (filter (fun p => String.eqb (current_status db' p) "sold")
                         (catchment_details db'
                            (snd (mark_all (reset_catchment (properties db))
                                           catchment_ids))))) by reflexivity.
  rewrite Hsold.
  set (rows := catchment_details db' _) in *.
  rewrite <- (length_map ci_property_id), map_map.
  change (map (fun x => ci_property_id (catchment_info db' x)))
    with (map p_property_id).
  unfold count_catchment_with.
  apply NoDup_incl_length.
  - apply NoDup_map_filter.
    apply (Permutation_NoDup (Permutation_map p_property_id (Permutation_sym Hrows))).
    apply NoDup_map_filter. unfold db'. rewrite property_ids_after_update.
    exact ids_unique.
  - intros i Hi. apply in_map_iff in Hi as (p & <- & Hp).
    apply filter_In in Hp as [Hp Hs].
    apply (Permutation_in _ Hrows) in Hp. apply filter_In in Hp as [Hp Hmem].
    apply nodup_In. apply in_catchment_join.
    destruct (sold_status_has_sold_row db' p Hs) as (h & Hh & Hid & Hst).
    exists p, h. repeat split; auto.
    + unfold db' in Hp. rewrite properties_after_update in Hp.
      apply in_map_iff in Hp as (q & <- & Hq). simpl in *. now rewrite Hmem.
    + rewrite Hst. reflexivity.
Qed.

End StatsAfterCatchmentUpdate.

(** X20. After [update_catchment_flags] on a table with a primary key,
    [get_stats] reports what the update returned: its catchment count is the
    update's [updated_count], the number of tracked properties and the
    for-sale count are those of before, and every property of the update's
    sold list is counted in the catchment-sold count. *)
Theorem stats_after_catchment_update (db : DB) (catchment_ids : list string) :
  NoDup catchment_ids -> property_ids_unique (properties db) ->
  let db' := fst (update_catchment_flags db catchment_ids) in
  let r := snd (update_catchment_flags db catchment_ids) in
  excelsior_catchment_count (get_stats db') = updated_count r
  /\ total_tracked (get_stats db') = total_tracked (get_stats db)
  /\ count_sale (get_stats db') = count_sale (get_stats db)
  /\ avg_price_sale (get_stats db') = avg_price_sale (get_stats db)
  /\ (length (cr_sold r) <= excelsior_catchment_sold (get_stats db'))%nat.
Proof.
  intros Hids Hps db' r.
  split; [| split; [| split; [| split]]].
  - symmetry. now apply updated_count_is_flagged_count.
  - unfold get_stats. cbn [total_tracked].
    rewrite <- (length_map p_property_id (properties db')).
    unfold db'. rewrite property_ids_after_update. apply length_map.
  - reflexivity.
  - reflexivity.
  - now apply sold_list_is_counted.
Qed.

Lemma stats_after_catchment_update_witness :
  excelsior_catchment_count
    (get_stats (fst (update_catchment_flags db_guide_and_hidden ["P2"; "P7"])))
  = updated_count (snd (update_catchment_flags db_guide_and_hidden ["P2"; "P7"])).
Proof.
  refine (proj1 (stats_after_catchment_update db_guide_and_hidden ["P2"; "P7"] _ _)).
  - repeat constructor; simpl; intuition discriminate.
  - apply run_batches_property_ids_unique.
Defined.

(** ** Price text of a listing *)

Section PriceText.

Local Open Scope string_scope.

Lemma isdigit_not_comma (c : ascii) : isdigit c = true -> Ascii.eqb c "," = false.
Proof.
  intro H. destruct (Ascii.eqb c ",") eqn:E; [| reflexivity].
  apply Ascii.eqb_eq in E. subst c. discriminate.
Qed.

Lemma digit_value_range (c : ascii) :
  isdigit c = true -> (0 <= digit_value c <= 9)%Z.
Proof.
  unfold isdigit, digit_value. intro H. apply andb_prop in H as [H1 H2].
  apply Nat.leb_le in H1, H2. lia.
Qed.

Lemma first_number_skip (p t : string) :
  string_forallb (fun c => negb (isdigit c)) p = true ->
  first_number (p ++ t) = first_number t.
Proof.
  induction p as [| c p IH]; simpl; intro H; [reflexivity |].
  apply andb_prop in H as [Hc Hp]. apply negb_true_iff in Hc. rewrite Hc.
  now apply IH.
Qed.

Lemma first_number_no_digit (p : string) :
  string_forallb (fun c => negb (isdigit c)) p = true -> first_number p = None.
Proof.
  induction p as [| c p IH]; simpl; intro H; [reflexivity |].
  apply andb_prop in H as [Hc Hp]. apply negb_true_iff in Hc. rewrite Hc.
  now apply IH.
Qed.

Lemma extract_price_value_unfold (m : nat) (s : string) :
  _extract_price_value m (Some s)
  = match first_number s with
    | Some num =>
        match int_of_digits m (remove_commas num) with
        | Some val => if (val >? 100000)%Z then val else 0%Z
        | None => 0%Z
        end
    | None => 0%Z
    end.
Proof.
  destruct s; reflexivity.
Qed.

Lemma take_upto_exact (f : ascii -> bool) (n : nat) (m rest : string) :
  string_forallb f m = true -> (String.length m <= n)%nat ->
  match rest with
  | EmptyString => True
  | String c _ => f c = false
  end ->
  take_upto f n (m ++ rest) = (m, rest).
Proof.
  revert n. induction m as [| c m IH]; intros n Hm Hlen Hrest.
  - simpl. destruct n, rest as [| c r]; try reflexivity. simpl. now rewrite Hrest.
  - simpl in *. apply andb_prop in Hm as [Hc Hm].
    destruct n as [| n]; [lia |]. simpl. rewrite Hc, IH; auto. lia.
Qed.

Lemma take_upto_full (f : ascii -> bool) (n : nat) (m rest : string) :
  string_forallb f m = true -> String.length m = n ->
  take_upto f n (m ++ rest) = (m, rest).
Proof.
  revert n. induction m as [| c m IH]; intros n Hm Hlen.
  - simpl in *. subst n. reflexivity.
  - simpl in *. apply andb_prop in Hm as [Hc Hm].
    destruct n as [| n]; [discriminate |]. simpl. rewrite Hc, IH; auto.
Qed.

Lemma comma_groups_end (t : string) : ends_number t = true -> comma_groups t = EmptyString.
Proof.
  destruct t as [| k [| a [| b [| c r]]]]; try reflexivity.
  simpl. intro H. apply andb_prop in H as [_ H]. apply negb_true_iff in H.
  now rewrite H.
Qed.

Lemma group_of_three (g : string) :
  String.length g = 3%nat -> string_forallb isdigit g = true ->
  exists a b c, g = String a (String b (String c EmptyString))
                /\ isdigit a = true /\ isdigit b = true /\ isdigit c = true.
Proof.
  destruct g as [| a [| b [| c [| d r]]]]; simpl; try discriminate.
  intros _ H. apply andb_prop in H as [Ha H]. apply andb_prop in H as [Hb H].
  apply andb_prop in H as [Hc _]. eauto 8.
Qed.

Lemma comma_groups_step (a b c : ascii) (rest : string) :
  isdigit a = true -> isdigit b = true -> isdigit c = true ->
  comma_groups (String "," (String a (String b (String c rest))))
  = String "," (String a (String b (String c (comma_groups rest)))).
Proof.
  intros Ha Hb Hc. cbn [comma_groups]. now rewrite Ha, Hb, Hc.
Qed.

Lemma comma_groups_join (groups : list string) (g t : string) :
  Forall (fun g => String.length g = 3%nat /\ string_forallb isdigit g = true)
         (g :: groups) ->
  ends_number t = true ->
  comma_groups ("," ++ String.concat "," (g :: groups) ++ t)
  = "," ++ String.concat "," (g :: groups).
Proof.
  revert g. induction groups as [| g' l IH]; intros g Hall Ht.
  - apply Forall_inv in Hall as [Hl Hd].
    destruct (group_of_three g Hl Hd) as (a & b & c & -> & Ha & Hb & Hc).
    cbn [String.concat append].
    rewrite comma_groups_step by assumption. now rewrite comma_groups_end.
  - pose proof (Forall_inv Hall) as [Hl Hd]. apply Forall_inv_tail in Hall.
    destruct (group_of_three g Hl Hd) as (a & b & c & -> & Ha & Hb & Hc).
    specialize (IH g' Hall Ht).
    change (String.concat "," (String a (String b (String c "")) :: g' :: l))
      with (String a (String b (String c ("," ++ String.concat "," (g' :: l))))).
    cbn [append]. cbn [append] in IH.
    rewrite comma_groups_step by assumption.
    now rewrite IH.
Qed.

Lemma string_app_nil_r (s : string) : s ++ "" = s.
Proof.
  induction s as [| c s IH]; simpl; [reflexivity | now rewrite IH].
Qed.

Lemma remove_commas_digits (s t : string) :
  string_forallb isdigit s = true ->
  remove_commas (s ++ t) = s ++ remove_commas t.
Proof.
  induction s as [| c s IH]; simpl; intro H; [reflexivity |].
  apply andb_prop in H as [Hc Hs]. rewrite (isdigit_not_comma c Hc). now rewrite IH.
Qed.

Lemma remove_commas_join (groups : list string) (head : string) :
  Forall (fun g => string_forallb isdigit g = true) (head :: groups) ->
  remove_commas (String.concat "," (head :: groups))
  = String.concat "" (head :: groups).
Proof.
  revert head. induction groups as [| g l IH]; intros head Hall.
  - apply Forall_inv in Hall. simpl.
    rewrite <- (string_app_nil_r head) at 1.
    rewrite remove_commas_digits by assumption. simpl. apply string_app_nil_r.
  - pose proof (Forall_inv Hall) as Hd. apply Forall_inv_tail in Hall.
    change (String.concat "," (head :: g :: l))
      with (head ++ "," ++ String.concat "," (g :: l)).
    change (String.concat "" (head :: g :: l))
      with (head ++ "" ++ String.concat "" (g :: l)).
    rewrite remove_commas_digits by assumption.
    change (remove_commas ("," ++ String.concat "," (g :: l)))
      with (remove_commas (String.concat "," (g :: l))).
    now rewrite IH.
Qed.

Lemma first_number_head (head rest : string) :
  string_forallb isdigit head = true ->
  (1 <= String.length head <= 3)%nat ->
  match rest with
  | EmptyString => True
  | String c _ => isdigit c = false
  end ->
  first_number (head ++ rest) = Some (head ++ comma_groups rest).
Proof.
  intros Hd Hlen Hrest.
  destruct head as [| c h]; [simpl in Hlen; lia |].
  assert (Hc : isdigit c = true)
    by (simpl in Hd; now apply andb_prop in Hd as [Hc _]).
  transitivity (Some (let (m, r) := take_upto isdigit 3 (String c h ++ rest) in
                      m ++ comma_groups r)).
  - cbn [append first_number]. now rewrite Hc.
  - rewrite take_upto_exact; auto. lia.
Qed.

End PriceText.

Section PriceValue.

Local Open Scope string_scope.

Lemma string_app_assoc (a b c : string) : (a ++ b) ++ c = a ++ (b ++ c).
Proof.
  induction a as [| x a IH]; simpl; [reflexivity | now rewrite IH].
Qed.

Lemma comma_groups_not_comma (k : ascii) (r : string) :
  Ascii.eqb k "," = false -> comma_groups (String k r) = "".
Proof.
  intro H. destruct r as [| a [| b [| c r]]]; try reflexivity.
  cbn [comma_groups]. now rewrite H.
Qed.

Lemma ends_number_head (t : string) :
  ends_number t = true ->
  match t with
  | "" => True
  | String c _ => isdigit c = false
  end.
Proof.
  destruct t as [| c t]; [trivial |]. simpl. intro H.
  apply andb_prop in H as [H _]. now apply negb_true_iff in H.
Qed.

Lemma first_grouped_number (head t : string) (groups : list string) :
  string_forallb isdigit head = true ->
  (1 <= String.length head <= 3)%nat ->
  Forall (fun g => String.length g = 3%nat /\ string_forallb isdigit g = true) groups ->
  ends_number t = true ->
  first_number (String.concat "," (head :: groups) ++ t)
  = Some (String.concat "," (head :: groups)).
Proof.
  intros Hd Hlen Hall Ht. destruct groups as [| g l].
  - cbn [String.concat].
    rewrite (first_number_head head t Hd Hlen (ends_number_head t Ht)).
    now rewrite comma_groups_end, string_app_nil_r.
  - change (String.concat "," (head :: g :: l))
      with (head ++ "," ++ String.concat "," (g :: l)).
    rewrite string_app_assoc.
    rewrite (first_number_head head _ Hd Hlen) by (rewrite string_app_assoc; reflexivity).
    rewrite string_app_assoc. now rewrite comma_groups_join.
Qed.

End PriceValue.

(** X21. [_extract_price_value] reads the first number of an ASCII text
    when it is written in groups of three digits: for a text made of anything
    without a digit, then one to three digits, then any number of groups of a
    comma and three digits, then the end of the text or a character that is
    neither a digit nor a comma, the result is the number the digits spell
    when that is above 100000 and 0 otherwise, provided the interpreter's
    limit on the number of digits of an int, if any, is not exceeded. *)
Theorem price_value_of_grouped_number (int_max_str_digits : nat) (p head t : string)
  (groups : list string) :
  is_ascii p = true -> is_ascii t = true ->
  string_forallb (fun c => negb (isdigit c)) p = true ->
  string_forallb isdigit head = true ->
  (1 <= String.length head <= 3)%nat ->
  Forall (fun g => String.length g = 3%nat /\ string_forallb isdigit g = true) groups ->
  ends_number t = true ->
  int_max_str_digits = 0%nat
  \/ (String.length (String.concat "" (head :: groups)) <= int_max_str_digits)%nat ->
  _extract_price_value int_max_str_digits
    (Some (p ++ String.concat "," (head :: groups) ++ t)%string)
  = let val := digits_value 0 (String.concat "" (head :: groups)) in
    if (val >? 100000)%Z then val else 0%Z.
Proof.
  intros _ _ Hp Hd Hlen Hall Ht Hmax.
  rewrite extract_price_value_unfold, first_number_skip by assumption.
  rewrite first_grouped_number by assumption.
  rewrite remove_commas_join.
  - unfold int_of_digits.
    replace ((0 <? int_max_str_digits)%nat
             && (int_max_str_digits
                 <? String.length (String.concat "" (head :: groups)))%nat)
      with false; [reflexivity |].
    symmetry. apply andb_false_iff. destruct Hmax as [-> | Hle].
    + now left.
    + right. apply Nat.ltb_ge. exact Hle.
  - constructor; [exact Hd |].
    eapply Forall_impl; [| exact Hall]. now intros g [_ Hg].
Qed.

Lemma price_value_of_grouped_number_witness :
  _extract_price_value 4300 (Some "Offers over $1,250,000 (negotiable)") = 1250000%Z.
Proof.
  apply (price_value_of_grouped_number 4300 "Offers over $" "1" " (negotiable)"
           ["250"; "000"]).
  - reflexivity.
  - reflexivity.
  - reflexivity.
  - reflexivity.
  - simpl. lia.
  - repeat constructor.
  - reflexivity.
  - right. simpl. lia.
Defined.

(** X22. [_extract_price_value] returns 0 or a value above 100000, and on
    ASCII text it looks at nothing but the first number: a text without a
    digit gives 0, text without a digit in front of a text changes nothing,
    and a text whose first digits are four or more in a row, a price written
    without commas, gives 0 whatever follows. *)
Theorem price_value_is_zero_or_large (int_max_str_digits : nat) (p t : string)
  (a b c d : ascii) :
  is_ascii p = true -> is_ascii t = true ->
  string_forallb (fun c => negb (isdigit c)) p = true ->
  isdigit a = true -> isdigit b = true -> isdigit c = true -> isdigit d = true ->
  (forall price_text,
      _extract_price_value int_max_str_digits price_text = 0%Z
      \/ (100000 < _extract_price_value int_max_str_digits price_text)%Z)
  /\ _extract_price_value int_max_str_digits (Some p) = 0%Z
  /\ _extract_price_value int_max_str_digits (Some (p ++ t)%string)
     = _extract_price_value int_max_str_digits (Some t)
  /\ _extract_price_value int_max_str_digits
       (Some (p ++ String a (String b (String c (String d t))))%string) = 0%Z.
Proof.
  intros _ _ Hp Ha Hb Hc Hd. split; [| split; [| split]].
  - intros [s |]; [| now left]. rewrite extract_price_value_unfold.
    destruct (first_number s) as [num |]; [| now left].
    destruct (int_of_digits int_max_str_digits (remove_commas num)) as [val |];
      [| now left].
    destruct (val >? 100000)%Z eqn:E; [right; lia | now left].
  - rewrite extract_price_value_unfold. now rewrite first_number_no_digit.
  - rewrite !extract_price_value_unfold. now rewrite first_number_skip.
  - rewrite extract_price_value_unfold, first_number_skip by assumption.
    cbn [first_number]. rewrite Ha. cbn [take_upto]. rewrite Ha, Hb, Hc.
    rewrite comma_groups_not_comma by now apply isdigit_not_comma.
    cbn [append remove_commas].
    rewrite !isdigit_not_comma by assumption.
    unfold int_of_digits.
    destruct ((0 <? int_max_str_digits)%nat && _); [reflexivity |].
    cbn [digits_value].
    pose proof (digit_value_range a Ha). pose proof (digit_value_range b Hb).
    pose proof (digit_value_range c Hc).
    destruct (_ >? 100000)%Z eqn:E; [lia | reflexivity].
Qed.

Lemma price_value_is_zero_or_large_witness :
  _extract_price_value 4300 (Some "$1250000") = 0%Z.
Proof.
  refine (proj2 (proj2 (proj2
            (price_value_is_zero_or_large 4300 "$" "000" "1" "2" "5" "0"
               _ _ _ _ _ _ _))));
    reflexivity.
Defined.

Section NumberText.

Local Open Scope string_scope.

Lemma take_upto_matched (f : ascii -> bool) (n : nat) (s : string) :
  string_forallb f (fst (take_upto f n s)) = true.
Proof.
  revert s. induction n as [| n IH]; intros [| c s]; try reflexivity.
  simpl. destruct (f c) eqn:E; [| reflexivity].
  specialize (IH s). destruct (take_upto f n s) as [m r]. simpl in *.
  now rewrite E, IH.
Qed.

Lemma take_upto_head (f : ascii -> bool) (n : nat) (c : ascii) (s : string) :
  f c = true ->
  fst (take_upto f (S n) (String c s)) = String c (fst (take_upto f n s)).
Proof.
  intro H. change (take_upto f (S n) (String c s))
    with (if f c then let (m, r) := take_upto f n s in (String c m, r)
          else ("", String c s)).
  rewrite H. now destruct (take_upto f n s).
Qed.

Lemma remove_commas_groups (s : string) :
  string_forallb isdigit (remove_commas (comma_groups s)) = true.
Proof.
  assert (H : forall n s, (String.length s <= n)%nat ->
                          string_forallb isdigit (remove_commas (comma_groups s)) = true).
  { clear s. induction n as [| n IH]; intros s Hlen.
    - destruct s; [reflexivity | simpl in Hlen; lia].
    - destruct s as [| k [| a [| b [| c r]]]]; try reflexivity.
      cbn [comma_groups].
      destruct (Ascii.eqb k ",") eqn:Ek; [| reflexivity].
      destruct (isdigit a) eqn:Ea; [| reflexivity].
      destruct (isdigit b) eqn:Eb; [| reflexivity].
      destruct (isdigit c) eqn:Ec; [| reflexivity].
      cbn [andb remove_commas]. rewrite Ek.
      rewrite !isdigit_not_comma by assumption.
      cbn [string_forallb]. rewrite Ea, Eb, Ec. cbn [andb].
      apply IH. simpl in Hlen. lia. }
  now apply (H (String.length s)).
Qed.

(** The text [_extract_price_value] passes to [int] is a non-empty text of
    digits. *)
Lemma first_number_digits (s num : string) :
  first_number s = Some num ->
  string_forallb isdigit (remove_commas num) = true /\ remove_commas num <> "".
Proof.
  induction s as [| c s IH]; [discriminate |].
  change (first_number (String c s))
    with (if isdigit c
          then Some (let (m, r) := take_upto isdigit 3 (String c s) in
                     m ++ comma_groups r)
          else first_number s).
  destruct (isdigit c) eqn:Ec; [| exact IH].
  clear IH.
  pose proof (take_upto_matched isdigit 3 (String c s)) as Hm.
  destruct (take_upto isdigit 3 (String c s)) as [m r] eqn:E. cbn [fst] in Hm.
  assert (Hne : m <> "").
  { change m with (fst (m, r)). rewrite <- E.
    now rewrite (take_upto_head isdigit 2 c s Ec). }
  cbv beta iota. intro H. injection H as <-.
  rewrite remove_commas_digits by exact Hm. split.
  - clear E Hne. induction m as [| x y IHy]; simpl in *.
    + apply remove_commas_groups.
    + apply andb_prop in Hm as [Hx Hy]. rewrite Hx. now apply IHy.
  - destruct m; [congruence | discriminate].
Qed.

End NumberText.

(** ** Sale dates of a listing *)

Section SaleDates.

Local Open Scope string_scope.

Lemma string_length_app (a b : string) :
  String.length (a ++ b) = (String.length a + String.length b)%nat.
Proof.
  induction a as [| c a IH]; simpl; [reflexivity | now rewrite IH].
Qed.

Lemma string_forallb_app (f : ascii -> bool) (a b : string) :
  string_forallb f (a ++ b) = string_forallb f a && string_forallb f b.
Proof.
  induction a as [| c a IH]; simpl; [reflexivity |].
  now rewrite IH, andb_assoc.
Qed.

Lemma contains_char_app (k : ascii) (a b : string) :
  contains_char k (a ++ b) = contains_char k a || contains_char k b.
Proof.
  induction a as [| c a IH]; simpl; [reflexivity |].
  now rewrite IH, orb_assoc.
Qed.

Lemma contains_char_class (f : ascii -> bool) (k : ascii) (s : string) :
  f k = false -> string_forallb f s = true -> contains_char k s = false.
Proof.
  intros Hk. induction s as [| c s IH]; simpl; [reflexivity |].
  intro H. apply andb_prop in H as [Hc Hs]. rewrite (IH Hs), orb_false_r.
  destruct (Ascii.eqb c k) eqn:E; [| reflexivity].
  apply Ascii.eqb_eq in E. congruence.
Qed.

Lemma before_char_app (k : ascii) (d rest : string) :
  contains_char k d = false -> before_char k (d ++ String k rest) = d.
Proof.
  induction d as [| c d IH]; simpl; intro H.
  - now rewrite Ascii.eqb_refl.
  - apply orb_false_iff in H as [Hc Hd]. rewrite Hc. now rewrite IH.
Qed.

Lemma before_char_absent (k : ascii) (s : string) :
  contains_char k (before_char k s) = false.
Proof.
  induction s as [| c s IH]; simpl; [reflexivity |].
  destruct (Ascii.eqb c k) eqn:E; simpl; [reflexivity | now rewrite E].
Qed.

Lemma take_upto_split (f : ascii -> bool) (n : nat) (s : string) :
  s = fst (take_upto f n s) ++ snd (take_upto f n s)
  /\ (String.length (fst (take_upto f n s)) <= n)%nat.
Proof.
  revert s. induction n as [| n IH]; intros [| c s]; simpl; try (split; [reflexivity | lia]).
  destruct (f c); [| split; [reflexivity | simpl; lia]].
  destruct (IH s) as [Hs Hl]. destruct (take_upto f n s) as [m r]. simpl in *.
  split; [now rewrite <- Hs | lia].
Qed.

Lemma take_exactly_elim (f : ascii -> bool) (n : nat) (s m r : string) :
  take_exactly f n s = Some (m, r) ->
  s = m ++ r /\ String.length m = n /\ string_forallb f m = true.
Proof.
  unfold take_exactly. intro H.
  pose proof (take_upto_split f n s) as [Hs _].
  pose proof (take_upto_matched f n s) as Hm.
  destruct (take_upto f n s) as [m' r']. simpl in *.
  destruct (String.length m' =? n)%nat eqn:E; [| discriminate].
  injection H as <- <-. apply Nat.eqb_eq in E. auto.
Qed.

Lemma take_exactly_intro (f : ascii -> bool) (n : nat) (m r : string) :
  string_forallb f m = true -> String.length m = n ->
  take_exactly f n (m ++ r) = Some (m, r).
Proof.
  intros Hm Hl. unfold take_exactly. rewrite take_upto_full by assumption.
  now rewrite Hl, Nat.eqb_refl.
Qed.

Lemma take_char_elim (k : ascii) (s r : string) :
  take_char k s = Some r -> s = String k r.
Proof.
  destruct s as [| c s]; simpl; [discriminate |].
  destruct (Ascii.eqb c k) eqn:E; [| discriminate].
  apply Ascii.eqb_eq in E. intro H. injection H as <-. now subst.
Qed.

(** An ISO date: four digits, two digits and two digits with dashes. *)
Lemma match_iso_date_elim (s : string) :
  match_iso_date s = true ->
  exists y m d rest,
    s = y ++ "-" ++ m ++ "-" ++ d ++ rest
    /\ String.length y = 4%nat /\ String.length m = 2%nat /\ String.length d = 2%nat
    /\ string_forallb isdigit y = true /\ string_forallb isdigit m = true
    /\ string_forallb isdigit d = true.
Proof.
  unfold match_iso_date. intro H.
  destruct (take_exactly isdigit 4 s) as [[y r1] |] eqn:E1; [| discriminate].
  destruct (take_char "-" r1) as [r2 |] eqn:E2; [| discriminate].
  destruct (take_exactly isdigit 2 r2) as [[m r3] |] eqn:E3; [| discriminate].
  destruct (take_char "-" r3) as [r4 |] eqn:E4; [| discriminate].
  destruct (take_exactly isdigit 2 r4) as [[d r5] |] eqn:E5; [| discriminate].
  apply take_exactly_elim in E1 as (-> & Hy & Hyd).
  apply take_char_elim in E2 as ->.
  apply take_exactly_elim in E3 as (-> & Hm & Hmd).
  apply take_char_elim in E4 as ->.
  apply take_exactly_elim in E5 as (-> & Hd & Hdd).
  exists y, m, d, r5. repeat split; auto.
Qed.

Lemma match_iso_date_intro (y m d rest : string) :
  String.length y = 4%nat -> String.length m = 2%nat -> String.length d = 2%nat ->
  string_forallb isdigit y = true -> string_forallb isdigit m = true ->
  string_forallb isdigit d = true ->
  match_iso_date (y ++ "-" ++ m ++ "-" ++ d ++ rest) = true.
Proof.
  intros Hy Hm Hd Hyd Hmd Hdd. unfold match_iso_date.
  rewrite (take_exactly_intro isdigit 4 y _ Hyd Hy). cbv beta iota.
  change (take_char "-" ("-" ++ m ++ "-" ++ d ++ rest))
    with (Some (m ++ "-" ++ d ++ rest)).
  cbv beta iota.
  rewrite (take_exactly_intro isdigit 2 m _ Hmd Hm). cbv beta iota.
  change (take_char "-" ("-" ++ d ++ rest)) with (Some (d ++ rest)).
  cbv beta iota.
  now rewrite (take_exactly_intro isdigit 2 d _ Hdd Hd).
Qed.

Lemma substring_prefix (a b : string) :
  substring 0 (String.length a) (a ++ b) = a.
Proof.
  induction a as [| c a IH]; simpl.
  - now destruct b.
  - now rewrite IH.
Qed.

Lemma iso_text_slice (y m d rest : string) :
  String.length y = 4%nat -> String.length m = 2%nat -> String.length d = 2%nat ->
  prefix_slice 10 (y ++ "-" ++ m ++ "-" ++ d ++ rest) = y ++ "-" ++ m ++ "-" ++ d.
Proof.
  intros Hy Hm Hd. unfold prefix_slice.
  replace (y ++ "-" ++ m ++ "-" ++ d ++ rest)
    with ((y ++ "-" ++ m ++ "-" ++ d) ++ rest)
    by (now rewrite !string_app_assoc).
  replace 10%nat with (String.length (y ++ "-" ++ m ++ "-" ++ d)).
  - apply substring_prefix.
  - rewrite !string_length_app, Hy, Hm, Hd. reflexivity.
Qed.

Lemma iso_text_has_no_T (y m d : string) :
  string_forallb isdigit y = true -> string_forallb isdigit m = true ->
  string_forallb isdigit d = true ->
  contains_char "T" (y ++ "-" ++ m ++ "-" ++ d) = false.
Proof.
  intros Hy Hm Hd.
  rewrite !contains_char_app,
    (contains_char_class isdigit "T" y), (contains_char_class isdigit "T" m),
    (contains_char_class isdigit "T" d) by (assumption || reflexivity).
  reflexivity.
Qed.

Lemma convert_to_iso_date_unfold (s : string) :
  s <> "" ->
  _convert_to_iso_date (Some s)
  = if contains_char "T" s then Some (before_char "T" s)
    else if match_iso_date s then Some (prefix_slice 10 s)
    else
      match match_day_month_year s with
      | Some (day0, mon, year) =>
          match dict_lookup MONTH_MAP (lower mon) with
          | Some (String _ _ as month) =>
              Some (year ++ "-" ++ month ++ "-" ++ zfill 2 day0)
          | _ => None
          end
      | None => None
      end.
Proof.
  destruct s; [congruence | reflexivity].
Qed.

(** The conversion of a text that is an ISO date already. *)
Lemma convert_iso_text (y m d : string) :
  String.length y = 4%nat -> String.length m = 2%nat -> String.length d = 2%nat ->
  string_forallb isdigit y = true -> string_forallb isdigit m = true ->
  string_forallb isdigit d = true ->
  let r := y ++ "-" ++ m ++ "-" ++ d in
  match_iso_date r = true /\ String.length r = 10%nat
  /\ _convert_to_iso_date (Some r) = Some r.
Proof.
  intros Hy Hm Hd Hyd Hmd Hdd r.
  assert (Hr : r = y ++ "-" ++ m ++ "-" ++ d ++ "").
  { unfold r. now rewrite string_app_nil_r. }
  assert (Hmatch : match_iso_date r = true).
  { rewrite Hr. now apply match_iso_date_intro. }
  assert (Hlen : String.length r = 10%nat).
  { unfold r. rewrite !string_length_app, Hy, Hm, Hd. reflexivity. }
  split; [exact Hmatch | split; [exact Hlen |]].
  rewrite convert_to_iso_date_unfold by (intro E; now rewrite E in Hlen).
  rewrite Hmatch. unfold r at 1. rewrite iso_text_has_no_T by assumption.
  f_equal. rewrite Hr. rewrite iso_text_slice by assumption.
  now rewrite string_app_nil_r.
Qed.

Lemma month_is_two_digits (key month : string) :
  dict_lookup MONTH_MAP key = Some month ->
  String.length month = 2%nat /\ string_forallb isdigit month = true.
Proof.
  unfold dict_lookup. intro H.
  destruct (find (fun kv => String.eqb (fst kv) key) MONTH_MAP) as [[k v] |] eqn:E;
    [| discriminate].
  injection H as <-. apply find_some in E as [Hin _]. simpl in Hin.
  repeat (destruct Hin as [Hin | Hin];
          [injection Hin as <- <-; split; reflexivity |]).
  contradiction.
Qed.

Lemma zfill_day (day : string) :
  string_forallb isdigit day = true -> (String.length day <= 2)%nat ->
  String.length (zfill 2 day) = 2%nat /\ string_forallb isdigit (zfill 2 day) = true.
Proof.
  intros Hd Hl. unfold zfill.
  destruct day as [| a [| b [| c r]]]; simpl in *; try lia; auto.
Qed.

Lemma match_day_month_year_elim (s day mon year : string) :
  match_day_month_year s = Some (day, mon, year) ->
  string_forallb isdigit day = true /\ (String.length day <= 2)%nat
  /\ string_forallb isdigit year = true /\ String.length year = 4%nat.
Proof.
  unfold match_day_month_year. intro H.
  pose proof (take_upto_matched isdigit 2 s) as Hm.
  pose proof (take_upto_split isdigit 2 s) as [_ Hl].
  destruct (take_upto isdigit 2 s) as [d r1]. simpl in *.
  destruct d as [| c d]; [discriminate |].
  destruct (take_spaces r1) as [r2 |]; [| discriminate].
  destruct (take_exactly isalpha 3 r2) as [[mo r3] |]; [| discriminate].
  destruct (take_spaces r3) as [r4 |]; [| discriminate].
  destruct (take_exactly isdigit 4 r4) as [[y r5] |] eqn:E; [| discriminate].
  injection H as <- <- <-. apply take_exactly_elim in E as (_ & Hy & Hyd).
  auto.
Qed.

End SaleDates.

(** X23. For an ASCII text without a letter T, what [_convert_to_iso_date]
    returns is an ISO date of ten characters, four digits, two digits and two
    digits with dashes, and converting it again returns it unchanged. *)
Theorem iso_date_is_a_normal_form (s r : string) :
  is_ascii s = true ->
  contains_char "T" s = false ->
  _convert_to_iso_date (Some s) = Some r ->
  match_iso_date r = true /\ String.length r = 10%nat
  /\ _convert_to_iso_date (Some r) = Some r.
Proof.
  intros _ HT H.
  rewrite convert_to_iso_date_unfold in H by (intros ->; discriminate).
  rewrite HT in H.
  destruct (match_iso_date s) eqn:Eiso.
  - injection H as <-.
    apply match_iso_date_elim in Eiso
      as (y & m & d & rest & -> & Hy & Hm & Hd & Hyd & Hmd & Hdd).
    rewrite iso_text_slice by assumption. now apply convert_iso_text.
  - destruct (match_day_month_year s) as [[[day mon] year] |] eqn:E; [| discriminate].
    apply match_day_month_year_elim in E as (Hdd & Hdl & Hyd & Hyl).
    destruct (dict_lookup MONTH_MAP (lower mon)) as [month |] eqn:Em; [| discriminate].
    destruct (month_is_two_digits _ _ Em) as [Hml Hmd].
    destruct month as [| c1 month1] eqn:Emonth; [discriminate |].
    rewrite <- Emonth in *. injection H as <-.
    destruct (zfill_day day Hdd Hdl) as [Hzl Hzd].
    now apply convert_iso_text.
Qed.

Lemma iso_date_is_a_normal_form_witness :
  _convert_to_iso_date (Some "2024-06-12") = Some "2024-06-12".
Proof.
  refine (proj2 (proj2 (iso_date_is_a_normal_form "12 Jun 2024" "2024-06-12" _ _ _)));
    reflexivity.
Defined.

Section SaleDateText.

Local Open Scope string_scope.

Lemma isspace_not_digit (c : ascii) : isspace c = true -> isdigit c = false.
Proof.
  unfold isspace, isdigit. intro H. apply andb_false_iff.
  apply orb_prop in H as [H | H]; apply andb_prop in H as [H1 H2];
    apply Nat.leb_le in H1, H2; left; apply Nat.leb_gt; lia.
Qed.

Lemma isalpha_not_space (c : ascii) : isalpha c = true -> isspace c = false.
Proof.
  unfold isspace, isalpha. intro H. apply orb_false_iff.
  apply orb_prop in H as [H | H]; apply andb_prop in H as [H1 H2];
    apply Nat.leb_le in H1, H2;
    split; apply andb_false_iff; right; apply Nat.leb_gt; lia.
Qed.

Lemma isdigit_not_space (c : ascii) : isdigit c = true -> isspace c = false.
Proof.
  intro H. destruct (isspace c) eqn:E; [| reflexivity].
  apply isspace_not_digit in E. congruence.
Qed.

Lemma lower_char_alpha (c : ascii) : isalpha (lower_char c) = true -> isalpha c = true.
Proof.
  unfold lower_char.
  destruct ((65 <=? nat_of_ascii c)%nat && (nat_of_ascii c <=? 90)%nat) eqn:E;
    [| trivial].
  intros _. unfold isalpha. now rewrite E.
Qed.

Lemma lower_alpha (s : string) :
  string_forallb isalpha (lower s) = true -> string_forallb isalpha s = true.
Proof.
  unfold lower. induction s as [| c s IH]; simpl; [trivial |].
  intro H. apply andb_prop in H as [Hc Hs].
  now rewrite (lower_char_alpha c Hc), (IH Hs).
Qed.

Lemma lower_length (s : string) : String.length (lower s) = String.length s.
Proof.
  unfold lower. induction s as [| c s IH]; simpl; [reflexivity | now rewrite IH].
Qed.

Lemma month_name_letters (mon month : string) :
  dict_lookup MONTH_MAP (lower mon) = Some month ->
  String.length mon = 3%nat /\ string_forallb isalpha mon = true /\ month <> "".
Proof.
  unfold dict_lookup. intro H.
  destruct (find (fun kv => String.eqb (fst kv) (lower mon)) MONTH_MAP)
    as [[k v] |] eqn:E; [| discriminate].
  injection H as <-. apply find_some in E as [Hin Hk].
  apply String.eqb_eq in Hk. simpl in Hk.
  rewrite <- (lower_length mon). rewrite <- Hk.
  assert (Hv : String.length k = 3%nat /\ string_forallb isalpha k = true /\ v <> "").
  { simpl in Hin.
    repeat (destruct Hin as [Hin | Hin];
            [injection Hin as <- <-; repeat split; discriminate |]).
    contradiction. }
  destruct Hv as (Hl & Ha & Hv). repeat split; auto.
  apply lower_alpha. now rewrite <- Hk.
Qed.

Lemma lstrip_spaces (sp x : string) :
  string_forallb isspace sp = true ->
  match x with
  | "" => True
  | String c _ => isspace c = false
  end ->
  lstrip (sp ++ x) = x.
Proof.
  intros Hsp Hx. induction sp as [| c sp IH]; simpl in *.
  - destruct x as [| c x]; [reflexivity |]. simpl. now rewrite Hx.
  - apply andb_prop in Hsp as [Hc Hsp]. rewrite Hc. now apply IH.
Qed.

Lemma take_spaces_intro (sp x : string) :
  string_forallb isspace sp = true -> sp <> "" ->
  match x with
  | "" => True
  | String c _ => isspace c = false
  end ->
  take_spaces (sp ++ x) = Some x.
Proof.
  intros Hsp Hne Hx. pose proof (lstrip_spaces sp x Hsp Hx) as Hl.
  destruct sp as [| c sp]; [congruence |].
  unfold take_spaces. cbn [append] in *. simpl in Hsp.
  apply andb_prop in Hsp as [Hc _]. rewrite Hc. now rewrite Hl.
Qed.

Lemma head_class (f g : ascii -> bool) (s t : string) :
  (forall c, f c = true -> g c = false) ->
  string_forallb f s = true -> s <> "" ->
  match s ++ t with
  | "" => True
  | String c _ => g c = false
  end.
Proof.
  intros Hfg Hs Hne. destruct s as [| c s]; [congruence |].
  simpl in *. apply andb_prop in Hs as [Hc _]. now apply Hfg.
Qed.

End SaleDateText.

(** X24. [_convert_to_iso_date] turns a sale date written as a day of one
    or two digits, a month name of [MONTH_MAP] in any case and a year of four
    digits, separated by blanks, into year-month-day with the day padded to
    two digits, whatever follows the year, provided the month name and what
    follows the year hold no letter T. *)
Theorem sold_date_text_to_iso (day sp1 mon sp2 year rest month : string) :
  string_forallb isdigit day = true -> (1 <= String.length day <= 2)%nat ->
  string_forallb isspace sp1 = true -> sp1 <> EmptyString ->
  string_forallb isspace sp2 = true -> sp2 <> EmptyString ->
  dict_lookup MONTH_MAP (lower mon) = Some month ->
  string_forallb isdigit year = true -> String.length year = 4%nat ->
  contains_char "T" mon = false -> contains_char "T" rest = false ->
  _convert_to_iso_date (Some (day ++ sp1 ++ mon ++ sp2 ++ year ++ rest)%string)
  = Some (year ++ "-" ++ month ++ "-" ++ zfill 2 day)%string.
Proof.
  intros Hday Hdl Hsp1 Hne1 Hsp2 Hne2 Hmonth Hyear Hyl HTm HTr.
  destruct (month_name_letters mon month Hmonth) as (Hml & Hma & Hmne).
  assert (Hdne : day <> EmptyString) by (intros ->; simpl in Hdl; lia).
  assert (Hmonne : mon <> EmptyString) by (intros ->; discriminate).
  assert (Hyne : year <> EmptyString) by (intros ->; discriminate).
  rewrite convert_to_iso_date_unfold
    by (destruct day; [congruence | discriminate]).
  (* no letter T *)
  rewrite !contains_char_app, HTm, HTr,
    (contains_char_class isdigit "T" day), (contains_char_class isdigit "T" year),
    (contains_char_class isspace "T" sp1), (contains_char_class isspace "T" sp2)
    by (assumption || reflexivity).
  cbn [orb].
  (* not an ISO date *)
  assert (Hupto : forall n, (2 <= n)%nat ->
            take_upto isdigit n (day ++ sp1 ++ mon ++ sp2 ++ year ++ rest)%string
            = (day, (sp1 ++ mon ++ sp2 ++ year ++ rest)%string)).
  { intros n Hn. apply take_upto_exact; [exact Hday | lia |].
    apply (head_class isspace isdigit); auto using isspace_not_digit. }
  assert (Hiso : match_iso_date (day ++ sp1 ++ mon ++ sp2 ++ year ++ rest)%string
                 = false).
  { unfold match_iso_date, take_exactly. rewrite Hupto by lia.
    replace (String.length day =? 4)%nat with false; [reflexivity |].
    symmetry. apply Nat.eqb_neq. lia. }
  rewrite Hiso.
  (* day, month and year *)
  unfold match_day_month_year. rewrite Hupto by lia.
  destruct day as [| d0 day0] eqn:Eday; [congruence |]. rewrite <- Eday in *.
  rewrite take_spaces_intro;
    [| exact Hsp1 | exact Hne1
     | apply (head_class isalpha isspace); auto using isalpha_not_space].
  rewrite (take_exactly_intro isalpha 3 mon _ Hma Hml).
  rewrite take_spaces_intro;
    [| exact Hsp2 | exact Hne2
     | apply (head_class isdigit isspace); auto using isdigit_not_space].
  rewrite (take_exactly_intro isdigit 4 year _ Hyear Hyl).
  rewrite Hmonth. destruct month; [congruence | reflexivity].
Qed.

Lemma sold_date_text_to_iso_witness :
  _convert_to_iso_date (Some "5 Jun 2024 (auction)") = Some "2024-06-05".
Proof.
  apply (sold_date_text_to_iso "5" " " "Jun" " " "2024" " (auction)" "06");
    try reflexivity; try discriminate.
  simpl. lia.
Defined.

(** X25. A text with a letter T is cut at its first T, and nothing else
    about it is looked at: an ISO timestamp gives its date part, and any
    other text gives what stands before the T.  No result of
    [_convert_to_iso_date] holds a letter T. *)
Theorem timestamp_is_cut_at_T (d rest : string) :
  contains_char "T" d = false ->
  _convert_to_iso_date (Some (d ++ String "T" rest)%string) = Some d
  /\ forall s r, _convert_to_iso_date (Some s) = Some r -> contains_char "T" r = false.
Proof.
  intro Hd. split.
  - rewrite convert_to_iso_date_unfold by (destruct d; discriminate).
    rewrite contains_char_app. cbn [contains_char]. rewrite Ascii.eqb_refl.
    rewrite orb_true_r. now rewrite before_char_app.
  - intros s r H.
    destruct (contains_char "T" s) eqn:ET.
    + rewrite convert_to_iso_date_unfold in H by (intros ->; discriminate).
      rewrite ET in H. injection H as <-. apply before_char_absent.
    + assert (Hs : s <> EmptyString) by (intros ->; discriminate).
      rewrite convert_to_iso_date_unfold in H by exact Hs. rewrite ET in H.
      destruct (match_iso_date s) eqn:Eiso.
      * injection H as <-.
        apply match_iso_date_elim in Eiso
          as (y & m & d' & rest' & -> & Hy & Hm & Hd' & Hyd & Hmd & Hdd).
        rewrite iso_text_slice by assumption. now apply iso_text_has_no_T.
      * destruct (match_day_month_year s) as [[[day mon] year] |] eqn:E;
          [| discriminate].
        apply match_day_month_year_elim in E as (Hdd & Hdl & Hyd & Hyl).
        destruct (dict_lookup MONTH_MAP (lower mon)) as [month |] eqn:Em;
          [| discriminate].
        destruct (month_is_two_digits _ _ Em) as [Hml Hmd].
        destruct month as [| c1 month1] eqn:Emonth; [discriminate |].
        rewrite <- Emonth in *. injection H as <-.
        destruct (zfill_day day Hdd Hdl) as [Hzl Hzd].
        now apply iso_text_has_no_T.
Qed.

Lemma timestamp_is_cut_at_T_witness :
  _convert_to_iso_date (Some "2024-06-01T10:30:00") = Some "2024-06-01".
Proof.
  refine (proj1 (timestamp_is_cut_at_T "2024-06-01" "10:30:00" _)). reflexivity.
Defined.

(** ** Rolling average at any look-back *)

Section RollingWindow.

Variable current_date : Z.
Variable suburb : string.
Variable lookback_days : Z.

(** The two subsets as filters of the rows. *)
Lemma rolling_subsets (df : DataFrame) :
  compute_rolling_avg_price_per_m2 df current_date suburb lookback_days
  = let cutoff := (current_date - Timedelta_days lookback_days)%Z in
    let subset :=
      map df_price_per_m2
        (filter (fun r =>
           String.eqb (upper (df_suburb r)) (upper suburb)
           && match df_price_per_m2 r with Some _ => true | None => false end
           && match df_price_per_m2 r with
              | Some q => negb (Qle_bool q 0)
              | None => false
              end
           && match df_sold_date_parsed r with
              | Some d => (d <? current_date)%Z
              | None => false
              end
           && match df_sold_date_parsed r with
              | Some d => (cutoff <=? d)%Z
              | None => false
              end) df) in
    let overall_subset :=
      map df_price_per_m2
        (filter (fun r =>
           match df_price_per_m2 r with Some _ => true | None => false end
           && match df_price_per_m2 r with
              | Some q => negb (Qle_bool q 0)
              | None => false
              end
           && match df_sold_date_parsed r with
              | Some d => (d <? current_date)%Z
              | None => false
              end
           && match df_sold_date_parsed r with
              | Some d => (cutoff <=? d)%Z
              | None => false
              end) df) in
    if (5 <=? length subset)%nat then mean subset
    else if (5 <=? length overall_subset)%nat then mean overall_subset
    else 5000.
Proof.
  unfold compute_rolling_avg_price_per_m2, upper_eq, notna, gt_zero, lt_time, ge_time,
    column.
  cbv zeta. rewrite !map_map, !mask_and_map, !loc_map. reflexivity.
Qed.

Lemma mean_of_positive (f : SaleSample -> bool) (df : DataFrame) :
  (forall r, f r = true ->
             exists q, df_price_per_m2 r = Some q /\ Qle_bool q 0 = false) ->
  (5 <=? length (map df_price_per_m2 (filter f df)))%nat = true ->
  0 < mean (map df_price_per_m2 (filter f df)).
Proof.
  intros Hf Hlen. apply Nat.leb_le in Hlen. rewrite length_map in Hlen.
  unfold mean.
  assert (H : forall l, (forall r, In r l -> f r = true) ->
            length (present (map df_price_per_m2 l)) = length l
            /\ (l <> [] -> 0 < fold_right Qplus 0 (present (map df_price_per_m2 l)))
            /\ 0 <= fold_right Qplus 0 (present (map df_price_per_m2 l))).
  { induction l as [| r l IH]; intro Hl.
    - split; [reflexivity | split; [congruence | apply Qle_refl]].
    - destruct (Hf r (Hl r (or_introl eq_refl))) as (q & Hq & Hpos).
      destruct IH as (Hn & _ & H0); [intros x Hx; apply Hl; now right |].
      assert (Hqpos : 0 < q).
      { apply Qnot_le_lt. intro Hle. apply Qle_bool_iff in Hle. congruence. }
      unfold present in *. simpl. rewrite Hq. simpl. split; [now rewrite Hn |].
      assert (Hsum : 0 < q + fold_right Qplus 0
                                (flat_map (fun o : option Q =>
                                             match o with Some x => [x] | None => [] end)
                                          (map df_price_per_m2 l))).
      { apply Qlt_le_trans with (q + 0).
        - now rewrite Qplus_0_r.
        - apply Qplus_le_r. exact H0. }
      split; [intros _; exact Hsum | now apply Qlt_le_weak]. }
  destruct (H (filter f df)) as (Hn & Hpos & _).
  { intros r Hr. now apply filter_In in Hr. }
  rewrite Hn. apply Qlt_shift_div_l.
  - replace 0 with (inject_Z 0) by reflexivity. rewrite <- Zlt_Qlt. lia.
  - rewrite Qmult_0_l. apply Hpos. intro E. rewrite E in Hlen. simpl in Hlen. lia.
Qed.

End RollingWindow.

(** X26. The rolling average is positive for every data frame and suburb,
    and every date and look-back that pandas can represent (the look-back as
    a Timedelta, the date and the cutoff as Timestamps): it is the mean of at
    least five positive prices per area, or the fallback 5000. *)
Theorem rolling_average_is_positive (df : DataFrame) (current_date : Z)
  (suburb : string) (lookback_days : Z) :
  Timedelta_representable lookback_days ->
  Timestamp_representable current_date ->
  Timestamp_representable (current_date - Timedelta_days lookback_days) ->
  0 < compute_rolling_avg_price_per_m2 df current_date suburb lookback_days.
Proof.
  intros _ _ _.
  assert (Hpos : forall (o : option Q),
            match o with Some q => negb (Qle_bool q 0) | None => false end = true ->
            exists q, o = Some q /\ Qle_bool q 0 = false).
  { intros [q |] H; [| discriminate]. exists q. split; [reflexivity |].
    now apply negb_true_iff. }
  rewrite rolling_subsets. cbv zeta.
  set (own := filter _ df). set (overall := filter _ df).
  destruct (5 <=? length (map df_price_per_m2 own))%nat eqn:E1.
  - apply mean_of_positive; [| exact E1].
    intros r Hr. apply andb_prop in Hr as [Hr _]. apply andb_prop in Hr as [Hr _].
    apply andb_prop in Hr as [_ Hr]. now apply Hpos.
  - destruct (5 <=? length (map df_price_per_m2 overall))%nat eqn:E2; [| reflexivity].
    apply mean_of_positive; [| exact E2].
    intros r Hr. apply andb_prop in Hr as [Hr _]. apply andb_prop in Hr as [Hr _].
    apply andb_prop in Hr as [_ Hr]. now apply Hpos.
Qed.

Lemma rolling_average_is_positive_witness :
  0 < compute_rolling_avg_price_per_m2 df_three_and_ten (150 * 86400) "b" 180.
Proof.
  apply rolling_average_is_positive; unfold Timedelta_representable,
    Timestamp_representable, Timedelta_days; lia.
Defined.

(** X27. The rolling average never looks ahead: rows sold on or after the
    reference date, and rows without a parsed date, can be added anywhere in
    the data frame without changing the result. *)
Theorem rolling_average_never_looks_ahead (df1 later df2 : DataFrame)
  (current_date : Z) (suburb : string) (lookback_days : Z) :
  Forall (fun r => match df_sold_date_parsed r with
                   | Some d => (current_date <= d)%Z
                   | None => True
                   end) later ->
  compute_rolling_avg_price_per_m2 (df1 ++ later ++ df2) current_date suburb
    lookback_days
  = compute_rolling_avg_price_per_m2 (df1 ++ df2) current_date suburb lookback_days.
Proof.
  intro Hlater. rewrite !rolling_subsets. cbv zeta.
  assert (Hnone : forall f : SaleSample -> bool,
            (forall r, f r = true ->
                       match df_sold_date_parsed r with
                       | Some d => (d <? current_date)%Z
                       | None => false
                       end = true) ->
            filter f (df1 ++ later ++ df2) = filter f (df1 ++ df2)).
  { intros f Hf. rewrite !filter_app. f_equal.
    replace (filter f later) with (@nil SaleSample); [reflexivity |].
    symmetry. apply filter_nil_iff. intros r Hr.
    rewrite Forall_forall in Hlater. specialize (Hlater r Hr).
    destruct (f r) eqn:E; [| reflexivity]. apply Hf in E.
    destruct (df_sold_date_parsed r) as [d |]; [| discriminate].
    apply Z.ltb_lt in E. lia. }
  rewrite !Hnone; [reflexivity | |];
    intros r Hr; apply andb_prop in Hr as [Hr _]; now apply andb_prop in Hr as [_ Hr].
Qed.

Lemma rolling_average_never_looks_ahead_witness :
  compute_rolling_avg_price_per_m2
    (df_three_and_ten ++ [sample_on "B" 150 99999] ++ [])
    (150 * 86400) "b" 180
  = compute_rolling_avg_price_per_m2 (df_three_and_ten ++ []) (150 * 86400) "b" 180.
Proof.
  apply rolling_average_never_looks_ahead.
  repeat constructor. simpl. lia.
Defined.

(** ** Case and padding of a property type *)

Section TypeKeys.

Local Open Scope string_scope.

Lemma lower_upper_char (c : ascii) : lower_char (upper_char c) = lower_char c.
Proof.
  destruct c as [[] [] [] [] [] [] [] []]; reflexivity.
Qed.

Lemma isspace_lower_char (c : ascii) : isspace (lower_char c) = isspace c.
Proof.
  destruct c as [[] [] [] [] [] [] [] []]; reflexivity.
Qed.

Lemma lower_upper (s : string) : lower (upper s) = lower s.
Proof.
  unfold lower, upper. induction s as [| c s IH]; simpl; [reflexivity |].
  now rewrite lower_upper_char, IH.
Qed.

Lemma lower_app (a b : string) : lower (a ++ b) = lower a ++ lower b.
Proof.
  unfold lower. induction a as [| c a IH]; simpl; [reflexivity | now rewrite IH].
Qed.

Lemma lower_spaces (sp : string) :
  string_forallb isspace sp = true -> string_forallb isspace (lower sp) = true.
Proof.
  unfold lower. induction sp as [| c sp IH]; simpl; [trivial |].
  intro H. apply andb_prop in H as [Hc Hs].
  now rewrite isspace_lower_char, Hc, IH.
Qed.

Lemma rstrip_spaces (sp : string) : string_forallb isspace sp = true -> rstrip sp = "".
Proof.
  induction sp as [| c sp IH]; simpl; [reflexivity |].
  intro H. apply andb_prop in H as [Hc Hs]. now rewrite (IH Hs), Hc.
Qed.

Lemma rstrip_app_spaces (u sp : string) :
  string_forallb isspace sp = true -> rstrip (u ++ sp) = rstrip u.
Proof.
  intro H. induction u as [| c u IH]; simpl.
  - now apply rstrip_spaces.
  - now rewrite IH.
Qed.

Lemma strip_padding (pad1 pad2 x : string) :
  string_forallb isspace pad1 = true -> string_forallb isspace pad2 = true ->
  strip (pad1 ++ x ++ pad2) = strip x.
Proof.
  intros H1 H2. unfold strip.
  induction pad1 as [| c pad1 IH]; simpl.
  - clear H1. induction x as [| c x IH]; simpl.
    + assert (Hl : lstrip pad2 = "")
        by (clear - H2; induction pad2 as [| c p IH]; simpl in *;
            [reflexivity
            | apply andb_prop in H2 as [Hc Hp]; rewrite Hc; now apply IH]).
      now rewrite Hl.
    + destruct (isspace c); [exact IH |].
      change (String c (x ++ pad2)) with (String c x ++ pad2).
      now apply rstrip_app_spaces.
  - simpl in H1. apply andb_prop in H1 as [Hc H1]. rewrite Hc. now apply IH.
Qed.

Lemma type_key_padding (pad1 pad2 s : string) :
  string_forallb isspace pad1 = true -> string_forallb isspace pad2 = true ->
  type_key (pad1 ++ upper s ++ pad2) = type_key s.
Proof.
  intros H1 H2. unfold type_key.
  rewrite !lower_app, lower_upper. apply strip_padding; now apply lower_spaces.
Qed.

Lemma consolidate_by_key (s : string) :
  consolidate_property_type (Some s) = dict_get PROPERTY_TYPE_MAP (type_key s) "other".
Proof.
  destruct s; reflexivity.
Qed.

Lemma type_predicates_by_key (s : string) :
  is_unit_type (Some s)
  = set_mem (type_key s) UNIT_TYPES
    || String.eqb (dict_get PROPERTY_TYPE_MAP (type_key s) "other") "unit"
  /\ is_house_type (Some s)
     = set_mem (type_key s) HOUSE_TYPES
       || String.eqb (dict_get PROPERTY_TYPE_MAP (type_key s) "other") "house"
  /\ is_townhouse_type (Some s)
     = set_mem (type_key s) TOWNHOUSE_TYPES
       || String.eqb (dict_get PROPERTY_TYPE_MAP (type_key s) "other") "townhouse".
Proof.
  destruct s; repeat split; reflexivity.
Qed.

End TypeKeys.

(** X28. The property type functions ignore case and white space around
    an ASCII type: such a type in capitals with (ASCII) white space before
    and after it is consolidated, classified and given a default land size
    like the type itself. *)
Theorem property_type_ignores_case_and_padding (pad1 pad2 s : string) :
  is_ascii s = true ->
  string_forallb isspace pad1 = true -> string_forallb isspace pad2 = true ->
  let padded := Some (pad1 ++ upper s ++ pad2)%string in
  consolidate_property_type padded = consolidate_property_type (Some s)
  /\ is_unit_type padded = is_unit_type (Some s)
  /\ is_house_type padded = is_house_type (Some s)
  /\ is_townhouse_type padded = is_townhouse_type (Some s)
  /\ get_default_land_size padded = get_default_land_size (Some s).
Proof.
  intros _ H1 H2 padded.
  assert (Hc : consolidate_property_type padded = consolidate_property_type (Some s)).
  { unfold padded. rewrite !consolidate_by_key. now rewrite type_key_padding. }
  destruct (type_predicates_by_key (pad1 ++ upper s ++ pad2)) as (Hu & Hh & Ht).
  destruct (type_predicates_by_key s) as (Hu' & Hh' & Ht').
  unfold padded in *. rewrite Hu, Hh, Ht, Hu', Hh', Ht'.
  rewrite !type_key_padding by assumption.
  unfold get_default_land_size. rewrite Hc. repeat split; reflexivity.
Qed.

Lemma property_type_ignores_case_and_padding_witness :
  consolidate_property_type (Some "  APARTMENT ") = "unit".
Proof.
  refine (proj1 (property_type_ignores_case_and_padding "  " " " "apartment" _ _ _));
    reflexivity.
Defined.
